(** * Baileys: inbound stanza pipeline and outbound media preparation

    A shallow embedding of
    - [src/Socket/messages-recv.ts]: [sendMessageAck], [sendRetryRequest],
      [processNotification], [willSendMessageAgain], [sendMessagesAgain],
      [handleReceipt], [handleNotification] and the [CB:message] handler;
    - the legacy [WhatsAppWebMessages.prepareMediaMessage].

    JavaScript objects used as dictionaries are finite maps of their own
    properties, read through [Object.prototype] where the keys come from
    outside; [undefined] is [None]; asynchronous functions are computations
    in a small monad that threads the socket's mutable state, records every
    outbound effect in order and may throw.  Helpers that the socket imports from other modules
    of the library are fields of the class [Externals]. *)

From Stdlib Require Import ZArith List String Ascii Bool Lia.
From stdpp Require Import base option list gmap strings pretty.

Open Scope string_scope.
Open Scope list_scope.

(** Byte strings ([Buffer], [Uint8Array]). *)
Definition Buffer : Type := list Byte.byte.

(** ** JavaScript values as the socket uses them *)
Module JS.

(** [!!v] for a string-valued property read: [undefined] and the empty
    string are falsy. *)
Definition truthy (v : option string) : bool :=
  match v with
  | Some (String _ _) => true
  | _ => false
  end.

(** [a || b] on string-valued property reads. *)
Definition or (a b : option string) : option string :=
  if truthy a then a else b.

(** [n || d] on a number read from a dictionary: [undefined] and [0] are
    falsy.  Counters are integers well inside the exact range of a
    double, so [Z] is their arithmetic. *)
Definition or_num (n : option Z) (d : Z) : Z :=
  match n with
  | Some v => if (v =? 0)%Z then d else v
  | None => d
  end.

(** *** Plain objects as dictionaries

    An object literal has [Object.prototype] behind it: a read of a key
    that the object does not own gives the member the prototype has under
    that name. *)

(** The names of the members of [Object.prototype] (ECMAScript with
    Annex B, as Node.js has them). *)
Definition Object_prototype : list string :=
  [ "constructor"; "__defineGetter__"; "__defineSetter__"; "hasOwnProperty";
    "__lookupGetter__"; "__lookupSetter__"; "isPrototypeOf";
    "propertyIsEnumerable"; "toString"; "valueOf"; "__proto__";
    "toLocaleString" ].

Definition inherited (k : string) : bool :=
  existsb (String.eqb k) Object_prototype.

(** [String(Object.prototype[k])]: [__proto__] reads as the prototype
    itself, [constructor] as [Object], every other member as the native
    function of its own name. *)
Definition member_text (k : string) : string :=
  if String.eqb k "__proto__" then "[object Object]"
  else if String.eqb k "constructor" then "function Object() { [native code] }"
  else "function " +:+ k +:+ "() { [native code] }".

(** [n] times the character [1]. *)
Fixpoint ones (n : nat) : string :=
  match n with
  | O => ""
  | S n' => "1" +:+ ones n'
  end.

(** A value read from, or stored in, a dictionary of counters: a number,
    or [Words k n], which is no number: for [n = 0] the member of
    [Object.prototype] named [k], and else the text of that member with
    [n] times [1] appended, which is what [+ 1] makes of it.  Such a value
    is truthy and converts to [NaN]. *)
Inductive Counter : Type :=
  | Count (n : Z)
  | Words (member : string) (appended : nat).

(** [obj[k]] *)
Definition get (m : gmap string Counter) (k : string) : option Counter :=
  match m !! k with
  | Some v => Some v
  | None => if inherited k then Some (Words k 0) else None
  end.

(** [obj[k] = v] for a number or a text [v]: an own property is written or
    made, except that without an own property of that name the setter of
    [__proto__] is called, which ignores what is no object. *)
Definition put (k : string) (v : Counter) (m : gmap string Counter)
  : gmap string Counter :=
  match m !! k with
  | Some _ => <[k:=v]> m
  | None => if String.eqb k "__proto__" then m else <[k:=v]> m
  end.

(** [v || d] for a value read from a dictionary of counters. *)
Definition or_count (v : option Counter) (d : Z) : Counter :=
  match v with
  | Some (Count n) => if (n =? 0)%Z then Count d else Count n
  | Some w => w
  | None => Count d
  end.

(** [v + 1]: the next number, or the text with [1] appended. *)
Definition succ (v : Counter) : Counter :=
  match v with
  | Count n => Count (n + 1)
  | Words k n => Words k (S n)
  end.

(** [v >= z], [v > z] and [v < z]: each is false of [NaN]. *)
Definition at_least (v : Counter) (z : Z) : bool :=
  match v with
  | Count n => (z <=? n)%Z
  | Words _ _ => false
  end.

Definition above (v : Counter) (z : Z) : bool :=
  match v with
  | Count n => (z <? n)%Z
  | Words _ _ => false
  end.

Definition below (v : Counter) (z : Z) : bool :=
  match v with
  | Count n => (n <? z)%Z
  | Words _ _ => false
  end.

(** [v.toString()] *)
Definition text (v : Counter) : string :=
  match v with
  | Count n => pretty n
  | Words k n => member_text k +:+ ones n
  end.

(** The number stored, if it is one. *)
Definition count (v : option Counter) : option Z :=
  match v with
  | Some (Count n) => Some n
  | _ => None
  end.

(** Under [k] the dictionary reads as a number or as nothing: it owns a
    number there, or owns nothing and [k] names no member of
    [Object.prototype]. *)
Definition numeric (m : gmap string Counter) (k : string) : bool :=
  match m !! k with
  | Some (Count _) => true
  | Some (Words _ _) => false
  | None => negb (inherited k)
  end.

(** [typeof v !== 'undefined'] *)
Definition defined {A} (v : option A) : bool :=
  match v with
  | Some _ => true
  | None => false
  end.

(** [v === 'lit'] for a property read [v]. *)
Definition is_str (v : option string) (lit : string) : bool :=
  match v with
  | Some x => String.eqb x lit
  | None => false
  end.

(** A property key: [obj[k]] coerces [undefined] to the string
    ["undefined"]. *)
Definition prop_key (k : option string) : string := default "undefined" k.

(** [{ ..., k: v }]: a property whose value is [undefined] reads like a
    missing one. *)
Definition set (k : string) (v : option string) (o : gmap string string)
  : gmap string string :=
  match v with
  | Some s => <[k:=s]> o
  | None => delete k o
  end.

(** [{ ...o, ...extra }]: the later spread wins. *)
Definition spread (o extra : gmap string string) : gmap string string :=
  extra ∪ o.

Definition upper_ascii (c : ascii) : ascii :=
  let n := nat_of_ascii c in
  if (97 <=? n)%nat && (n <=? 122)%nat then ascii_of_nat (n - 32) else c.

(** [String.prototype.toUpperCase] on the ASCII range. *)
Fixpoint toUpperCase (s : string) : string :=
  match s with
  | EmptyString => EmptyString
  | String c r => String (upper_ascii c) (toUpperCase r)
  end.

End JS.

(** ** Stanzas ([WABinary]) *)
Module WABinary.

(** [BinaryNode = { tag, attrs, content? }] where [content] is a list of
    nodes, a string or a byte array. *)
Inductive BinaryNode : Type :=
  mkBinaryNode (tag : string) (attrs : gmap string string) (content : NodeContent)
with NodeContent : Type :=
  | NoContent
  | Text (s : string)
  | Bytes (b : Buffer)
  | Children (l : list BinaryNode).

Definition tag (n : BinaryNode) : string :=
  let 'mkBinaryNode t _ _ := n in t.
Definition attrs (n : BinaryNode) : gmap string string :=
  let 'mkBinaryNode _ a _ := n in a.
Definition content (n : BinaryNode) : NodeContent :=
  let 'mkBinaryNode _ _ c := n in c.

(** [node.attrs.k] *)
Definition attr (n : BinaryNode) (k : string) : option string := attrs n !! k.

(** [Array.isArray(content)] with the array itself. *)
Definition children (c : NodeContent) : option (list BinaryNode) :=
  match c with
  | Children l => Some l
  | _ => None
  end.

(** Modelled from the spec: [getAllBinaryNodeChildren] of [WABinary] is not
    part of the sources at hand; a stanza is "a tagged node with string
    attributes and nested child nodes or a byte-string body", and this
    returns the nested child nodes, none for a body. *)
Definition getAllBinaryNodeChildren (n : BinaryNode) : list BinaryNode :=
  default [] (children (content n)).

(** Modelled from the spec: [getBinaryNodeChildren] of [WABinary], the
    child nodes with the given tag; no node or a body gives none. *)
Definition getBinaryNodeChildren (n : option BinaryNode) (childTag : string)
  : list BinaryNode :=
  match n with
  | Some n =>
      filter (fun c => tag c = childTag) (getAllBinaryNodeChildren n)
  | None => []
  end.

(** Modelled from the spec: [getBinaryNodeChild] of [WABinary], the first
    child node with the given tag. *)
Definition getBinaryNodeChild (n : BinaryNode) (childTag : string)
  : option BinaryNode :=
  head (getBinaryNodeChildren (Some n) childTag).

End WABinary.
Export WABinary.

(** ** Protocol-buffer enumerations and records ([WAProto], [Types]) *)
Module Proto.

(** Modelled from the spec: [proto.WebMessageInfo.WebMessageInfoStatus] is
    not part of the sources at hand; the status "advances monotonically:
    PENDING, SERVER_ACK, DELIVERY_ACK, READ, PLAYED", after the error
    status.  [status_value] is the number the comparison [>] sees. *)
Inductive WebMessageInfoStatus : Type :=
  ERROR | PENDING | SERVER_ACK | DELIVERY_ACK | READ | PLAYED.

Definition status_value (s : WebMessageInfoStatus) : Z :=
  match s with
  | ERROR => 0
  | PENDING => 1
  | SERVER_ACK => 2
  | DELIVERY_ACK => 3
  | READ => 4
  | PLAYED => 5
  end.

(** Modelled from the spec: [WAMessageStubType] of [Types] is not part of
    the sources at hand; these are the members that the socket names, the
    stubs [GROUP_CREATE], [GROUP_PARTICIPANT_<TAG>], the group change stubs
    and the ciphertext placeholder among them. *)
Inductive WAMessageStubType : Type :=
  | CIPHERTEXT
  | GROUP_CREATE
  | GROUP_CHANGE_SUBJECT
  | GROUP_CHANGE_ANNOUNCE
  | GROUP_CHANGE_RESTRICT
  | GROUP_PARTICIPANT_ADD
  | GROUP_PARTICIPANT_REMOVE
  | GROUP_PARTICIPANT_PROMOTE
  | GROUP_PARTICIPANT_DEMOTE
  | GROUP_PARTICIPANT_LEAVE
  | CALL_MISSED_VOICE
  | CALL_MISSED_VIDEO
  | CALL_MISSED_GROUP_VOICE
  | CALL_MISSED_GROUP_VIDEO.

(** [WAMessageStubType[name]]: the enumeration indexed by a member's name;
    [undefined] for a string that names none. *)
Definition WAMessageStubType_named (name : string) : option WAMessageStubType :=
  if String.eqb name "CIPHERTEXT" then Some CIPHERTEXT
  else if String.eqb name "GROUP_CREATE" then Some GROUP_CREATE
  else if String.eqb name "GROUP_CHANGE_SUBJECT" then Some GROUP_CHANGE_SUBJECT
  else if String.eqb name "GROUP_CHANGE_ANNOUNCE" then Some GROUP_CHANGE_ANNOUNCE
  else if String.eqb name "GROUP_CHANGE_RESTRICT" then Some GROUP_CHANGE_RESTRICT
  else if String.eqb name "GROUP_PARTICIPANT_ADD" then Some GROUP_PARTICIPANT_ADD
  else if String.eqb name "GROUP_PARTICIPANT_REMOVE" then Some GROUP_PARTICIPANT_REMOVE
  else if String.eqb name "GROUP_PARTICIPANT_PROMOTE" then Some GROUP_PARTICIPANT_PROMOTE
  else if String.eqb name "GROUP_PARTICIPANT_DEMOTE" then Some GROUP_PARTICIPANT_DEMOTE
  else if String.eqb name "GROUP_PARTICIPANT_LEAVE" then Some GROUP_PARTICIPANT_LEAVE
  else if String.eqb name "CALL_MISSED_VOICE" then Some CALL_MISSED_VOICE
  else if String.eqb name "CALL_MISSED_VIDEO" then Some CALL_MISSED_VIDEO
  else if String.eqb name "CALL_MISSED_GROUP_VOICE" then Some CALL_MISSED_GROUP_VOICE
  else if String.eqb name "CALL_MISSED_GROUP_VIDEO" then Some CALL_MISSED_GROUP_VIDEO
  else None.

(** Modelled from the spec: [proto.IMessageKey], the "tuple {remoteJid, id,
    fromMe, participant?}". *)
Record MessageKey : Type := mkMessageKey {
  remoteJid : option string;
  id : option string;
  fromMe : bool;
  participant : option string;
}.

(** [{ ...key, id }] *)
Definition with_id (key : MessageKey) (i : option string) : MessageKey :=
  {| remoteJid := remoteJid key; id := i; fromMe := fromMe key;
     participant := participant key |}.

(** [key.participant = p] *)
Definition with_participant (key : MessageKey) (p : option string) : MessageKey :=
  {| remoteJid := remoteJid key; id := id key; fromMe := fromMe key;
     participant := p |}.

(** [KeyPair = { public, private }] *)
Record KeyPair : Type := mkKeyPair {
  public : Buffer;
  private : Buffer;
}.

(** [Contact = { id, name? }], the type of [creds.me]. *)
Record Contact : Type := mkContact {
  contact_id : string;
  contact_name : option string;
}.

(** What [jidDecode] returns, as far as the socket reads it. *)
Record FullJid : Type := mkFullJid {
  user : string;
  device : option Z;
}.

End Proto.
Export Proto.

(** ** Settled promises *)

(** An awaited promise either resolves with a value or rejects (the [await]
    throws). *)
Inductive Outcome (A : Type) : Type :=
  | Resolved (a : A)
  | Rejected (reason : string).
Arguments Resolved {A} a.
Arguments Rejected {A} reason.

Definition resolved {A} (o : Outcome A) : bool :=
  match o with
  | Resolved _ => true
  | Rejected _ => false
  end.


(** ** Asynchronous functions as computations

    An [async] function of the socket runs from a state [S], leaves a state,
    records the effects it performed on the outside world in order, and
    either returns or throws.  The library is single-threaded and
    cooperative; a run here is one task taken from its start to the point
    where its promise settles. *)
Module Task.

Section Monad.
Context {S E : Type}.

Record Run (A : Type) : Type := mkRun {
  outcome : Outcome A;
  final : S;
  effects : list E;
}.
Arguments mkRun {A} _ _ _.
Arguments outcome {A} _.
Arguments final {A} _.
Arguments effects {A} _.

Definition t (A : Type) : Type := S -> Run A.

Definition ret {A} (a : A) : t A :=
  fun s => mkRun (Resolved a) s [].

Definition throw {A} (reason : string) : t A :=
  fun s => mkRun (Rejected reason) s [].

Definition bind {A B} (m : t A) (k : A -> t B) : t B :=
  fun s =>
    let r := m s in
    match outcome r with
    | Resolved a =>
        let r' := k a (final r) in
        mkRun (outcome r') (final r') (effects r ++ effects r')
    | Rejected e => mkRun (Rejected e) (final r) (effects r)
    end.

(** One effect on the outside world. *)
Definition perform (e : E) : t unit :=
  fun s => mkRun (Resolved tt) s [e].

Definition get : t S :=
  fun s => mkRun (Resolved s) s [].

Definition modify (f : S -> S) : t unit :=
  fun s => mkRun (Resolved tt) (f s) [].

(** [await p] for a promise of the outside world that has settled as [o]. *)
Definition await {A} (o : Outcome A) : t A :=
  fun s => mkRun o s [].

(** [try { m } catch(error) { h }] *)
Definition try_catch {A} (m : t A) (h : string -> t A) : t A :=
  fun s =>
    let r := m s in
    match outcome r with
    | Resolved a => r
    | Rejected e =>
        let r' := h e (final r) in
        mkRun (outcome r') (final r') (effects r ++ effects r')
    end.

(** [if(c) { m }] *)
Definition when (c : bool) (m : t unit) : t unit :=
  if c then m else ret tt.

(** Several effects started one after the other. *)
Definition perform_all (es : list E) : t unit :=
  fun s => mkRun (Resolved tt) s es.

End Monad.

Arguments Run : clear implicits.
Arguments t : clear implicits.
Arguments mkRun {S E A} _ _ _.
Arguments outcome {S E A} _.
Arguments final {S E A} _.
Arguments effects {S E A} _.

End Task.

Declare Scope task_scope.
Delimit Scope task_scope with task.
Notation "x <- m ;; k" := (Task.bind m (fun x => k))
  (at level 100, m at next level, right associativity) : task_scope.
Notation "m ;; k" := (Task.bind m (fun _ => k))
  (at level 100, right associativity) : task_scope.

(** ** Payloads and records of [Types] and [WAProto] *)

(** Types of values that the socket only passes on. *)
Class Payloads : Type := {
  Account : Type;
  SignedKeyPair : Type;
  CredsUpdate : Type;
  IMessage : Type;
  GroupMetadata : Type;
  MediaRetryEvent : Type;
  (** a JavaScript number obtained from an attribute by unary [+] *)
  Num : Type;
}.

Section Types.
Context {P : Payloads}.

(** [authState.creds] *)
Record AuthenticationCreds : Type := mkCreds {
  account : Account;
  signedPreKey : SignedKeyPair;
  signedIdentityKey : KeyPair;
  registrationId : Z;
  me : option Contact;
}.

(** The content of a message: the protocol message that
    [processNotification] builds, or a payload decoded elsewhere. *)
Inductive MessageContent : Type :=
  | protocolMessage_EPHEMERAL_SETTING (ephemeralExpiration : Num)
  | decoded (m : IMessage).

(** [proto.IWebMessageInfo], the fields the socket touches. *)
Record WebMessageInfo : Type := mkWebMessageInfo {
  key : MessageKey;
  message : option MessageContent;
  messageStubType : option WAMessageStubType;
  messageStubParameters : option (list (option string));
  msg_participant : option string;
  messageTimestamp : option Num;
}.

(** What [decodeMessageStanza] returns.  [decryptionTask] is a promise that
    fills [fullMessage] in place; [decrypted] is [fullMessage] as it reads
    once that promise has settled ("whose failure leaves messageStubType =
    CIPHERTEXT"). *)
Record DecodedStanza : Type := mkDecodedStanza {
  fullMessage : WebMessageInfo;
  category : option string;
  author : option string;
  decrypted : WebMessageInfo;
}.

(** [MessageUserReceipt] as [handleReceipt] fills it. *)
Record MessageUserReceipt : Type := mkMessageUserReceipt {
  userJid : string;
  receiptTimestamp : option Num;
  readTimestamp : option Num;
}.

Inductive MessageUpsertType : Type := Append | Notify.

(** The events of [BaileysEventMap] that the socket emits, with their
    payloads. *)
Inductive BaileysEvent : Type :=
  | creds_update (update : CredsUpdate)
  | chats_upsert (chat_id name : option string) (conversationTimestamp : option Num)
  | groups_upsert (metadata : list GroupMetadata)
  | messages_media_update (events : list MediaRetryEvent)
  | message_receipt_update (updates : list (MessageKey * MessageUserReceipt))
  | messages_update (updates : list (MessageKey * WebMessageInfoStatus))
  | messages_upsert (messages : list WebMessageInfo) (type : MessageUpsertType).

(** What a task does to the outside world, in the order it does it. *)
#[warnings="-register-all"]
Inductive Effect : Type :=
  | SendNode (stanza : BinaryNode)
  | Emit (event : BaileysEvent)
  | GetMessage (key : MessageKey)
  | AssertSessions (jids : list (option string)) (force : bool)
  | KeysSetSenderKeyMemory (jid : option string)
  | RelayMessage (jid : option string) (msg : IMessage)
      (messageId participant : option string)
  | SendReceipt (jid participant : option string) (ids : list (option string))
      (type : option string)
  | GetNextPreKeys
  | UploadPreKeys
  | AwaitDecryption
  | Delay (ms : Z)
  | Spawned (task : list Effect).

(** The mutable state one socket owns or reads. *)
Record Socket : Type := mkSocket {
  msgRetryMap : gmap string JS.Counter;
  sendActiveReceipts : bool;
  ws_open : bool;
  creds : AuthenticationCreds;
}.

End Types.

(** ** What the socket imports

    [makeMessagesRecvSocket] closes over its configuration, over the socket
    of the layer below ([makeChatsSocket]) and over helpers of [Utils],
    [WABinary] and [Defaults].  None of them is defined in
    [messages-recv.ts]; they are the fields of this class, each with the
    name it has in the source.  A helper that returns a promise is given by
    the way that promise settles. *)
Class Externals {P : Payloads} : Type := {
  unary_plus : option string -> Num;
  num_zero : Num;
  num_lt : Num -> Num -> bool;
  (** [WABinary] *)
  areJidsSameUser : option string -> option string -> bool;
  isJidGroup : option string -> bool;
  isJidUser : option string -> bool;
  jidDecode : string -> option FullJid;
  jidEncode : string -> string -> option Z -> option Z -> string;
  jidNormalizedUser : option string -> string;
  S_WHATSAPP_NET : string;
  (** [Defaults] *)
  KEY_BUNDLE_TYPE : Buffer;
  MIN_PREKEY_COUNT : Num;
  (** [Utils] *)
  encodeBigEndian : Z -> Buffer;
  generateSignalPubKey : Buffer -> Buffer;
  xmppPreKey : KeyPair -> Z -> BinaryNode;
  xmppSignedPreKey : SignedKeyPair -> BinaryNode;
  getStatusFromReceiptType : option string -> option WebMessageInfoStatus;
  decodeMediaRetryNode : BinaryNode -> MediaRetryEvent;
  decodeMessageStanza : BinaryNode -> AuthenticationCreds -> DecodedStanza;
  cleanMessage : WebMessageInfo -> string -> WebMessageInfo;
  (** [getNextPreKeys(authState, 1)]: the credentials update and the one
      fresh pre-key with its id *)
  getNextPreKeys : AuthenticationCreds -> Outcome (CredsUpdate * (Z * KeyPair));
  (** [proto.ADVSignedDeviceIdentity.encode(account).finish()] *)
  encodeDeviceIdentity : Account -> Buffer;
  (** [./groups] *)
  extractGroupMetadata : BinaryNode -> GroupMetadata;
  metadata_id : GroupMetadata -> option string;
  metadata_subject : GroupMetadata -> option string;
  metadata_owner : GroupMetadata -> option string;
  metadata_creation : GroupMetadata -> option Num;
  (** configuration and the socket below *)
  retryRequestDelayMs : option Z;
  getMessage : MessageKey -> Outcome (option IMessage);
  assertSessions : list (option string) -> bool -> Outcome unit;
  keys_set_sender_key_memory : option string -> Outcome unit;
  relayMessage :
    option string -> IMessage -> option string -> option string -> Outcome unit;
}.

Module MessagesRecv.

Section makeMessagesRecvSocket.
Context {P : Payloads} {X : Externals}.

Definition Task (A : Type) : Type := Task.t Socket Effect A.

Local Open Scope task_scope.

(** [sendNode(stanza)]: "fire-and-forget stanza write". *)
Definition sendNode (stanza : BinaryNode) : Task unit :=
  Task.perform (SendNode stanza).

(** [ev.emit(name, payload)] *)
Definition ev_emit (event : BaileysEvent) : Task unit :=
  Task.perform (Emit event).

(** The [attrs] of the stanza that [sendMessageAck] builds. *)
Definition ack_attrs (node : BinaryNode) (extraAttrs : gmap string string)
  : gmap string string :=
  let a0 :=
    JS.spread
      (JS.set "class" (Some (tag node))
         (JS.set "to" (attr node "from")
            (JS.set "id" (attr node "id") ∅)))
      extraAttrs in
  let a1 :=
    if JS.truthy (attr node "participant")
    then JS.set "participant" (attr node "participant") a0
    else a0 in
  if negb (String.eqb (tag node) "message")
     && JS.truthy (attr node "type")
     && negb (JS.truthy (extraAttrs !! "type"))
  then JS.set "type" (attr node "type") a1
  else a1.

(** [sendMessageAck({ tag, attrs }, extraAttrs = { })] *)
Definition sendMessageAck (node : BinaryNode) (extraAttrs : gmap string string)
  : Task unit :=
  let stanza := mkBinaryNode "ack" (ack_attrs node extraAttrs) NoContent in
  sendNode stanza.

(** [msgRetryMap = f(msgRetryMap)]; the map is one object shared by every
    function of the socket. *)
Definition update_msgRetryMap
    (f : gmap string JS.Counter -> gmap string JS.Counter) : Task unit :=
  Task.modify (fun s =>
    {| msgRetryMap := f (msgRetryMap s);
       sendActiveReceipts := sendActiveReceipts s;
       ws_open := ws_open s;
       creds := creds s |}).

(** [msgRetryMap[msgId] || 1], the count a retry request carries. *)
Definition retryCount_of (m : gmap string JS.Counter) (msgId : option string)
  : JS.Counter :=
  JS.or_count (JS.get m (JS.prop_key msgId)) 1.

(** The [keys] child that [sendRetryRequest] pushes when [retryCount > 1]. *)
Definition keys_node (c : AuthenticationCreds) (keyId : Z) (key : KeyPair)
  : BinaryNode :=
  let identityKey := signedIdentityKey c in
  let deviceIdentity := encodeDeviceIdentity (account c) in
  let exec := take 1 (generateSignalPubKey KEY_BUNDLE_TYPE) in
  mkBinaryNode "keys" ∅
    (Children
       [ mkBinaryNode "type" ∅ (Bytes exec);
         mkBinaryNode "identity" ∅ (Bytes (public identityKey));
         xmppPreKey key keyId;
         xmppSignedPreKey (signedPreKey c);
         mkBinaryNode "device-identity" ∅ (Bytes deviceIdentity) ]).

(** The [receipt] stanza of [sendRetryRequest], once [to] is known. *)
Definition retry_receipt (node : BinaryNode) (retryCount : JS.Counter)
    (c : AuthenticationCreds) (keyId : Z) (key : KeyPair) (to : option string)
  : BinaryNode :=
  let msgId := attr node "id" in
  let a0 := JS.set "to" to (JS.set "type" (Some "retry") (JS.set "id" msgId ∅)) in
  let content0 :=
    [ mkBinaryNode "retry"
        (JS.set "v" (Some "1")
           (JS.set "t" (attr node "t")
              (JS.set "id" (attr node "id")
                 (JS.set "count" (Some (JS.text retryCount)) ∅))))
        NoContent;
      mkBinaryNode "registration" ∅ (Bytes (encodeBigEndian (registrationId c))) ] in
  let a1 :=
    if JS.truthy (attr node "recipient")
    then JS.set "recipient" (attr node "recipient") a0 else a0 in
  let a2 :=
    if JS.truthy (attr node "participant")
    then JS.set "participant" (attr node "participant") a1 else a1 in
  let content1 :=
    if JS.above retryCount 1
    then (content0 ++ [keys_node c keyId key])%list else content0 in
  mkBinaryNode "receipt" a2 (Children content1).

(** The [to] attribute of the retry receipt: [isGroup ? node.attrs.from :
    jidEncode(decFrom!.user, 's.whatsapp.net', decFrom!.device, 0)], where
    reading [decFrom!.user] throws when [decFrom] is [undefined] ([None]
    here). *)
Definition retry_receipt_to (node : BinaryNode) : option (option string) :=
  let isGroup := JS.truthy (attr node "participant") in
  let decFrom :=
    if JS.truthy (attr node "from") then attr node "from" ≫= jidDecode else None in
  if isGroup then Some (attr node "from")
  else match decFrom with
       | Some d => Some (Some (jidEncode (user d) "s.whatsapp.net" (device d) (Some 0%Z)))
       | None => None
       end.

(** [sendRetryRequest(node)] *)
Definition sendRetryRequest (node : BinaryNode) : Task unit :=
  s <- Task.get ;;
  let msgId := attr node "id" in
  let retryCount := retryCount_of (msgRetryMap s) msgId in
  if JS.at_least retryCount 5 then
    update_msgRetryMap (delete (JS.prop_key msgId))
  else
    update_msgRetryMap (JS.put (JS.prop_key msgId) (JS.succ retryCount)) ;;
    let c := creds s in
    (* authState.keys.transaction(async() => { ... }) *)
    Task.perform GetNextPreKeys ;;
    r <- Task.await (getNextPreKeys c) ;;
    let update := fst r in
    let keyId := fst (snd r) in
    let key := snd (snd r) in
    to <- match retry_receipt_to node with
          | Some to => Task.ret to
          | None => Task.throw "TypeError: decFrom is undefined"
          end ;;
    sendNode (retry_receipt node retryCount c keyId key to) ;;
    ev_emit (creds_update update).

(** [Partial<proto.IWebMessageInfo>] as [processNotification] fills it; a
    property that was never assigned is [None].  [result_key] is the object
    [{ participant: metadata.owner }]. *)
Record PartialMessage : Type := mkPartialMessage {
  result_key : option (option string);
  result_message : option MessageContent;
  result_messageStubType : option WAMessageStubType;
  result_messageStubParameters : option (list (option string));
}.

Definition empty_result : PartialMessage :=
  mkPartialMessage None None None None.

(** [Object.keys(result).length] as a truth value. *)
Definition has_keys (r : PartialMessage) : bool :=
  JS.defined (result_key r) || JS.defined (result_message r)
  || JS.defined (result_messageStubType r)
  || JS.defined (result_messageStubParameters r).

(** A promise-returning function called without [await] and with a [.catch]
    that only logs: the task runs on its own; its effects are kept apart
    from the caller's and its outcome is dropped. *)
Definition spawn (m : Task unit) : Task unit :=
  fun s =>
    let r := m s in
    Task.mkRun (Resolved tt) (Task.final r) [Spawned (Task.effects r)].

(** [handleEncryptNotification(node)] *)
Definition handleEncryptNotification (node : BinaryNode) : Task unit :=
  let from := attr node "from" in
  if JS.is_str from S_WHATSAPP_NET then
    match getBinaryNodeChild node "count" with
    | Some countChild =>
        let count := unary_plus (attr countChild "value") in
        let shouldUploadMorePreKeys := num_lt count MIN_PREKEY_COUNT in
        Task.when shouldUploadMorePreKeys (Task.perform UploadPreKeys)
    | None => Task.throw "TypeError: countChild is undefined"
    end
  else Task.ret tt.

(** The [w:gp2] arm of [processNotification]: [switch (child?.tag)] for a
    first child that exists. *)
Definition group_notification (node child : BinaryNode) : Task PartialMessage :=
  let t := tag child in
  if String.eqb t "create" then
    let metadata := extractGroupMetadata child in
    ev_emit (chats_upsert (metadata_id metadata) (metadata_subject metadata)
               (metadata_creation metadata)) ;;
    ev_emit (groups_upsert [metadata]) ;;
    Task.ret
      {| result_key := Some (metadata_owner metadata);
         result_message := None;
         result_messageStubType := Some GROUP_CREATE;
         result_messageStubParameters := Some [metadata_subject metadata] |}
  else if String.eqb t "ephemeral" || String.eqb t "not_ephemeral" then
    let expiration :=
      if JS.truthy (attr child "expiration")
      then unary_plus (attr child "expiration") else num_zero in
    Task.ret
      {| result_key := None;
         result_message := Some (protocolMessage_EPHEMERAL_SETTING expiration);
         result_messageStubType := None;
         result_messageStubParameters := None |}
  else if String.eqb t "promote" || String.eqb t "demote" || String.eqb t "remove"
          || String.eqb t "add" || String.eqb t "leave" then
    let stubType := "GROUP_PARTICIPANT_" +:+ JS.toUpperCase t in
    let participants :=
      map (fun p => attr p "jid") (getBinaryNodeChildren (Some child) "participant") in
    let reclassify :=
      (length participants =? 1)%nat
      && areJidsSameUser (default None (head participants)) (attr node "participant")
      && String.eqb t "remove" in
    Task.ret
      {| result_key := None;
         result_message := None;
         result_messageStubType :=
           if reclassify then Some GROUP_PARTICIPANT_LEAVE
           else WAMessageStubType_named stubType;
         result_messageStubParameters := Some participants |}
  else if String.eqb t "subject" then
    Task.ret
      {| result_key := None;
         result_message := None;
         result_messageStubType := Some GROUP_CHANGE_SUBJECT;
         result_messageStubParameters := Some [attr child "subject"] |}
  else if String.eqb t "announcement" || String.eqb t "not_announcement" then
    Task.ret
      {| result_key := None;
         result_message := None;
         result_messageStubType := Some GROUP_CHANGE_ANNOUNCE;
         result_messageStubParameters :=
           Some [Some (if String.eqb t "announcement" then "on" else "off")] |}
  else if String.eqb t "locked" || String.eqb t "unlocked" then
    Task.ret
      {| result_key := None;
         result_message := None;
         result_messageStubType := Some GROUP_CHANGE_RESTRICT;
         result_messageStubParameters :=
           Some [Some (if String.eqb t "locked" then "on" else "off")] |}
  else Task.ret empty_result.

(** [processNotification(node)] *)
Definition processNotification (node : BinaryNode) : Task (option PartialMessage) :=
  let child := head (getAllBinaryNodeChildren node) in
  let nodeType := attr node "type" in
  result <-
    (if JS.is_str nodeType "w:gp2" then
       match child with
       | Some child => group_notification node child
       | None => Task.ret empty_result
       end
     else if JS.is_str nodeType "mediaretry" then
       ev_emit (messages_media_update [decodeMediaRetryNode node]) ;;
       Task.ret empty_result
     else if JS.is_str nodeType "encrypt" then
       Task.try_catch (handleEncryptNotification node) (fun _ => Task.ret tt) ;;
       Task.ret empty_result
     else if JS.is_str nodeType "devices" then
       s <- Task.get ;;
       match child, me (creds s) with
       | Some _, Some _ => Task.ret empty_result
       | _, _ => Task.throw "TypeError: cannot read properties of undefined"
       end
     else Task.ret empty_result) ;;
  Task.ret (if has_keys result then Some result else None).

(** [willSendMessageAgain(id)], reading the shared map. *)
Definition willSendMessageAgain (m : gmap string JS.Counter) (i : option string)
  : bool :=
  let retryCount := JS.or_count (JS.get m (JS.prop_key i)) 0 in
  JS.below retryCount 5.

(** [Promise.all] over promises that have settled: the values when all
    resolved, else the first rejection. *)
Fixpoint promise_all {A} (os : list (Outcome A)) : Outcome (list A) :=
  match os with
  | [] => Resolved []
  | Resolved a :: rest =>
      match promise_all rest with
      | Resolved l => Resolved (a :: l)
      | Rejected e => Rejected e
      end
  | Rejected e :: _ => Rejected e
  end.

(** The [for] loop of [sendMessagesAgain] over [ids[i]], [msgs[i]]. *)
Fixpoint resend_each (key : MessageKey) (participant : option string)
    (items : list (option string * option IMessage)) : Task unit :=
  match items with
  | [] => Task.ret tt
  | (i, m) :: rest =>
      match m with
      | Some m =>
          update_msgRetryMap (fun mp =>
            JS.put (JS.prop_key i)
              (JS.succ (JS.or_count (JS.get mp (JS.prop_key i)) 0)) mp) ;;
          Task.perform (RelayMessage (remoteJid key) m i participant) ;;
          Task.await (relayMessage (remoteJid key) m i participant)
      | None => Task.ret tt
      end ;;
      resend_each key participant rest
  end.

(** [sendMessagesAgain(key, ids)] *)
Definition sendMessagesAgain (key : MessageKey) (ids : list (option string))
  : Task unit :=
  let keys := map (with_id key) ids in
  Task.perform_all (map GetMessage keys) ;;
  msgs <- Task.await (promise_all (map getMessage keys)) ;;
  let participant := JS.or (participant key) (remoteJid key) in
  Task.perform (AssertSessions [participant] true) ;;
  Task.await (assertSessions [participant] true) ;;
  (if isJidGroup (remoteJid key) then
     Task.perform (KeysSetSenderKeyMemory (remoteJid key)) ;;
     Task.await (keys_set_sender_key_memory (remoteJid key))
   else Task.ret tt) ;;
  resend_each key participant (zip ids msgs).

(** The values [handleReceipt] derives from the stanza before it enters the
    per-chat mutex. *)
Definition receipt_isNodeFromMe (c : AuthenticationCreds) (node : BinaryNode) : bool :=
  areJidsSameUser (JS.or (attr node "participant") (attr node "from"))
    (contact_id <$> me c).

Definition receipt_remoteJid (c : AuthenticationCreds) (node : BinaryNode)
  : option string :=
  if negb (receipt_isNodeFromMe c node) || isJidGroup (attr node "from")
  then attr node "from" else attr node "recipient".

Definition receipt_fromMe (c : AuthenticationCreds) (node : BinaryNode) : bool :=
  negb (JS.truthy (attr node "recipient"))
  || (JS.is_str (attr node "type") "retry" && receipt_isNodeFromMe c node).

Definition receipt_ids (node : BinaryNode) : list (option string) :=
  attr node "id" ::
  match children (content node) with
  | Some content =>
      map (fun i => attr i "id") (getBinaryNodeChildren (head content) "item")
  | None => []
  end.

Definition receipt_key (c : AuthenticationCreds) (node : BinaryNode) : MessageKey :=
  {| remoteJid := receipt_remoteJid c node;
     id := Some "";
     fromMe := receipt_fromMe c node;
     participant := attr node "participant" |}.

(** The status updates of [handleReceipt]: the first [if] inside the
    mutex. *)
Definition receipt_updates (c : AuthenticationCreds) (node : BinaryNode)
  : Task unit :=
  let isNodeFromMe := receipt_isNodeFromMe c node in
  let remoteJid := receipt_remoteJid c node in
  let key := receipt_key c node in
  let ids := receipt_ids node in
  match getStatusFromReceiptType (attr node "type") with
  | Some status =>
      if (status_value DELIVERY_ACK <? status_value status)%Z || negb isNodeFromMe
      then
        if isJidGroup remoteJid then
          let t := Some (unary_plus (attr node "t")) in
          let isDeliveryAck :=
            (status_value status =? status_value DELIVERY_ACK)%Z in
          ev_emit (message_receipt_update
            (map (fun i =>
                    (with_id key i,
                     {| userJid := jidNormalizedUser (attr node "participant");
                        receiptTimestamp := if isDeliveryAck then t else None;
                        readTimestamp := if isDeliveryAck then None else t |}))
               ids))
        else
          ev_emit (messages_update (map (fun i => (with_id key i, status)) ids))
      else Task.ret tt
  | None => Task.ret tt
  end.

(** The [retry] arm of [handleReceipt]; returns [shouldAck]. *)
Definition receipt_retry (c : AuthenticationCreds) (node : BinaryNode)
  : Task bool :=
  let key := receipt_key c node in
  let ids := receipt_ids node in
  if JS.is_str (attr node "type") "retry" then
    s <- Task.get ;;
    if willSendMessageAgain (msgRetryMap s) (default None (head ids)) then
      let key := with_participant key (JS.or (participant key) (attr node "from")) in
      if fromMe key then
        Task.try_catch
          (sendMessagesAgain key ids ;; Task.ret true)
          (fun _ => Task.ret false)
      else Task.ret true
    else Task.ret true
  else Task.ret true.

(** [handleReceipt(node)] *)
Definition handleReceipt (node : BinaryNode) : Task unit :=
  s <- Task.get ;;
  let c := creds s in
  (* processingMutex.mutex(remoteJid, async() => { ... }) *)
  receipt_updates c node ;;
  shouldAck <- receipt_retry c node ;;
  Task.when shouldAck (sendMessageAck node ∅).

(** [handleNotification(node)] *)
Definition handleNotification (node : BinaryNode) : Task unit :=
  let remoteJid := attr node "from" in
  sendMessageAck node ∅ ;;
  msg <- processNotification node ;;
  match msg with
  | Some msg =>
      s <- Task.get ;;
      match me (creds s) with
      | Some m =>
          let fromMe :=
            areJidsSameUser (JS.or (attr node "participant") remoteJid)
              (Some (contact_id m)) in
          let fullMsg :=
            {| key :=
                 {| Proto.remoteJid := remoteJid;
                    Proto.fromMe := fromMe;
                    Proto.participant :=
                      match result_key msg with
                      | Some owner => owner
                      | None => attr node "participant"
                      end;
                    Proto.id := attr node "id" |};
               message := result_message msg;
               messageStubType := result_messageStubType msg;
               messageStubParameters := result_messageStubParameters msg;
               msg_participant := attr node "participant";
               messageTimestamp := Some (unary_plus (attr node "t")) |} in
          ev_emit (messages_upsert [fullMsg] Append)
      | None => Task.throw "TypeError: me is undefined"
      end
  | None => Task.ret tt
  end.

Definition is_CIPHERTEXT (t : option WAMessageStubType) : bool :=
  match t with
  | Some CIPHERTEXT => true
  | _ => false
  end.

(** The body given to [retryMutex.mutex] by the [CB:message] handler. *)
Definition retry_task (stanza : BinaryNode) : Task unit :=
  s <- Task.get ;;
  if ws_open s then
    sendRetryRequest stanza ;;
    match retryRequestDelayMs with
    | Some ms => Task.when (negb (ms =? 0)%Z) (Task.perform (Delay ms))
    | None => Task.ret tt
    end
  else Task.ret tt.

(** The receipt the [CB:message] handler sends for a decrypted message. *)
Definition delivery_receipt (d : DecodedStanza) (msg : WebMessageInfo)
    (sendActive : bool) : Effect :=
  let k := key msg in
  if JS.is_str (category d) "peer" then
    SendReceipt (remoteJid k) (participant k) [id k] (Some "peer_msg")
  else if fromMe k then
    SendReceipt (remoteJid k)
      (if isJidUser (remoteJid k) then author d else participant k)
      [id k] (Some "sender")
  else if negb sendActive then
    SendReceipt (remoteJid k) (participant k) [id k] (Some "inactive")
  else
    SendReceipt (remoteJid k) (participant k) [id k] None.

(** The task that the [CB:message] handler queues on the per-chat mutex,
    for a stanza that [decodeMessageStanza] took apart as [d]. *)
Definition message_task (stanza : BinaryNode) (d : DecodedStanza) : Task unit :=
  sendMessageAck stanza ∅ ;;
  Task.perform AwaitDecryption ;;
  let msg := decrypted d in
  s <- Task.get ;;
  (if is_CIPHERTEXT (messageStubType msg) then
     spawn (retry_task stanza)
   else
     Task.perform (delivery_receipt d msg (sendActiveReceipts s))) ;;
  match me (creds s) with
  | Some m =>
      let msg := cleanMessage msg (contact_id m) in
      ev_emit (messages_upsert [msg]
                 (if JS.truthy (attr stanza "offline") then Append else Notify))
  | None => Task.throw "TypeError: me is undefined"
  end.

(** [ws.on('CB:message', stanza => ...)] *)
Definition on_message (stanza : BinaryNode) : Task unit :=
  s <- Task.get ;;
  message_task stanza (decodeMessageStanza stanza (creds s)).

End makeMessagesRecvSocket.

End MessagesRecv.

(** ** Outbound media preparation ([WhatsAppWebMessages]) *)
Module Media.

(** [Buffer.prototype.toString('base64')]: RFC 4648 base 64 with the
    standard alphabet and [=] padding. *)
Definition base64_alphabet : string :=
  "ABCDEFGHIJKLMNOPQRSTUVWXYZabcdefghijklmnopqrstuvwxyz0123456789+/".

Definition base64_digit (n : N) : ascii :=
  default "="%char (String.get (N.to_nat n) base64_alphabet).

Definition sextets3 (x y z : Byte.byte) : N * N * N * N :=
  let a := Byte.to_N x in
  let b := Byte.to_N y in
  let c := Byte.to_N z in
  (N.shiftr a 2,
   N.lor (N.shiftl (N.land a 3) 4) (N.shiftr b 4),
   N.lor (N.shiftl (N.land b 15) 2) (N.shiftr c 6),
   N.land c 63).

Fixpoint toString_base64 (b : Buffer) : string :=
  match b with
  | [] => ""
  | [x] =>
      let '(s1, s2, _, _) := sextets3 x Byte.x00 Byte.x00 in
      String (base64_digit s1) (String (base64_digit s2) "==")
  | [x; y] =>
      let '(s1, s2, s3, _) := sextets3 x y Byte.x00 in
      String (base64_digit s1) (String (base64_digit s2)
        (String (base64_digit s3) "="))
  | x :: y :: z :: rest =>
      let '(s1, s2, s3, s4) := sextets3 x y z in
      String (base64_digit s1) (String (base64_digit s2)
        (String (base64_digit s3) (String (base64_digit s4)
          (toString_base64 rest))))
  end.

(** [s.replace(/c/g, d)] for a pattern that is the single character [c]. *)
Fixpoint replace_all (c d : ascii) (s : string) : string :=
  match s with
  | EmptyString => EmptyString
  | String x r => String (if Ascii.eqb x c then d else x) (replace_all c d r)
  end.

Fixpoint only_equals (s : string) : bool :=
  match s with
  | EmptyString => true
  | String x r => Ascii.eqb x "="%char && only_equals r
  end.

(** [s.replace(/\=+$/, '')]: the leftmost place from which only [=] signs
    follow up to the end of the string is where the match starts. *)
Fixpoint strip_trailing_equals (s : string) : string :=
  match s with
  | EmptyString => EmptyString
  | String x r => if only_equals s then EmptyString else String x (strip_trailing_equals r)
  end.

(** Modelled from the spec: [MessageType] of [./Constants] is not part of
    the sources at hand; the media types are "image | video | audio |
    document | sticker", the others are the ones [sendMessage] names. *)
Inductive MessageType : Type :=
  | text | extendedText | location | liveLocation | contact
  | image | video | audio | document | sticker.

Definition MessageType_eqb (a b : MessageType) : bool :=
  match a, b with
  | text, text | extendedText, extendedText | location, location
  | liveLocation, liveLocation | contact, contact | image, image
  | video, video | audio, audio | document, document | sticker, sticker => true
  | _, _ => false
  end.

(** [MessageOptions], the fields [prepareMediaMessage] reads or writes. *)
Record MessageOptions : Type := mkMessageOptions {
  mimetype : option string;
  caption : option string;
  thumbnail : option string;
}.

(** What [getMediaKeys] returns. *)
Record MediaKeys : Type := mkMediaKeys {
  iv : Buffer;
  cipherKey : Buffer;
  macKey : Buffer;
}.

(** [media_conn] of the [mediaConn] query, the fields that are read. *)
Record MediaConn : Type := mkMediaConn {
  auth : string;
  hosts : list string;
}.

(** The collaborators of [prepareMediaMessage]: helpers of
    [../WAConnection/Utils] and [./Utils], tables of [./Constants], the
    connection's [query] and [node-fetch].  [randomBytes n] is the value
    drawn in the run at hand. *)
Class MediaExternals : Type := {
  Mimetype_gif : string;
  MimetypeMap : MessageType -> option string;
  MediaPathMap : MessageType -> option string;
  randomBytes : nat -> Buffer;
  getMediaKeys : Buffer -> MessageType -> MediaKeys;
  aesEncrypWithIV : Buffer -> Buffer -> Buffer -> Buffer;
  hmacSign : Buffer -> Buffer -> Buffer;
  sha256 : Buffer -> Buffer;
  generateThumbnail : Buffer -> MessageType -> MessageOptions -> Outcome MessageOptions;
  query_mediaConn : Outcome MediaConn;
  (** [fetch(url, { method: 'POST', body })] then [.json()], read at [url] *)
  fetch_post : string -> Buffer -> Outcome (option string);
}.

(** The object stored under [message[mediaType]]. *)
Record MediaContent : Type := mkMediaContent {
  url : string;
  mediaKey : string;
  content_mimetype : option string;
  fileEncSha256 : string;
  fileSha256 : string;
  fileLength : nat;
  gifPlayback : option bool;
}.

Inductive MediaEffect : Type :=
  | Query_mediaConn
  | Post (url : string) (body : Buffer).

Section WhatsAppWebMessages.
Context {M : MediaExternals}.

Local Open Scope task_scope.

Definition MediaTask (A : Type) : Type := Task.t unit MediaEffect A.

(** [options.mimetype === Mimetype.gif] *)
Definition is_gif (m : option string) : bool :=
  match m with
  | Some x => String.eqb x Mimetype_gif
  | None => false
  end.

(** [sha256(body).toString('base64').replace(/\+/g, '-').replace(/\//g, '_')
    .replace(/\=+$/, '')] *)
Definition url_safe (s : string) : string :=
  strip_trailing_equals (replace_all "/" "_" (replace_all "+" "-" s)).

(** [prepareMediaMessage(buffer, mediaType, options = {})]; the result is
    the pair of the key [mediaType] and the object stored under it. *)
Definition prepareMediaMessage (buffer : Buffer) (mediaType : MessageType)
    (options : MessageOptions) : MediaTask (MessageType * MediaContent) :=
  if MessageType_eqb mediaType document && negb (JS.truthy (mimetype options)) then
    Task.throw "mimetype required to send a document"
  else if MessageType_eqb mediaType sticker && JS.truthy (caption options) then
    Task.throw "cannot send a caption with a sticker"
  else
    let mimetype0 :=
      if negb (JS.truthy (mimetype options)) then MimetypeMap mediaType
      else mimetype options in
    let isGIF := is_gif mimetype0 in
    let mimetype1 := if isGIF then MimetypeMap video else mimetype0 in
    let options := {| mimetype := mimetype1; caption := caption options;
                      thumbnail := thumbnail options |} in
    let mediaKey := randomBytes 32 in
    let mediaKeys := getMediaKeys mediaKey mediaType in
    let enc := aesEncrypWithIV buffer (cipherKey mediaKeys) (iv mediaKeys) in
    let mac := take 10 (hmacSign (iv mediaKeys ++ enc)%list (macKey mediaKeys)) in
    let body := (enc ++ mac)%list in
    let fileSha256 := sha256 buffer in
    let fileEncSha256B64 := url_safe (toString_base64 (sha256 body)) in
    options <- Task.await (generateThumbnail buffer mediaType options) ;;
    Task.perform Query_mediaConn ;;
    json <- Task.await query_mediaConn ;;
    match head (hosts json) with
    | Some host0 =>
        let hostname :=
          "https://" +:+ host0 +:+ JS.prop_key (MediaPathMap mediaType) +:+ "/"
          +:+ fileEncSha256B64 +:+ "?auth=" +:+ auth json +:+ "&token="
          +:+ fileEncSha256B64 in
        Task.perform (Post hostname body) ;;
        responseJSON_url <- Task.await (fetch_post hostname body) ;;
        if JS.truthy responseJSON_url then
          Task.ret
            (mediaType,
             {| url := default "" responseJSON_url;
                mediaKey := toString_base64 mediaKey;
                content_mimetype := mimetype options;
                fileEncSha256 := fileEncSha256B64;
                fileSha256 := toString_base64 fileSha256;
                fileLength := length buffer;
                gifPlayback := if isGIF then Some true else None |})
        else
          (* the text goes on with JSON.stringify(responseJSON) *)
          Task.throw "UPLOAD FAILED GOT: "
    | None => Task.throw "TypeError: json.hosts[0] is undefined"
    end.

End WhatsAppWebMessages.

End Media.

(** ** Platform primitives

    Node's [crypto] module supplies the hash, the keyed hash and the block
    cipher that the library's helpers wrap.  They are written out here, after
    FIPS 180-4, RFC 2104 and FIPS 197, so that the media path can be run on
    concrete buffers. *)
Module Platform.

Local Open Scope Z_scope.

Definition byte_to_Z (b : Byte.byte) : Z := Z.of_N (Byte.to_N b).

Definition byte_of_Z (z : Z) : Byte.byte :=
  default Byte.x00 (Byte.of_N (Z.to_N (Z.land z 255))).

Definition mask32 (x : Z) : Z := Z.land x 0xffffffff.

Definition rotr (n x : Z) : Z :=
  Z.lor (Z.shiftr x n) (mask32 (Z.shiftl x (32 - n))).

Definition xor3 (x y z : Z) : Z := Z.lxor x (Z.lxor y z).

Definition Ch (x y z : Z) : Z :=
  Z.lxor (Z.land x y) (Z.land (Z.lxor x 0xffffffff) z).

Definition Maj (x y z : Z) : Z :=
  xor3 (Z.land x y) (Z.land x z) (Z.land y z).

Definition Sigma0 (x : Z) : Z := xor3 (rotr 2 x) (rotr 13 x) (rotr 22 x).
Definition Sigma1 (x : Z) : Z := xor3 (rotr 6 x) (rotr 11 x) (rotr 25 x).
Definition sigma0 (x : Z) : Z := xor3 (rotr 7 x) (rotr 18 x) (Z.shiftr x 3).
Definition sigma1 (x : Z) : Z := xor3 (rotr 17 x) (rotr 19 x) (Z.shiftr x 10).

(** The primes below [n], by trial division. *)
Definition is_prime (p : nat) : bool :=
  (2 <=? p)%nat && forallb (fun d => negb (p mod d =? 0)%nat) (seq 2 (p - 2)).

Definition primes_below (n : nat) : list Z :=
  map Z.of_nat (filter (fun p => is_prime p = true) (seq 0 n)).

(** The integer part of the [k]-th root of [x], bit by bit from bit
    [bits - 1] down. *)
Fixpoint iroot (k : Z) (bits : nat) (x r : Z) : Z :=
  match bits with
  | O => r
  | S b =>
      let r' := Z.lor r (Z.shiftl 1 (Z.of_nat b)) in
      iroot k b x (if (r' ^ k <=? x) then r' else r)
  end.

(** The first 32 bits of the fractional part of the [k]-th root of [p]. *)
Definition root_fraction (k p : Z) : Z :=
  mask32 (iroot k 40 (Z.shiftl p (32 * k)) 0).

(** The round constants, from the cube roots of the first 64 primes, and
    the initial hash value, from the square roots of the first 8. *)
Definition sha256_K : list Z :=
  Eval vm_compute in map (root_fraction 3) (primes_below 312).

Definition sha256_H0 : list Z :=
  Eval vm_compute in map (root_fraction 2) (primes_below 20).

(** One round: the working variables [a..h] as a list, the round constant
    and the schedule word. *)
Definition sha256_round (v : list Z) (k w : Z) : list Z :=
  match v with
  | [a; b; c; d; e; f; g; h] =>
      let T1 := h + Sigma1 e + Ch e f g + k + w in
      let T2 := Sigma0 a + Maj a b c in
      [mask32 (T1 + T2); a; b; c; mask32 (d + T1); e; f; g]
  | _ => v
  end.

(** The schedule as a window of the last sixteen words, oldest first. *)
Definition schedule_next (win : list Z) : list Z :=
  let w i := nth i win 0 in
  (tl win ++ [mask32 (sigma1 (w 14%nat) + w 9%nat + sigma0 (w 1%nat) + w 0%nat)])%list.

Fixpoint sha256_rounds (ks : list Z) (win v : list Z) : list Z :=
  match ks with
  | [] => v
  | k :: ks' => sha256_rounds ks' (schedule_next win) (sha256_round v k (hd 0 win))
  end.

Definition sha256_block (h block : list Z) : list Z :=
  zip_with (fun x y => mask32 (x + y)) h (sha256_rounds sha256_K block h).

(** Big-endian bytes of a word of [n] bytes, and back. *)
Fixpoint be_bytes (n : nat) (x : Z) : list Z :=
  match n with
  | O => []
  | S n' => Z.land (Z.shiftr x (8 * Z.of_nat n')) 255 :: be_bytes n' x
  end.

Definition be_word (bs : list Z) : Z :=
  fold_left (fun acc b => Z.lor (Z.shiftl acc 8) b) bs 0.

(** Cut a list into pieces of [n] elements. *)
Fixpoint chunks_fuel {A} (fuel n : nat) (l : list A) : list (list A) :=
  match fuel, l with
  | O, _ | _, [] => []
  | S fuel', _ => take n l :: chunks_fuel fuel' n (drop n l)
  end.

Definition chunks {A} (n : nat) (l : list A) : list (list A) :=
  chunks_fuel (length l) n l.

Definition sha256_pad (msg : list Z) : list Z :=
  let len := Z.of_nat (length msg) in
  let zeros := Z.to_nat ((55 - len) mod 64) in
  (msg ++ [0x80] ++ repeat 0 zeros ++ be_bytes 8 (8 * len))%list.

Definition sha256_Z (msg : list Z) : list Z :=
  let blocks := map (fun b => map be_word (chunks 4 b)) (chunks 64 (sha256_pad msg)) in
  concat (map (be_bytes 4) (fold_left sha256_block blocks sha256_H0)).

(** SHA-256 (FIPS 180-4). *)
Definition sha256 (b : Buffer) : Buffer :=
  map byte_of_Z (sha256_Z (map byte_to_Z b)).

(** HMAC-SHA-256 (RFC 2104), with the argument order of [hmacSign(buffer,
    key)]. *)
Definition hmac_sha256_Z (msg key : list Z) : list Z :=
  let k0 := if (64 <? Z.of_nat (length key)) then sha256_Z key else key in
  let k := (k0 ++ repeat 0 (64 - length k0)%nat)%list in
  let ipad := map (Z.lxor 0x36) k in
  let opad := map (Z.lxor 0x5c) k in
  sha256_Z (opad ++ sha256_Z (ipad ++ msg))%list.

Definition hmacSign (buffer key : Buffer) : Buffer :=
  map byte_of_Z (hmac_sha256_Z (map byte_to_Z buffer) (map byte_to_Z key)).

(** *** AES-256 in CBC mode with PKCS#7 padding (FIPS 197, SP 800-38A) *)

Definition xtime (x : Z) : Z :=
  let y := Z.shiftl x 1 in
  if Z.testbit x 7 then Z.land (Z.lxor y 0x1b) 255 else y.

(** Multiplication in GF(2^8), by the bits of [y]. *)
Fixpoint gf_mul_fuel (fuel : nat) (x y : Z) : Z :=
  match fuel with
  | O => 0
  | S fuel' =>
      Z.lxor (if Z.odd y then x else 0) (gf_mul_fuel fuel' (xtime x) (Z.shiftr y 1))
  end.

Definition gf_mul (x y : Z) : Z := gf_mul_fuel 8 x y.

Definition gf_square (x : Z) : Z := gf_mul x x.

(** [x^254], the inverse of a non-zero [x]; [0] for [0]. *)
Definition gf_inv (x : Z) : Z :=
  let x2 := gf_square x in
  let x4 := gf_square x2 in
  let x8 := gf_square x4 in
  let x16 := gf_square x8 in
  let x32 := gf_square x16 in
  let x64 := gf_square x32 in
  let x128 := gf_square x64 in
  gf_mul x128 (gf_mul x64 (gf_mul x32 (gf_mul x16 (gf_mul x8 (gf_mul x4 x2))))).

Definition rotl8 (n x : Z) : Z :=
  Z.land (Z.lor (Z.shiftl x n) (Z.shiftr x (8 - n))) 255.

Definition sbox (x : Z) : Z :=
  let b := gf_inv x in
  Z.lxor (xor3 b (rotl8 1 b) (rotl8 2 b)) (xor3 (rotl8 3 b) (rotl8 4 b) 0x63).

Definition xor_bytes (a b : list Z) : list Z := zip_with Z.lxor a b.

(** Key expansion: the list of four-byte words so far, newest last. *)
Fixpoint expand_key_fuel (fuel : nat) (i : nat) (rcon : Z) (w : list (list Z))
  : list (list Z) :=
  match fuel with
  | O => w
  | S fuel' =>
      let prev := nth (i - 1) w [] in
      let back := nth (i - 8) w [] in
      let '(temp, rcon') :=
        if (i mod 8 =? 0)%nat then
          (xor_bytes (map sbox (drop 1 prev ++ take 1 prev)%list) [rcon; 0; 0; 0],
           xtime rcon)
        else if (i mod 8 =? 4)%nat then (map sbox prev, rcon)
        else (prev, rcon) in
      expand_key_fuel fuel' (S i) rcon' (w ++ [xor_bytes back temp])%list
  end.

Definition expand_key (key : list Z) : list (list Z) :=
  chunks 16 (concat (expand_key_fuel 52 8 1 (chunks 4 key))).

Definition shift_rows (s : list Z) : list Z :=
  map (fun i => nth (4 * ((i / 4 + i mod 4) mod 4) + i mod 4)%nat s 0) (seq 0 16).

Definition mix_column (c : list Z) : list Z :=
  match c with
  | [a0; a1; a2; a3] =>
      [ Z.lxor (Z.lxor (gf_mul 2 a0) (gf_mul 3 a1)) (Z.lxor a2 a3);
        Z.lxor (Z.lxor a0 (gf_mul 2 a1)) (Z.lxor (gf_mul 3 a2) a3);
        Z.lxor (Z.lxor a0 a1) (Z.lxor (gf_mul 2 a2) (gf_mul 3 a3));
        Z.lxor (Z.lxor (gf_mul 3 a0) a1) (Z.lxor a2 (gf_mul 2 a3)) ]
  | _ => c
  end.

Definition mix_columns (s : list Z) : list Z :=
  concat (map mix_column (chunks 4 s)).

Fixpoint aes_rounds (rks : list (list Z)) (s : list Z) : list Z :=
  match rks with
  | [] => s
  | [last] => xor_bytes (shift_rows (map sbox s)) last
  | rk :: rks' => aes_rounds rks' (xor_bytes (mix_columns (shift_rows (map sbox s))) rk)
  end.

Definition aes_encrypt_block (rks : list (list Z)) (block : list Z) : list Z :=
  match rks with
  | rk0 :: rks' => aes_rounds rks' (xor_bytes block rk0)
  | [] => block
  end.

Definition pkcs7_pad (msg : list Z) : list Z :=
  let n := (16 - length msg mod 16)%nat in
  (msg ++ repeat (Z.of_nat n) n)%list.

Fixpoint cbc_encrypt (rks : list (list Z)) (prev : list Z) (blocks : list (list Z))
  : list Z :=
  match blocks with
  | [] => []
  | b :: rest =>
      let c := aes_encrypt_block rks (xor_bytes b prev) in
      (c ++ cbc_encrypt rks c rest)%list
  end.

(** [aesEncrypWithIV(buffer, key, IV)] *)
Definition aesEncrypWithIV (buffer key IV : Buffer) : Buffer :=
  map byte_of_Z
    (cbc_encrypt (expand_key (map byte_to_Z key)) (map byte_to_Z IV)
       (chunks 16 (pkcs7_pad (map byte_to_Z buffer)))).

End Platform.

(** ** A concrete set of collaborators

    One instance of [Payloads], [Externals] and [MediaExternals], on which
    the embedding runs.  The helpers follow what the specification says of
    them; the key store, the message store and the relay answer as a
    function of what they are asked. *)
Module Example.

(** Split [s] at the first occurrence of [c]. *)
Fixpoint split_at (c : ascii) (s : string) : option (string * string) :=
  match s with
  | EmptyString => None
  | String x r =>
      if Ascii.eqb x c then Some (EmptyString, r)
      else match split_at c r with
           | Some (a, b) => Some (String x a, b)
           | None => None
           end
  end.

Definition digit_value (c : ascii) : option Z :=
  let n := nat_of_ascii c in
  if (48 <=? n)%nat && (n <=? 57)%nat then Some (Z.of_nat (n - 48)) else None.

Fixpoint parse_digits (acc : Z) (s : string) : option Z :=
  match s with
  | EmptyString => Some acc
  | String c r =>
      match digit_value c with
      | Some d => parse_digits (10 * acc + d)%Z r
      | None => None
      end
  end.

(** Unary [+] on an attribute: [undefined] and text that is no decimal
    numeral give [NaN], which is [None]; the empty string gives [0]. *)
Definition unary_plus (v : option string) : option Z :=
  v ≫= parse_digits 0.

Definition num_lt (a b : option Z) : bool :=
  match a, b with
  | Some x, Some y => (x <? y)%Z
  | _, _ => false
  end.

(** Modelled from the spec: a JID is "of the form user[.device]@domain". *)
Definition jidDecode (jid : string) : option FullJid :=
  match split_at "@" jid with
  | Some (local, _) =>
      match split_at "." local with
      | Some (u, d) => Some {| user := u; device := parse_digits 0 d |}
      | None => Some {| user := local; device := None |}
      end
  | None => None
  end.

Definition jid_server (jid : string) : option string :=
  snd <$> split_at "@" jid.

Definition jidEncode (u server : string) (d agent : option Z) : string :=
  match d with
  | Some n => if (n =? 0)%Z then u +:+ "@" +:+ server
              else u +:+ "." +:+ pretty n +:+ "@" +:+ server
  | None => u +:+ "@" +:+ server
  end.

(** Modelled from the spec: "same-user": the two JIDs decode to the same
    user. *)
Definition areJidsSameUser (a b : option string) : bool :=
  bool_decide ((user <$> (a ≫= jidDecode)) = (user <$> (b ≫= jidDecode))).

(** Modelled from the spec: the domain tells a group ([g.us]) from a user
    ([s.whatsapp.net]). *)
Definition isJidGroup (jid : option string) : bool :=
  bool_decide (jid ≫= jid_server = Some "g.us").

Definition isJidUser (jid : option string) : bool :=
  bool_decide (jid ≫= jid_server = Some "s.whatsapp.net").

Definition jidNormalizedUser (jid : option string) : string :=
  match jid ≫= jidDecode, jid ≫= jid_server with
  | Some d, Some server =>
      jidEncode (user d) (if String.eqb server "c.us" then "s.whatsapp.net" else server)
        None None
  | _, _ => ""
  end.

(** Modelled from the spec: "absent gives DELIVERY_ACK, read/read-self
    gives READ, played gives PLAYED, retry gives none, other is ignored". *)
Definition getStatusFromReceiptType (type : option string)
  : option WebMessageInfoStatus :=
  match type with
  | None => Some DELIVERY_ACK
  | Some t =>
      if String.eqb t "read" || String.eqb t "read-self" then Some READ
      else if String.eqb t "played" then Some PLAYED
      else None
  end.

Definition encodeBigEndian (n : Z) : Buffer :=
  map Platform.byte_of_Z (Platform.be_bytes 4 n).

Definition KEY_BUNDLE_TYPE : Buffer := [Byte.x05].

Definition generateSignalPubKey (pubKey : Buffer) : Buffer :=
  if (length pubKey =? 33)%nat then pubKey else (KEY_BUNDLE_TYPE ++ pubKey)%list.

Definition xmppPreKey (kp : KeyPair) (keyId : Z) : BinaryNode :=
  mkBinaryNode "key" ∅
    (Children
       [ mkBinaryNode "id" ∅ (Bytes (map Platform.byte_of_Z (Platform.be_bytes 3 keyId)));
         mkBinaryNode "value" ∅ (Bytes (public kp)) ]).

(** A signed pre-key: the pair, its signature and its id. *)
Definition xmppSignedPreKey (k : KeyPair * Buffer * Z) : BinaryNode :=
  let '(kp, signature, keyId) := k in
  mkBinaryNode "skey" ∅
    (Children
       [ mkBinaryNode "id" ∅ (Bytes (map Platform.byte_of_Z (Platform.be_bytes 3 keyId)));
         mkBinaryNode "value" ∅ (Bytes (public kp));
         mkBinaryNode "signature" ∅ (Bytes signature) ]).

(** Group metadata as [extractGroupMetadata] reads it off the [create]
    child. *)
Record Group : Type := mkGroup {
  group_id : option string;
  group_subject : option string;
  group_owner : option string;
  group_creation : option (option Z);
}.

Definition extractGroupMetadata (child : BinaryNode) : Group :=
  {| group_id := (fun i => i +:+ "@g.us") <$> attr child "id";
     group_subject := attr child "subject";
     group_owner := attr child "creator";
     group_creation := Some (unary_plus (attr child "creation")) |}.

#[local] Instance payloads : Payloads :=
  {| Account := Buffer;
     SignedKeyPair := KeyPair * Buffer * Z;
     CredsUpdate := Z;
     IMessage := string;
     GroupMetadata := Group;
     MediaRetryEvent := option string;
     Num := option Z |}.

(** The stanza of a message decrypts unless its [enc] child is empty. *)
Definition decodeMessageStanza (stanza : BinaryNode) (c : AuthenticationCreds)
  : DecodedStanza :=
  let from := attr stanza "from" in
  let mine := areJidsSameUser (JS.or (attr stanza "participant") from)
                (contact_id <$> me c) in
  let k := {| remoteJid := if mine && negb (isJidGroup from)
                           then attr stanza "recipient" else from;
              id := attr stanza "id";
              fromMe := mine;
              participant := attr stanza "participant" |} in
  let bare := {| key := k; message := None; messageStubType := None;
                 messageStubParameters := None; msg_participant := None;
                 messageTimestamp := Some (unary_plus (attr stanza "t")) |} in
  let enc := getBinaryNodeChild stanza "enc" ≫= fun e =>
               match content e with
               | Bytes (b :: _) => Some "hello"
               | _ => None
               end in
  {| fullMessage := bare;
     category := attr stanza "category";
     author := JS.or (attr stanza "participant") from;
     decrypted :=
       match enc with
       | Some text =>
           {| key := k; message := Some (decoded text); messageStubType := None;
              messageStubParameters := None; msg_participant := None;
              messageTimestamp := Some (unary_plus (attr stanza "t")) |}
       | None =>
           {| key := k; message := None; messageStubType := Some CIPHERTEXT;
              messageStubParameters := Some [Some "decryption failed"];
              msg_participant := None;
              messageTimestamp := Some (unary_plus (attr stanza "t")) |}
       end |}.

(** The store holds every message but the one with id [LOST]; the relay
    fails towards [dave], and only towards him. *)
Definition getMessage (k : MessageKey) : Outcome (option string) :=
  if JS.is_str (id k) "LOST" then Resolved None
  else Resolved (Some "hello again").

Definition relayMessage (jid : option string) (msg : string)
    (messageId recipient : option string) : Outcome unit :=
  if areJidsSameUser jid (Some "dave@s.whatsapp.net")
  then Rejected "connection closed" else Resolved tt.

(** The key store hands out pre-key 7 and asks to record 8 as the next
    id. *)
Definition getNextPreKeys (c : AuthenticationCreds)
  : Outcome (Z * (Z * KeyPair)) :=
  Resolved (8%Z, (7%Z, {| public := repeat Byte.x07 32; private := repeat Byte.x17 32 |})).

#[local] Instance externals : Externals :=
  Build_Externals payloads
    (* unary_plus *) unary_plus
    (* num_zero *) (Some 0%Z)
    (* num_lt *) num_lt
    (* areJidsSameUser *) areJidsSameUser
    (* isJidGroup *) isJidGroup
    (* isJidUser *) isJidUser
    (* jidDecode *) jidDecode
    (* jidEncode *) jidEncode
    (* jidNormalizedUser *) jidNormalizedUser
    (* S_WHATSAPP_NET *) "@s.whatsapp.net"
    (* KEY_BUNDLE_TYPE *) KEY_BUNDLE_TYPE
    (* MIN_PREKEY_COUNT *) (Some 5%Z)
    (* encodeBigEndian *) encodeBigEndian
    (* generateSignalPubKey *) generateSignalPubKey
    (* xmppPreKey *) xmppPreKey
    (* xmppSignedPreKey *) xmppSignedPreKey
    (* getStatusFromReceiptType *) getStatusFromReceiptType
    (* decodeMediaRetryNode *) (fun node => attr node "id")
    (* decodeMessageStanza *) decodeMessageStanza
    (* cleanMessage *) (fun msg _ => msg)
    (* getNextPreKeys *) getNextPreKeys
    (* encodeDeviceIdentity *) (fun account => account)
    (* extractGroupMetadata *) extractGroupMetadata
    (* metadata_id *) group_id
    (* metadata_subject *) group_subject
    (* metadata_owner *) group_owner
    (* metadata_creation *) group_creation
    (* retryRequestDelayMs *) None
    (* getMessage *) getMessage
    (* assertSessions *) (fun _ _ => Resolved tt)
    (* keys_set_sender_key_memory *) (fun _ => Resolved tt)
    (* relayMessage *) relayMessage.

(** The local identity and its keys. *)
Definition my_creds : AuthenticationCreds :=
  {| account := [Byte.x0a; Byte.x01; Byte.x2a];
     signedPreKey :=
       ({| public := repeat Byte.x02 32; private := repeat Byte.x12 32 |},
        repeat Byte.x22 64, 1%Z);
     signedIdentityKey :=
       {| public := repeat Byte.x01 32; private := repeat Byte.x11 32 |};
     registrationId := 4660;
     me := Some {| contact_id := "me.3@s.whatsapp.net"; contact_name := Some "Me" |} |}.

(** A socket whose counter map holds the numbers of [m]. *)
Definition socket (m : gmap string Z) : Socket :=
  {| msgRetryMap := JS.Count <$> m; sendActiveReceipts := false; ws_open := true;
     creds := my_creds |}.

(** [n] retry requests for the same stanza, one after the other. *)
Fixpoint retry_requests (n : nat) (node : BinaryNode) (s : Socket) : Socket :=
  match n with
  | O => s
  | S n' =>
      Task.final (MessagesRecv.sendRetryRequest node (retry_requests n' node s))
  end.

(** A message from alice whose payload does not decrypt. *)
Definition message_A1 : BinaryNode :=
  mkBinaryNode "message"
    {[ "id" := "A1"; "from" := "alice@s.whatsapp.net"; "t" := "1000" ]}
    (Children [mkBinaryNode "enc" ∅ (Bytes [])]).

(** The same message, delivered while the client was offline, this time
    decrypting. *)
Definition message_A1_offline : BinaryNode :=
  mkBinaryNode "message"
    {[ "id" := "A1"; "from" := "alice@s.whatsapp.net"; "t" := "1000";
       "offline" := "1" ]}
    (Children [mkBinaryNode "enc" ∅ (Bytes [Byte.x2a])]).

(** A call stanza, acked with the tag of its first child as type. *)
Definition call_offer : BinaryNode :=
  mkBinaryNode "call"
    {[ "id" := "C1"; "from" := "alice@s.whatsapp.net"; "type" := "offer" ]}
    (Children [mkBinaryNode "offer" {[ "call-id" := "77" ]} NoContent]).

(** A stanza whose [participant] attribute is the empty string. *)
Definition call_empty_participant : BinaryNode :=
  mkBinaryNode "call"
    {[ "id" := "C2"; "from" := "alice@s.whatsapp.net"; "participant" := "" ]}
    NoContent.

(** A delivery receipt from bob that carries an empty [recipient]. *)
Definition receipt_empty_recipient : BinaryNode :=
  mkBinaryNode "receipt"
    {[ "id" := "X"; "from" := "bob@s.whatsapp.net"; "recipient" := ""; "t" := "1700" ]}
    NoContent.

(** Bob has read two of our messages in a group. *)
Definition receipt_group_read : BinaryNode :=
  mkBinaryNode "receipt"
    {[ "id" := "M1"; "from" := "1234-5678@g.us";
       "participant" := "bob@s.whatsapp.net"; "type" := "read"; "t" := "1700" ]}
    (Children
       [ mkBinaryNode "list" ∅
           (Children [mkBinaryNode "item" {[ "id" := "M2" ]} NoContent]) ]).

(** A peer asks for message [X] again. *)
Definition receipt_retry_from (peer : string) (items : list string) : BinaryNode :=
  mkBinaryNode "receipt"
    {[ "id" := "X"; "type" := "retry"; "from" := peer; "t" := "1700" ]}
    (Children
       [ mkBinaryNode "list" ∅
           (Children (map (fun i => mkBinaryNode "item" {[ "id" := i ]} NoContent) items)) ]).

(** Bob removes himself from a group; the notification came while the
    client was offline. *)
Definition notification_bob_leaves : BinaryNode :=
  mkBinaryNode "notification"
    {[ "id" := "N1"; "type" := "w:gp2"; "from" := "1234-5678@g.us";
       "participant" := "bob@s.whatsapp.net"; "t" := "1700"; "offline" := "2" ]}
    (Children
       [ mkBinaryNode "remove" ∅
           (Children
              [mkBinaryNode "participant" {[ "jid" := "bob@s.whatsapp.net" ]} NoContent]) ]).

(** HKDF-SHA-256 (RFC 5869) with an all-zero salt, [n] blocks of output. *)
Fixpoint hkdf_expand (n : nat) (prk info prev : list Z) (i : Z) : list Z :=
  match n with
  | O => []
  | S n' =>
      let t := Platform.hmac_sha256_Z (prev ++ info ++ [i])%list prk in
      (t ++ hkdf_expand n' prk info t (i + 1)%Z)%list
  end.

Definition hkdf (ikm : Buffer) (info : string) : Buffer :=
  let prk := Platform.hmac_sha256_Z (map Platform.byte_to_Z ikm) (repeat 0%Z 32) in
  let info := map (fun c => Z.of_nat (nat_of_ascii c)) (list_ascii_of_string info) in
  map Platform.byte_of_Z (hkdf_expand 4 prk info [] 1%Z).

Definition media_info (t : Media.MessageType) : string :=
  match t with
  | Media.image | Media.sticker => "WhatsApp Image Keys"
  | Media.video => "WhatsApp Video Keys"
  | Media.audio => "WhatsApp Audio Keys"
  | _ => "WhatsApp Document Keys"
  end.

(** "Derive the keys via the media-specific HKDF info string." *)
Definition getMediaKeys (mediaKey : Buffer) (t : Media.MessageType) : Media.MediaKeys :=
  let expanded := hkdf mediaKey (media_info t) in
  {| Media.iv := take 16 expanded;
     Media.cipherKey := take 32 (drop 16 expanded);
     Media.macKey := take 32 (drop 48 expanded) |}.

Definition MimetypeMap (t : Media.MessageType) : option string :=
  match t with
  | Media.image => Some "image/jpeg"
  | Media.video => Some "video/mp4"
  | Media.audio => Some "audio/ogg; codecs=opus"
  | Media.sticker => Some "image/webp"
  | _ => None
  end.

Definition MediaPathMap (t : Media.MessageType) : option string :=
  match t with
  | Media.image | Media.sticker => Some "/mms/image"
  | Media.video => Some "/mms/video"
  | Media.audio => Some "/mms/audio"
  | Media.document => Some "/mms/document"
  | _ => None
  end.

(** The media key drawn is the bytes 0, 1, 2, ...; the upload succeeds. *)
#[local] Instance media : Media.MediaExternals :=
  Media.Build_MediaExternals
    (* Mimetype_gif *) "image/gif"
    (* MimetypeMap *) MimetypeMap
    (* MediaPathMap *) MediaPathMap
    (* randomBytes *) (fun n => map (fun i => Platform.byte_of_Z (Z.of_nat i)) (seq 0 n))
    (* getMediaKeys *) getMediaKeys
    (* aesEncrypWithIV *) Platform.aesEncrypWithIV
    (* hmacSign *) Platform.hmacSign
    (* sha256 *) Platform.sha256
    (* generateThumbnail *) (fun _ _ options => Resolved options)
    (* query_mediaConn *)
      (Resolved {| Media.auth := "TOKEN"; Media.hosts := ["media.example.net"] |})
    (* fetch_post *) (fun _ _ => Resolved (Some "https://mmg.example.net/d/f/file.enc")).

End Example.

(** ** Observations on runs *)
Section Observations.
Context {P : Payloads} {X : Externals}.

(** The stanzas a task wrote to the transport, in order. *)
Definition sent_nodes (es : list Effect) : list BinaryNode :=
  omap (fun e => match e with SendNode n => Some n | _ => None end) es.

(** The events a task put on the bus, in order. *)
Definition emitted (es : list Effect) : list BaileysEvent :=
  omap (fun e => match e with Emit ev => Some ev | _ => None end) es.

Definition is_SendNode (e : Effect) : bool :=
  match e with
  | SendNode _ => true
  | _ => false
  end.

Definition is_Emit (e : Effect) : bool :=
  match e with
  | Emit _ => true
  | _ => false
  end.

Definition is_RelayMessage (e : Effect) : bool :=
  match e with
  | RelayMessage _ _ _ _ => true
  | _ => false
  end.

(** The message keys an update event carries. *)
Definition event_keys (ev : BaileysEvent) : list MessageKey :=
  match ev with
  | message_receipt_update updates => map fst updates
  | messages_update updates => map fst updates
  | _ => []
  end.

(** One event for each id, in the order of the ids, each about the message
    of its id and no other. *)
Definition event_per_id (ids : list (option string)) (events : list BaileysEvent)
  : Prop :=
  Forall2 (fun i ev => map id (event_keys ev) = [i]) ids events.

(** The type of a [messages.upsert] event. *)
Definition upsert_type (ev : BaileysEvent) : option MessageUpsertType :=
  match ev with
  | messages_upsert _ type => Some type
  | _ => None
  end.

(** The effect is the emission of [messages.upsert]. *)
Definition is_upsert (e : Effect) : bool :=
  match e with
  | Emit (messages_upsert _ _) => true
  | _ => false
  end.

(** A task that leaves the socket's state as it found it. *)
Definition keeps_state {A} (m : Task.t Socket Effect A) : Prop :=
  forall s, Task.final (m s) = s.

(** No number stored in [m] is missing from [m'] or smaller there. *)
Definition counters_grow (m m' : gmap string JS.Counter) : Prop :=
  forall (j : string) (v : Z), m !! j = Some (JS.Count v) ->
    exists v', m' !! j = Some (JS.Count v') /\ (v <= v')%Z.

(** [handleReceipt] on [node] reaches [sendMessagesAgain] and that call
    throws: the receipt is a retry, [key.fromMe] holds, the gate
    [willSendMessageAgain(ids[0])] is open, and the resend rejects. *)
Definition resend_throws (node : BinaryNode) (s : Socket) : bool :=
  let key := MessagesRecv.receipt_key (creds s) node in
  let ids := MessagesRecv.receipt_ids node in
  JS.is_str (attr node "type") "retry"
  && fromMe key
  && MessagesRecv.willSendMessageAgain (msgRetryMap s) (attr node "id")
  && negb (resolved (Task.outcome
       (MessagesRecv.sendMessagesAgain
          (with_participant key (JS.or (participant key) (attr node "from")))
          ids s))).

(** The participant notifications and the stub type each is named after. *)
Definition participant_stubs : list (string * WAMessageStubType) :=
  [ ("promote", GROUP_PARTICIPANT_PROMOTE);
    ("demote", GROUP_PARTICIPANT_DEMOTE);
    ("remove", GROUP_PARTICIPANT_REMOVE);
    ("add", GROUP_PARTICIPANT_ADD);
    ("leave", GROUP_PARTICIPANT_LEAVE) ].

End Observations.

(** ** The [CB:message] handler and the decryption promise

    [decodeMessageStanza] hands the handler the promise [decryptionTask]
    before the handler queues its task on the mutex: the decryption was
    started, and may be over, when the task begins.  The task gives way to
    the event loop at each [await] and stands at [await decryptionTask]
    until the promise has settled.  A schedule is the order in which the
    event loop takes its turns. *)
Section DecryptionPromise.
Context {P : Payloads} {X : Externals}.

Inductive Turn : Type :=
  (** the promise settles: [fullMessage] is filled in *)
  | Settle
  (** the task runs up to its next effect *)
  | Resume.

(** What is seen, in order: the promise settling, or an effect of the
    task. *)
Inductive Moment : Type :=
  | Settled
  | Does (e : Effect).

(** The task between turns: whether the promise has settled, and what the
    task has still to do. *)
Record Pending : Type := mkPending {
  settled : bool;
  todo : list Effect;
}.

(** One turn of the event loop.  A promise settles once.  The task passes
    [await decryptionTask] only when the promise has settled, and stays
    where it is otherwise. *)
Definition turn (t : Turn) (p : Pending) : Pending * list Moment :=
  match t, todo p with
  | Settle, _ =>
      ({| settled := true; todo := todo p |}, if settled p then [] else [Settled])
  | Resume, [] => (p, [])
  | Resume, AwaitDecryption :: rest =>
      if settled p
      then ({| settled := true; todo := rest |}, [Does AwaitDecryption])
      else (p, [])
  | Resume, e :: rest => ({| settled := settled p; todo := rest |}, [Does e])
  end.

Fixpoint turns (schedule : list Turn) (p : Pending) : list Moment :=
  match schedule with
  | [] => []
  | t :: schedule' => snd (turn t p) ++ turns schedule' (fst (turn t p))
  end.

(** The [CB:message] handler on [stanza] under a schedule: the task is
    queued with all it has to do, the promise is not known to have
    settled. *)
Definition on_message_turns (stanza : BinaryNode) (schedule : list Turn)
    (s : Socket) : list Moment :=
  turns schedule
    {| settled := false; todo := Task.effects (MessagesRecv.on_message stanza s) |}.

(** The effects of the task among what was seen. *)
Definition task_effects (seen : list Moment) : list Effect :=
  omap (fun m => match m with Does e => Some e | Settled => None end) seen.

(** Whenever [b] is seen, [a] was seen before it. *)
Definition precedes (a b : Moment) (seen : list Moment) : Prop :=
  forall before after, seen = before ++ b :: after -> In a before.

End DecryptionPromise.

(** Properties of the text of a hash on the wire. *)
Fixpoint has_char (c : ascii) (s : string) : bool :=
  match s with
  | EmptyString => false
  | String x r => Ascii.eqb x c || has_char c r
  end.

Fixpoint ends_with (c : ascii) (s : string) : bool :=
  match s with
  | EmptyString => false
  | String x EmptyString => Ascii.eqb x c
  | String _ r => ends_with c r
  end.

(** URL-safe and without padding: no [+], no [/], no [=] at the end. *)
Definition url_safe_unpadded (s : string) : bool :=
  negb (has_char "+" s) && negb (has_char "/" s) && negb (ends_with "=" s).

(** ** The rest of the socket: calls, history sync, connection state

    What [messages-recv.ts] does besides acks, retries, receipts and
    notifications.  The helpers it takes from elsewhere for these are the
    fields of one more class. *)
Class SocketExternals {P : Payloads} : Type := {
  Date : Type;
  (** [new Date(n * 1000)] *)
  Date_of_seconds : Num -> Date;
  unixTimestampSeconds : Date -> Num;
  getCallStatusFromNode : BinaryNode -> string;
  (** an entry of [InitialReceivedChatsState] *)
  RecvChat : Type;
  resyncMainAppState : gmap string RecvChat -> Outcome unit;
  (** what [processMessage] returns, a map of events *)
  EventMap : Type;
  (** [processMessage(msg, { historyCache, recvChats, ... })]: it may fill
      the cache and the chats it is handed, and resolves or rejects *)
  processMessage :
    WebMessageInfo -> gset string * gmap string RecvChat ->
    gset string * gmap string RecvChat * Outcome EventMap;
  (** [!!normalizeMessageContent(message)?.protocolMessage?.historySyncNotification] *)
  is_historySyncNotification : MessageContent -> bool;
}.

Module Calls.

Section Calls.
Context {P : Payloads} {X : Externals} {C : SocketExternals}.

(** [WACallEvent] *)
Record WACallEvent : Type := mkCall {
  chatId : option string;
  from : option string;
  id : option string;
  date : Date;
  offline : bool;
  status : string;
  isVideo : option bool;
  isGroup : option bool;
}.

(** The socket with its call offers.  [callOfferData] is a plain object
    that holds the offer of each call under the id of the call:
    [callOfferData s] are its own properties, and [callOfferProto s] is
    the offer that an assignment under the key [__proto__] has made the
    prototype of the object, if there was one. *)
Record CallSocket : Type := mkCallSocket {
  sock : Socket;
  callOfferData : gmap string WACallEvent;
  callOfferProto : option WACallEvent;
}.

(** The message the [call] listener builds. *)
Record CallMessage : Type := mkCallMessage {
  call_key : MessageKey;
  call_messageTimestamp : Num;
  call_messageStubType : option WAMessageStubType;
  (** [message.call.callKey] *)
  call_callKey : option Buffer;
}.

Inductive CallEffect : Type :=
  | OfSocket (e : Effect)
  | EmitCall (calls : list WACallEvent)
  (** [ev.emit('messages.upsert', { messages: [protoMsg], type })] of the
      [call] listener *)
  | UpsertCall (msg : CallMessage) (type : MessageUpsertType).

Definition CallTask (A : Type) : Type := Task.t CallSocket CallEffect A.

Local Open Scope task_scope.

(** A function of the socket, run from the call handler. *)
Definition lift {A} (m : Task.t Socket Effect A) : CallTask A :=
  fun s =>
    let r := m (sock s) in
    Task.mkRun (Task.outcome r)
      {| sock := Task.final r; callOfferData := callOfferData s;
         callOfferProto := callOfferProto s |}
      (map OfSocket (Task.effects r)).

(** [callOfferData[k]] as far as it is a call event: an own property, or
    the prototype when [k] is [__proto__].  Whatever else the prototype
    chain has under [k] (a member of [Object.prototype], a field of the
    offer that is the prototype) is no call event: its [isVideo] and
    [isGroup] are [undefined]. *)
Definition offer_at (s : CallSocket) (k : string) : option WACallEvent :=
  match callOfferData s !! k with
  | Some offer => Some offer
  | None => if String.eqb k "__proto__" then callOfferProto s else None
  end.

(** [callOfferData[k] = call]: an own property is written or made, except
    that without an own property of that name the setter of [__proto__]
    is called, which makes the call the prototype of the object. *)
Definition store_offer (k : string) (call : WACallEvent) : CallTask unit :=
  Task.modify (fun s =>
    match callOfferData s !! k with
    | Some _ =>
        {| sock := sock s; callOfferData := <[k := call]> (callOfferData s);
           callOfferProto := callOfferProto s |}
    | None =>
        if String.eqb k "__proto__" then
          {| sock := sock s; callOfferData := callOfferData s;
             callOfferProto := Some call |}
        else
          {| sock := sock s; callOfferData := <[k := call]> (callOfferData s);
             callOfferProto := callOfferProto s |}
    end).

(** [delete callOfferData[k]]: it removes an own property and nothing
    else. *)
Definition forget_offer (k : string) : CallTask unit :=
  Task.modify (fun s =>
    {| sock := sock s; callOfferData := delete k (callOfferData s);
       callOfferProto := callOfferProto s |}).

(** [status === 'reject' || status === 'accept' || status === 'timeout'] *)
Definition is_terminal (status : string) : bool :=
  String.eqb status "reject" || String.eqb status "accept"
  || String.eqb status "timeout".

(** [Buffer.from(s)] for a string, whose characters are its bytes. *)
Definition Buffer_from (s : string) : Buffer :=
  map byte_of_ascii (list_ascii_of_string s).

(** A flag of a call that may be absent, as a condition. *)
Definition flag (b : option bool) : bool :=
  match b with
  | Some true => true
  | _ => false
  end.

(** [ev.on('call', ([ call ]) => ...)]: the [messages.upsert] it emits, if
    any, as the message and the type of the upsert. *)
Definition on_call (calls : list WACallEvent)
  : Outcome (option (CallMessage * MessageUpsertType)) :=
  match head calls with
  | Some call =>
      if String.eqb (status call) "timeout"
         || (String.eqb (status call) "offer" && flag (isGroup call))
      then
        let k := {| remoteJid := chatId call; Proto.id := id call; fromMe := false;
                    participant := None |} in
        let t := unixTimestampSeconds (date call) in
        let type := if offline call then Append else Notify in
        if String.eqb (status call) "timeout" then
          let stub :=
            if flag (isGroup call) then
              if flag (isVideo call)
              then CALL_MISSED_GROUP_VIDEO else CALL_MISSED_GROUP_VOICE
            else
              if flag (isVideo call) then CALL_MISSED_VIDEO else CALL_MISSED_VOICE in
          Resolved (Some ({| call_key := k; call_messageTimestamp := t;
                             call_messageStubType := Some stub;
                             call_callKey := None |}, type))
        else
          match id call with
          | Some i =>
              Resolved (Some ({| call_key := k; call_messageTimestamp := t;
                                 call_messageStubType := None;
                                 call_callKey := Some (Buffer_from i) |}, type))
          | None => Rejected "TypeError: the first argument must be a string"
          end
      else Resolved None
  | None => Rejected "TypeError: call is undefined"
  end.

(** [ev.emit('call', calls)]: the event, and the listener of this file run
    on it before [emit] returns; what the listener throws, [emit] throws. *)
Definition emit_call (calls : list WACallEvent) : CallTask unit :=
  Task.perform (EmitCall calls) ;;
  upsert <- Task.await (on_call calls) ;;
  match upsert with
  | Some (msg, type) => Task.perform (UpsertCall msg type)
  | None => Task.ret tt
  end.

(** [handleCallNode(node)] *)
Definition handleCallNode (node : BinaryNode) : CallTask unit :=
  match head (getAllBinaryNodeChildren node) with
  | Some infoChild =>
      let callId := attr infoChild "call-id" in
      let from := JS.or (attr infoChild "from") (attr infoChild "call-creator") in
      let status := getCallStatusFromNode infoChild in
      let call :=
        {| chatId := attr node "from";
           from := from;
           id := callId;
           date := Date_of_seconds (unary_plus (attr node "t"));
           offline := JS.truthy (attr node "offline");
           status := status;
           isVideo := None;
           isGroup := None |} in
      let k := JS.prop_key callId in
      let call :=
        if String.eqb status "offer" then
          {| chatId := chatId call; from := Calls.from call; id := id call;
             date := date call; offline := offline call; status := status;
             isVideo := Some (JS.defined (getBinaryNodeChild infoChild "video"));
             isGroup := Some (JS.is_str (attr infoChild "type") "group") |}
        else call in
      Task.when (String.eqb status "offer") (store_offer k call) ;;
      s <- Task.get ;;
      let call :=
        match offer_at s k with
        | Some offer =>
            {| chatId := chatId call; from := Calls.from call; id := id call;
               date := date call; offline := offline call; status := status;
               isVideo := isVideo offer;
               isGroup := isGroup offer |}
        | None => call
        end in
      Task.when (is_terminal status) (forget_offer k) ;;
      emit_call [call] ;;
      Task.try_catch
        (lift (MessagesRecv.sendMessageAck node {[ "type" := tag infoChild ]}))
        (fun _ => Task.ret tt)
  | None => Task.throw "TypeError: infoChild is undefined"
  end.

(** The call events of a trace, and the messages the listener added. *)
Definition call_events (es : list CallEffect) : list (list WACallEvent) :=
  omap (fun e => match e with EmitCall c => Some c | _ => None end) es.

Definition call_upserts (es : list CallEffect)
  : list (CallMessage * MessageUpsertType) :=
  omap (fun e => match e with UpsertCall m t => Some (m, t) | _ => None end) es.

Definition call_acks (es : list CallEffect) : list BinaryNode :=
  omap (fun e => match e with OfSocket (SendNode n) => Some n | _ => None end) es.

End Calls.

End Calls.

Module History.

Section History.
Context {P : Payloads} {X : Externals} {C : SocketExternals}.

(** The state of the history sync: the transport, the cache of history
    batches and the chats received so far. *)
Record HistorySync : Type := mkHistorySync {
  ws_is_open : bool;
  historyCache : gset string;
  recvChats : gmap string RecvChat;
}.

Inductive HistoryEffect : Type :=
  | ResyncMainAppState (chats : gmap string RecvChat)
  | ProcessMessage (msg : WebMessageInfo)
  | AppStateSyncTimeout_start
  | HistoryReceipt (jid participant : option string) (ids : list (option string))
      (type : option string).

Definition HistoryTask (A : Type) : Type := Task.t HistorySync HistoryEffect A.

Local Open Scope task_scope.

(** [timeoutAppState()] *)
Definition timeoutAppState : HistoryTask unit :=
  s <- Task.get ;;
  (if ws_is_open s then
     Task.perform (ResyncMainAppState (recvChats s)) ;;
     Task.await (resyncMainAppState (recvChats s))
   else Task.ret tt) ;;
  Task.modify (fun s =>
    {| ws_is_open := ws_is_open s; historyCache := ∅; recvChats := ∅ |}).

(** [processMessageLocal(msg)] *)
Definition processMessageLocal (msg : WebMessageInfo) : HistoryTask EventMap :=
  s <- Task.get ;;
  Task.perform (ProcessMessage msg) ;;
  let r := processMessage msg (historyCache s, recvChats s) in
  Task.modify (fun s =>
    {| ws_is_open := ws_is_open s; historyCache := fst (fst r);
       recvChats := snd (fst r) |}) ;;
  newEvents <- Task.await (snd r) ;;
  let isAnyHistoryMsg :=
    match message msg with
    | Some m => is_historySyncNotification m
    | None => false
    end in
  (if isAnyHistoryMsg then
     Task.perform AppStateSyncTimeout_start ;;
     match remoteJid (key msg) ≫= jidDecode with
     | Some d =>
         let jid := jidEncode (user d) "c.us" None None in
         Task.perform (HistoryReceipt (Some jid) None [Proto.id (key msg)] (Some "hist_sync"))
     | None => Task.throw "TypeError: jidDecode(...) is undefined"
     end
   else Task.ret tt) ;;
  Task.ret newEvents.

End History.

End History.

Section ConnectionUpdate.
Context {P : Payloads} {X : Externals}.

(** [ev.on('connection.update', ({ isOnline }) => ...)] *)
Definition on_connection_update (isOnline : option bool)
  : Task.t Socket Effect unit :=
  match isOnline with
  | Some online =>
      Task.modify (fun s =>
        {| msgRetryMap := msgRetryMap s;
           sendActiveReceipts := online;
           ws_open := ws_open s;
           creds := creds s |})
  | None => Task.ret tt
  end.

End ConnectionUpdate.

(** ** Further observations on runs *)
Section Sequences.
Context {P : Payloads} {X : Externals}.

(** Retry requests for the stanzas of a list, one after the other. *)
Fixpoint retry_each (nodes : list BinaryNode) (s : Socket) : Socket :=
  match nodes with
  | [] => s
  | node :: rest => retry_each rest (Task.final (MessagesRecv.sendRetryRequest node s))
  end.

(** [msgRetryMap[i] = (msgRetryMap[i] || 0) + 1], the step of the loop of
    [sendMessagesAgain] on the map. *)
Definition raise_counter (m : gmap string JS.Counter) (i : option string)
  : gmap string JS.Counter :=
  JS.put (JS.prop_key i) (JS.succ (JS.or_count (JS.get m (JS.prop_key i)) 0)) m.

(** The ids of [ids] whose message the store returned. *)
Definition available {A} (store : option string -> option A)
    (ids : list (option string)) : list (option string) :=
  filter (fun i => is_Some (store i)) ids.

(** The notifications of a changed group setting, with the stub type and
    the parameter each is turned into. *)
Definition setting_stubs : list (string * (WAMessageStubType * string)) :=
  [ ("announcement", (GROUP_CHANGE_ANNOUNCE, "on"));
    ("not_announcement", (GROUP_CHANGE_ANNOUNCE, "off"));
    ("locked", (GROUP_CHANGE_RESTRICT, "on"));
    ("unlocked", (GROUP_CHANGE_RESTRICT, "off")) ].

(** Every entry of the dictionary is a number between [lo] and [hi]. *)
Definition counters_within (lo hi : Z) (m : gmap string JS.Counter) : Prop :=
  forall (j : string) (c : JS.Counter), m !! j = Some c ->
    exists v, c = JS.Count v /\ (lo <= v <= hi)%Z.

(** The ids of the stanzas name no member of [Object.prototype]. *)
Definition plain_ids (nodes : list BinaryNode) : Prop :=
  Forall (fun node => JS.inherited (JS.prop_key (attr node "id")) = false) nodes.

End Sequences.

(** ** Further instances and inputs

    A second world, in which the collaborators can fail, and the helpers
    of the call and history handlers. *)
Module Cases.
#[local] Existing Instance Example.payloads.

(** The store has lost its connection for the id [GONE] and has no message
    for [LOST]; the relay of the message with id [BAD] fails. *)
Definition store_lookup (k : MessageKey) : Outcome (option string) :=
  if JS.is_str (id k) "GONE" then Rejected "store unavailable"
  else if JS.is_str (id k) "LOST" then Resolved None
  else Resolved (Some "hello again").

Definition relay_by_id (jid : option string) (msg : string)
    (messageId recipient : option string) : Outcome unit :=
  if JS.is_str messageId "BAD" then Rejected "connection closed" else Resolved tt.

(** What the store of [store_lookup] holds under an id. *)
Definition stored (i : option string) : option string :=
  if JS.is_str i "LOST" then None else Some "hello again".

(** The key store is locked: no pre-key can be drawn. *)
Definition locked_keys (c : @AuthenticationCreds Example.payloads)
  : Outcome (Z * (Z * KeyPair)) :=
  Rejected "key store locked".

#[local] Instance externals : @Externals Example.payloads :=
  Build_Externals Example.payloads
    (* unary_plus *) Example.unary_plus
    (* num_zero *) (Some 0%Z)
    (* num_lt *) Example.num_lt
    (* areJidsSameUser *) Example.areJidsSameUser
    (* isJidGroup *) Example.isJidGroup
    (* isJidUser *) Example.isJidUser
    (* jidDecode *) Example.jidDecode
    (* jidEncode *) Example.jidEncode
    (* jidNormalizedUser *) Example.jidNormalizedUser
    (* S_WHATSAPP_NET *) "@s.whatsapp.net"
    (* KEY_BUNDLE_TYPE *) Example.KEY_BUNDLE_TYPE
    (* MIN_PREKEY_COUNT *) (Some 5%Z)
    (* encodeBigEndian *) Example.encodeBigEndian
    (* generateSignalPubKey *) Example.generateSignalPubKey
    (* xmppPreKey *) Example.xmppPreKey
    (* xmppSignedPreKey *) Example.xmppSignedPreKey
    (* getStatusFromReceiptType *) Example.getStatusFromReceiptType
    (* decodeMediaRetryNode *) (fun node => attr node "id")
    (* decodeMessageStanza *) Example.decodeMessageStanza
    (* cleanMessage *) (fun msg _ => msg)
    (* getNextPreKeys *) locked_keys
    (* encodeDeviceIdentity *) (fun account => account)
    (* extractGroupMetadata *) Example.extractGroupMetadata
    (* metadata_id *) Example.group_id
    (* metadata_subject *) Example.group_subject
    (* metadata_owner *) Example.group_owner
    (* metadata_creation *) Example.group_creation
    (* retryRequestDelayMs *) (Some 250%Z)
    (* getMessage *) store_lookup
    (* assertSessions *) (fun _ _ => Resolved tt)
    (* keys_set_sender_key_memory *) (fun _ => Resolved tt)
    (* relayMessage *) relay_by_id.

(** A media server that answers the query with no host. *)
#[local] Instance media_without_host : Media.MediaExternals :=
  Media.Build_MediaExternals
    (* Mimetype_gif *) "image/gif"
    (* MimetypeMap *) Example.MimetypeMap
    (* MediaPathMap *) Example.MediaPathMap
    (* randomBytes *) (fun n => repeat Byte.x00 n)
    (* getMediaKeys *) Example.getMediaKeys
    (* aesEncrypWithIV *) Platform.aesEncrypWithIV
    (* hmacSign *) Platform.hmacSign
    (* sha256 *) Platform.sha256
    (* generateThumbnail *) (fun _ _ options => Resolved options)
    (* query_mediaConn *) (Resolved {| Media.auth := "TOKEN"; Media.hosts := [] |})
    (* fetch_post *) (fun _ _ => Rejected "no route to host").

(** [getCallStatusFromNode]: the status of a call, read off the tag of the
    child and, for [terminate], its reason. *)
Definition call_status (info : BinaryNode) : string :=
  let t := tag info in
  if String.eqb t "offer" || String.eqb t "offer_notice" then "offer"
  else if String.eqb t "terminate" then
    if JS.is_str (attr info "reason") "timeout" then "timeout" else "reject"
  else if String.eqb t "reject" then "reject"
  else if String.eqb t "accept" then "accept"
  else "ringing".

(** Processing a message records its id in the cache and its chat among the
    chats received; a message without an id cannot be processed. *)
Definition process (msg : @WebMessageInfo Example.payloads)
    (st : gset string * gmap string Z)
  : gset string * gmap string Z * Outcome (list string) :=
  match id (key msg) with
  | Some i =>
      ({[ i ]} ∪ fst st,
       <[JS.prop_key (remoteJid (key msg)) := 1%Z]> (snd st),
       Resolved ["messages.upsert"])
  | None => (fst st, snd st, Rejected "message without id")
  end.

(** Dates are milliseconds; the app state resyncs unless no chat was
    received; the payload [history] announces a history sync. *)
#[local] Instance socket_externals : @SocketExternals Example.payloads :=
  Build_SocketExternals Example.payloads
    (* Date *) (option Z)
    (* Date_of_seconds *) (fun n : option Z => (fun v => v * 1000)%Z <$> n)
    (* unixTimestampSeconds *) (fun d : option Z => (fun v => v / 1000)%Z <$> d)
    (* getCallStatusFromNode *) call_status
    (* RecvChat *) Z
    (* resyncMainAppState *)
      (fun chats : gmap string Z =>
         if decide (chats = ∅) then Rejected "nothing to sync" else Resolved tt)
    (* EventMap *) (list string)
    (* processMessage *) process
    (* is_historySyncNotification *)
      (fun m : @MessageContent Example.payloads =>
         match m with
         | decoded "history" => true
         | _ => false
         end).

(** A socket of the second world. *)
Definition socket (m : gmap string Z) : Socket :=
  {| msgRetryMap := JS.Count <$> m; sendActiveReceipts := false; ws_open := true;
     creds := Example.my_creds |}.

(** A message whose sender cannot be told: no [from], no [participant]. *)
Definition message_from_nobody : BinaryNode :=
  mkBinaryNode "message" {[ "id" := "A9"; "t" := "1000" ]}
    (Children [mkBinaryNode "enc" ∅ (Bytes [])]).

(** The key under which messages to carol are looked up again. *)
Definition key_carol : MessageKey :=
  {| remoteJid := Some "carol@s.whatsapp.net"; id := Some ""; fromMe := true;
     participant := None |}.

(** The server reports that three pre-keys are left. *)
Definition notification_prekeys_low : BinaryNode :=
  mkBinaryNode "notification"
    {[ "id" := "N2"; "type" := "encrypt"; "from" := "@s.whatsapp.net" ]}
    (Children [mkBinaryNode "count" {[ "value" := "3" ]} NoContent]).

(** Alice creates the group [Friends]; the notification itself names the
    server's participant. *)
Definition notification_group_created : BinaryNode :=
  mkBinaryNode "notification"
    {[ "id" := "N3"; "type" := "w:gp2"; "from" := "1234-5678@g.us";
       "participant" := "bob@s.whatsapp.net"; "t" := "1700" ]}
    (Children
       [ mkBinaryNode "create"
           {[ "id" := "1234-5678"; "subject" := "Friends";
              "creator" := "alice@s.whatsapp.net"; "creation" := "1699" ]}
           NoContent ]).

(** A group notification whose first child is [child]. *)
Definition notification_group (child : BinaryNode) : BinaryNode :=
  mkBinaryNode "notification"
    {[ "id" := "N4"; "type" := "w:gp2"; "from" := "1234-5678@g.us";
       "participant" := "bob@s.whatsapp.net"; "t" := "1700" ]}
    (Children [child]).

(** The nodes of one call: the offer of a group video call and, later, its
    end by timeout. *)
Definition call_offer_group_video : BinaryNode :=
  mkBinaryNode "call"
    {[ "id" := "C1"; "from" := "alice@s.whatsapp.net"; "t" := "1700" ]}
    (Children
       [ mkBinaryNode "offer"
           {[ "call-id" := "77"; "call-creator" := "alice@s.whatsapp.net";
              "type" := "group" ]}
           (Children [mkBinaryNode "video" ∅ NoContent]) ]).

Definition call_timed_out : BinaryNode :=
  mkBinaryNode "call"
    {[ "id" := "C2"; "from" := "alice@s.whatsapp.net"; "t" := "1760";
       "offline" := "1" ]}
    (Children
       [ mkBinaryNode "terminate"
           {[ "call-id" := "77"; "call-creator" := "alice@s.whatsapp.net";
              "reason" := "timeout" ]}
           NoContent ]).

Definition call_socket : Calls.CallSocket :=
  {| Calls.sock := Example.socket ∅; Calls.callOfferData := ∅;
     Calls.callOfferProto := None |}.

(** A message and a call that go by names of [Object.prototype]. *)
Definition message_constructor : BinaryNode :=
  mkBinaryNode "message"
    {[ "id" := "constructor"; "from" := "alice@s.whatsapp.net"; "t" := "1000" ]}
    (Children [mkBinaryNode "enc" ∅ (Bytes [])]).

Definition call_offer_proto : BinaryNode :=
  mkBinaryNode "call"
    {[ "id" := "C3"; "from" := "alice@s.whatsapp.net"; "t" := "1800" ]}
    (Children
       [ mkBinaryNode "offer"
           {[ "call-id" := "__proto__"; "call-creator" := "alice@s.whatsapp.net" ]}
           (Children [mkBinaryNode "video" ∅ NoContent]) ]).

Definition call_rejected_proto : BinaryNode :=
  mkBinaryNode "call"
    {[ "id" := "C4"; "from" := "alice@s.whatsapp.net"; "t" := "1810" ]}
    (Children
       [ mkBinaryNode "reject"
           {[ "call-id" := "__proto__"; "call-creator" := "alice@s.whatsapp.net" ]}
           NoContent ]).

(** A message of alice that announces history, and the state of the
    history sync before it. *)
Definition history_message : @WebMessageInfo Example.payloads :=
  {| key := {| remoteJid := Some "alice.2@s.whatsapp.net"; id := Some "H1";
               fromMe := false; participant := None |};
     message := Some (decoded "history");
     messageStubType := None;
     messageStubParameters := None;
     msg_participant := None;
     messageTimestamp := None |}.

(** A message that lost its id on the way. *)
Definition message_without_id : @WebMessageInfo Example.payloads :=
  {| key := {| remoteJid := Some "alice@s.whatsapp.net"; id := None;
               fromMe := false; participant := None |};
     message := Some (decoded "history");
     messageStubType := None;
     messageStubParameters := None;
     msg_participant := None;
     messageTimestamp := None |}.

Definition history_start : History.HistorySync :=
  {| History.ws_is_open := true; History.historyCache := ∅;
     History.recvChats := ∅ |}.

End Cases.

(** * Properties *)

(** ** Runs of composed tasks *)
Section TaskFacts.
Context {S E : Type}.

Lemma final_bind {A B} (m : Task.t S E A) (k : A -> Task.t S E B) (s : S) :
  Task.final (Task.bind m k s) =
  match Task.outcome (m s) with
  | Resolved a => Task.final (k a (Task.final (m s)))
  | Rejected _ => Task.final (m s)
  end.
Proof. unfold Task.bind. destruct (Task.outcome (m s)); reflexivity. Qed.

Lemma effects_bind {A B} (m : Task.t S E A) (k : A -> Task.t S E B) (s : S) :
  Task.effects (Task.bind m k s) =
  match Task.outcome (m s) with
  | Resolved a => Task.effects (m s) ++ Task.effects (k a (Task.final (m s)))
  | Rejected _ => Task.effects (m s)
  end.
Proof. unfold Task.bind. destruct (Task.outcome (m s)); reflexivity. Qed.

Lemma outcome_bind {A B} (m : Task.t S E A) (k : A -> Task.t S E B) (s : S) :
  Task.outcome (Task.bind m k s) =
  match Task.outcome (m s) with
  | Resolved a => Task.outcome (k a (Task.final (m s)))
  | Rejected e => Rejected e
  end.
Proof. unfold Task.bind. destruct (Task.outcome (m s)); reflexivity. Qed.

Lemma final_try_catch {A} (m : Task.t S E A) (h : string -> Task.t S E A) (s : S) :
  Task.final (Task.try_catch m h s) =
  match Task.outcome (m s) with
  | Resolved _ => Task.final (m s)
  | Rejected e => Task.final (h e (Task.final (m s)))
  end.
Proof. unfold Task.try_catch. destruct (Task.outcome (m s)); reflexivity. Qed.

Lemma effects_try_catch {A} (m : Task.t S E A) (h : string -> Task.t S E A) (s : S) :
  Task.effects (Task.try_catch m h s) =
  match Task.outcome (m s) with
  | Resolved _ => Task.effects (m s)
  | Rejected e => Task.effects (m s) ++ Task.effects (h e (Task.final (m s)))
  end.
Proof. unfold Task.try_catch. destruct (Task.outcome (m s)); reflexivity. Qed.

Lemma outcome_try_catch {A} (m : Task.t S E A) (h : string -> Task.t S E A) (s : S) :
  Task.outcome (Task.try_catch m h s) =
  match Task.outcome (m s) with
  | Resolved a => Resolved a
  | Rejected e => Task.outcome (h e (Task.final (m s)))
  end.
Proof.
  unfold Task.try_catch. destruct (Task.outcome (m s)) eqn:Hm; [exact Hm | reflexivity].
Qed.

End TaskFacts.

Section StateFacts.
Context {P : Payloads}.

Lemma keeps_ret {A} (a : A) : keeps_state (Task.ret a).
Proof. intros s. reflexivity. Qed.

Lemma keeps_throw {A} (e : string) : keeps_state (Task.throw (A:=A) e).
Proof. intros s. reflexivity. Qed.

Lemma keeps_perform (e : Effect) : keeps_state (Task.perform e).
Proof. intros s. reflexivity. Qed.

Lemma keeps_perform_all (es : list Effect) : keeps_state (Task.perform_all es).
Proof. intros s. reflexivity. Qed.

Lemma keeps_await {A} (o : Outcome A) : keeps_state (Task.await o).
Proof. intros s. reflexivity. Qed.

Lemma keeps_get : keeps_state (Task.get (S:=Socket) (E:=Effect)).
Proof. intros s. reflexivity. Qed.

Lemma keeps_bind {A B} (m : Task.t Socket Effect A) (k : A -> Task.t Socket Effect B) :
  keeps_state m -> (forall a, keeps_state (k a)) -> keeps_state (Task.bind m k).
Proof.
  intros Hm Hk s. rewrite final_bind, Hm.
  destruct (Task.outcome (m s)); [apply Hk | reflexivity].
Qed.

Lemma keeps_when (c : bool) (m : Task.t Socket Effect unit) :
  keeps_state m -> keeps_state (Task.when c m).
Proof. intros Hm. destruct c; [exact Hm | apply keeps_ret]. Qed.

Lemma keeps_try_catch {A} (m : Task.t Socket Effect A) (h : string -> Task.t Socket Effect A) :
  keeps_state m -> (forall e, keeps_state (h e)) -> keeps_state (Task.try_catch m h).
Proof.
  intros Hm Hh s. rewrite final_try_catch, Hm.
  destruct (Task.outcome (m s)); [reflexivity | apply Hh].
Qed.

Lemma counters_grow_refl (m : gmap string JS.Counter) : counters_grow m m.
Proof. intros j v Hj. exists v. split; [exact Hj | lia]. Qed.

Lemma counters_grow_trans (m1 m2 m3 : gmap string JS.Counter) :
  counters_grow m1 m2 -> counters_grow m2 m3 -> counters_grow m1 m3.
Proof.
  intros H12 H23 j v Hj.
  destruct (H12 j v Hj) as (v2 & Hv2 & Hle2).
  destruct (H23 j v2 Hv2) as (v3 & Hv3 & Hle3).
  exists v3. split; [exact Hv3 | lia].
Qed.

(** *** Reads and writes of a dictionary of counters *)

Lemma lookup_put_ne (k j : string) (v : JS.Counter) (m : gmap string JS.Counter) :
  j <> k -> JS.put k v m !! j = m !! j.
Proof.
  intros Hne. unfold JS.put.
  destruct (m !! k); [| destruct (String.eqb k "__proto__")];
    try reflexivity; by rewrite lookup_insert_ne.
Qed.

Lemma lookup_put_own (k : string) (v w : JS.Counter) (m : gmap string JS.Counter) :
  m !! k = Some w -> JS.put k v m !! k = Some v.
Proof. intros Hk. unfold JS.put. rewrite Hk. apply lookup_insert_eq. Qed.

Lemma inherited_proto : JS.inherited "__proto__" = true.
Proof. reflexivity. Qed.

Lemma numeric_not_proto (m : gmap string JS.Counter) (k : string) :
  JS.numeric m k = true -> m !! k = None -> String.eqb k "__proto__" = false.
Proof.
  unfold JS.numeric. intros Hnum Hk. rewrite Hk in Hnum.
  destruct (String.eqb_spec k "__proto__") as [-> |]; [| reflexivity].
  rewrite inherited_proto in Hnum. discriminate.
Qed.

Lemma lookup_put_numeric (k : string) (v : JS.Counter) (m : gmap string JS.Counter) :
  JS.numeric m k = true -> JS.put k v m !! k = Some v.
Proof.
  intros Hnum. destruct (m !! k) as [w |] eqn:Hk.
  - apply (lookup_put_own k v w m Hk).
  - unfold JS.put. rewrite Hk, (numeric_not_proto m k Hnum Hk).
    apply lookup_insert_eq.
Qed.

Lemma get_numeric (m : gmap string JS.Counter) (k : string) (d : Z) :
  JS.numeric m k = true ->
  JS.or_count (JS.get m k) d = JS.Count (JS.or_num (JS.count (m !! k)) d).
Proof.
  unfold JS.numeric, JS.get. destruct (m !! k) as [[n | w a] |]; try discriminate.
  - intros _. cbn. destruct (n =? 0)%Z; reflexivity.
  - intros Hin. apply negb_true_iff in Hin. rewrite Hin. reflexivity.
Qed.

(** A value that [|| 0] let through is not lowered by [+ 1]. *)
Lemma counters_grow_bump (m : gmap string JS.Counter) (i : string) :
  counters_grow m (JS.put i (JS.succ (JS.or_count (JS.get m i) 0)) m).
Proof.
  intros j v Hj. destruct (decide (j = i)) as [-> | Hne].
  - rewrite (lookup_put_own i _ (JS.Count v) m Hj).
    unfold JS.get. rewrite Hj. cbn [JS.or_count].
    destruct (Z.eqb_spec v 0); cbn [JS.succ]; eexists; (split; [reflexivity | lia]).
  - rewrite lookup_put_ne by exact Hne. exists v. split; [exact Hj | lia].
Qed.

End StateFacts.

Create HintDb keeps.
#[local] Hint Resolve keeps_ret keeps_throw keeps_perform keeps_perform_all
  keeps_await keeps_get keeps_when : keeps.

Section SocketProperties.
Context {P : Payloads} {X : Externals}.
Import MessagesRecv.

Lemma or_num_lt_succ (v : option Z) (d x : Z) :
  v = Some x -> (0 <= d)%Z -> (x < JS.or_num v d + 1)%Z.
Proof.
  intros -> Hd. unfold JS.or_num. destruct (Z.eqb_spec x 0); lia.
Qed.

Lemma lookup_JS_set (k k' : string) (v : option string) (o : gmap string string) :
  JS.set k v o !! k' = if decide (k = k') then v else o !! k'.
Proof.
  unfold JS.set. destruct v; case_decide; simplify_map_eq; done.
Qed.

Lemma lookup_JS_spread (o extra : gmap string string) (k : string) :
  JS.spread o extra !! k =
  if JS.defined (extra !! k) then extra !! k else o !! k.
Proof.
  unfold JS.spread. rewrite lookup_union.
  destruct (extra !! k), (o !! k); reflexivity.
Qed.

Lemma keeps_sendNode (n : BinaryNode) : keeps_state (sendNode n).
Proof. intros s. reflexivity. Qed.

Lemma keeps_ev_emit (e : BaileysEvent) : keeps_state (ev_emit e).
Proof. intros s. reflexivity. Qed.

Lemma keeps_sendMessageAck (n : BinaryNode) (extra : gmap string string) :
  keeps_state (sendMessageAck n extra).
Proof. intros s. reflexivity. Qed.

#[local] Hint Resolve keeps_sendNode keeps_ev_emit keeps_sendMessageAck : keeps.

(** What one retry request does to the counter map, and when it is silent. *)
Lemma sendRetryRequest_counter (node : BinaryNode) (s : Socket) :
  let i := JS.prop_key (attr node "id") in
  let n := retryCount_of (msgRetryMap s) (attr node "id") in
  let r := sendRetryRequest node s in
  msgRetryMap (Task.final r) =
    (if JS.at_least n 5 then delete i (msgRetryMap s)
     else JS.put i (JS.succ n) (msgRetryMap s))
  /\ (forall j, j <> i -> msgRetryMap (Task.final r) !! j = msgRetryMap s !! j)
  /\ (JS.at_least n 5 = true -> Task.effects r = []).
Proof.
  cbv zeta. unfold sendRetryRequest.
  set (i := JS.prop_key (attr node "id")).
  set (n := retryCount_of (msgRetryMap s) (attr node "id")).
  rewrite final_bind, effects_bind.
  change (Task.outcome (Task.get s)) with (Resolved (A:=Socket) s).
  change (Task.final (Task.get s)) with s.
  change (Task.effects (Task.get s)) with (@nil Effect).
  cbv iota beta. fold i n.
  destruct (JS.at_least n 5) eqn:Hn.
  - repeat split.
    intros j Hj. cbn. by rewrite lookup_delete_ne.
  - match goal with
    | |- context [Task.bind (update_msgRetryMap ?f) ?k s] =>
        assert (Hfin : Task.final (Task.bind (update_msgRetryMap f) k s)
                       = Task.final (update_msgRetryMap f s))
    end.
    { rewrite final_bind. cbn [update_msgRetryMap Task.modify Task.outcome Task.final].
      repeat (apply keeps_bind; [auto with keeps | intros]).
      - destruct (retry_receipt_to node); auto with keeps.
      - repeat (apply keeps_bind; [auto with keeps | intros]). auto with keeps. }
    rewrite Hfin. cbn [update_msgRetryMap Task.modify Task.outcome Task.final msgRetryMap].
    repeat split.
    + intros j Hj. by rewrite lookup_put_ne.
    + discriminate.
Qed.

(** The count of a retry request where the dictionary reads as a number. *)
Lemma retryCount_numeric (m : gmap string JS.Counter) (msgId : option string) :
  JS.numeric m (JS.prop_key msgId) = true ->
  retryCount_of m msgId = JS.Count (JS.or_num (JS.count (m !! JS.prop_key msgId)) 1).
Proof. apply get_numeric. Qed.

Lemma Forall_effects_bind {A B} (Q : Effect -> Prop) (m : Task A) (k : A -> Task B)
    (s : Socket) :
  Forall Q (Task.effects (m s)) ->
  (forall a s', Forall Q (Task.effects (k a s'))) ->
  Forall Q (Task.effects (Task.bind m k s)).
Proof.
  intros Hm Hk. rewrite effects_bind.
  destruct (Task.outcome (m s)); [apply Forall_app; split; [exact Hm | apply Hk] | exact Hm].
Qed.

Lemma sent_nodes_app (l1 l2 : list Effect) :
  sent_nodes (l1 ++ l2) = sent_nodes l1 ++ sent_nodes l2.
Proof. unfold sent_nodes. apply omap_app. Qed.

Lemma emitted_app (l1 l2 : list Effect) :
  emitted (l1 ++ l2) = emitted l1 ++ emitted l2.
Proof. unfold emitted. apply omap_app. Qed.

Lemma sent_nodes_none (l : list Effect) :
  Forall (fun e => is_SendNode e = false) l -> sent_nodes l = [].
Proof.
  induction 1 as [| e l He _ IH]; [reflexivity|].
  destruct e; try discriminate He; exact IH.
Qed.

Lemma emitted_none (l : list Effect) :
  Forall (fun e => is_Emit e = false) l -> emitted l = [].
Proof.
  induction 1 as [| e l He _ IH]; [reflexivity|].
  destruct e; try discriminate He; exact IH.
Qed.

(** *** The resend *)

(** One turn of the loop of [sendMessagesAgain] either leaves the map or
    raises one counter by one. *)
Lemma resend_each_grows (key : MessageKey) (p : option string)
    (items : list (option string * option IMessage)) (s : Socket) :
  counters_grow (msgRetryMap s)
    (msgRetryMap (Task.final (resend_each key p items s))).
Proof.
  revert s. induction items as [| [i m] rest IH]; intros s.
  - apply counters_grow_refl.
  - cbn [resend_each]. rewrite final_bind.
    destruct m as [m |].
    + set (step := Task.bind _ _).
      assert (Hstep : Task.final (step s) =
        {| msgRetryMap :=
             JS.put (JS.prop_key i)
               (JS.succ (JS.or_count (JS.get (msgRetryMap s) (JS.prop_key i)) 0))
               (msgRetryMap s);
           sendActiveReceipts := sendActiveReceipts s;
           ws_open := ws_open s;
           creds := creds s |}).
      { unfold step. rewrite final_bind. cbn [update_msgRetryMap Task.modify Task.outcome Task.final].
        apply (keeps_bind (P:=P)); [auto with keeps | intros; auto with keeps]. }
      assert (Hgrow : counters_grow (msgRetryMap s) (msgRetryMap (Task.final (step s)))).
      { rewrite Hstep. apply counters_grow_bump. }
      destruct (Task.outcome (step s)); [| exact Hgrow].
      eapply counters_grow_trans; [exact Hgrow | apply IH].
    + apply IH.
Qed.

Lemma resend_each_quiet (Q : Effect -> Prop) (key : MessageKey) (p : option string)
    (items : list (option string * option IMessage)) (s : Socket) :
  (forall j m i q, Q (RelayMessage j m i q)) ->
  Forall Q (Task.effects (resend_each key p items s)).
Proof.
  intros HQ. revert s. induction items as [| [i m] rest IH]; intros s.
  - constructor.
  - cbn [resend_each]. apply Forall_effects_bind; [| intros; apply IH].
    destruct m as [m |]; [| constructor].
    apply Forall_effects_bind; [constructor|]. intros _ s'.
    apply Forall_effects_bind; [| intros; constructor].
    constructor; [apply HQ | constructor].
Qed.

Lemma sendMessagesAgain_grows (key : MessageKey) (ids : list (option string))
    (s : Socket) :
  counters_grow (msgRetryMap s)
    (msgRetryMap (Task.final (sendMessagesAgain key ids s))).
Proof.
  unfold sendMessagesAgain.
  rewrite final_bind. cbn [Task.perform_all Task.outcome Task.final].
  rewrite final_bind. cbn [Task.await Task.outcome Task.final].
  destruct (promise_all _) as [msgs | e]; [| apply counters_grow_refl].
  rewrite final_bind. cbn [Task.perform Task.outcome Task.final].
  rewrite final_bind. cbn [Task.await Task.outcome Task.final].
  destruct (assertSessions _ _); [| apply counters_grow_refl].
  rewrite final_bind.
  assert (Hk : keeps_state
    (if isJidGroup (remoteJid key)
     then Task.bind (Task.perform (KeysSetSenderKeyMemory (remoteJid key)))
            (fun _ => Task.await (keys_set_sender_key_memory (remoteJid key)))
     else Task.ret tt)).
  { destruct (isJidGroup _); [apply keeps_bind; intros|]; auto with keeps. }
  rewrite Hk. destruct (Task.outcome _); [apply resend_each_grows | apply counters_grow_refl].
Qed.

(** [sendMessagesAgain] writes no stanza and emits no event itself. *)
Lemma sendMessagesAgain_quiet (Q : Effect -> Prop) (key : MessageKey)
    (ids : list (option string)) (s : Socket) :
  (forall k, Q (GetMessage k)) ->
  (forall j f, Q (AssertSessions j f)) ->
  (forall j, Q (KeysSetSenderKeyMemory j)) ->
  (forall j m i q, Q (RelayMessage j m i q)) ->
  Forall Q (Task.effects (sendMessagesAgain key ids s)).
Proof.
  intros Hget Hassert Hset Hrelay. unfold sendMessagesAgain.
  apply Forall_effects_bind.
  { cbn. apply Forall_forall. intros e He. apply list_elem_of_In in He.
    apply in_map_iff in He as (k & <- & _). apply Hget. }
  intros _ s1. apply Forall_effects_bind; [constructor|]. intros msgs s2.
  apply Forall_effects_bind; [repeat constructor; apply Hassert|]. intros _ s3.
  apply Forall_effects_bind; [constructor|]. intros _ s4.
  apply Forall_effects_bind; [| intros; apply resend_each_quiet; exact Hrelay].
  destruct (isJidGroup _); [| constructor].
  apply Forall_effects_bind; [repeat constructor; apply Hset | intros; constructor].
Qed.

(** *** Receipts *)

Lemma receipt_ids_head (node : BinaryNode) :
  default None (head (receipt_ids node)) = attr node "id".
Proof. reflexivity. Qed.

(** The status updates: the event, if any, and nothing else. *)
Lemma receipt_updates_run (c : AuthenticationCreds) (node : BinaryNode) (s : Socket) :
  let r := receipt_updates c node s in
  Task.outcome r = Resolved tt
  /\ Task.final r = s
  /\ sent_nodes (Task.effects r) = []
  /\ Forall (fun e => is_RelayMessage e = false) (Task.effects r).
Proof.
  cbv zeta. unfold receipt_updates.
  destruct (getStatusFromReceiptType _) as [status |]; [| repeat split; constructor].
  destruct (_ || negb _); [| repeat split; constructor].
  destruct (isJidGroup _); repeat split; repeat constructor.
Qed.

(** The retry arm returns whether to acknowledge and is silent on the
    transport and on the bus. *)
Lemma receipt_retry_run (node : BinaryNode) (s : Socket) :
  let r := receipt_retry (creds s) node s in
  Task.outcome r = Resolved (negb (resend_throws node s))
  /\ sent_nodes (Task.effects r) = []
  /\ emitted (Task.effects r) = []
  /\ counters_grow (msgRetryMap s) (msgRetryMap (Task.final r))
  /\ (willSendMessageAgain (msgRetryMap s) (attr node "id") = false ->
      Task.final r = s /\ Task.effects r = []).
Proof.
  cbv zeta. unfold receipt_retry, resend_throws.
  rewrite receipt_ids_head.
  cbn [with_participant fromMe receipt_key].
  destruct (JS.is_str (attr node "type") "retry");
    [| repeat split; try reflexivity; apply counters_grow_refl].
  rewrite outcome_bind, final_bind, effects_bind.
  cbn [Task.get Task.outcome Task.final Task.effects app].
  destruct (receipt_fromMe (creds s) node);
    destruct (willSendMessageAgain _ _); cbn [andb negb];
    try (repeat split; try reflexivity; try discriminate; apply counters_grow_refl).
  rewrite outcome_try_catch, final_try_catch, effects_try_catch.
  rewrite outcome_bind, final_bind, effects_bind.
  set (again := sendMessagesAgain _ _ s).
  assert (Hsent : sent_nodes (Task.effects again) = []).
  { apply sent_nodes_none, sendMessagesAgain_quiet; reflexivity. }
  assert (Hemit : emitted (Task.effects again) = []).
  { apply emitted_none, sendMessagesAgain_quiet; reflexivity. }
  assert (Hgrow : counters_grow (msgRetryMap s) (msgRetryMap (Task.final again))).
  { apply sendMessagesAgain_grows. }
  destruct (Task.outcome again);
    cbn [Task.ret Task.outcome Task.final Task.effects resolved negb andb];
    rewrite ?app_nil_r; repeat split; auto; discriminate.
Qed.

Lemma handleReceipt_run (node : BinaryNode) (s : Socket) :
  let ack := mkBinaryNode "ack" (ack_attrs node ∅) NoContent in
  Task.outcome (handleReceipt node s) = Resolved tt
  /\ Task.final (handleReceipt node s) = Task.final (receipt_retry (creds s) node s)
  /\ Task.effects (handleReceipt node s) =
       Task.effects (receipt_updates (creds s) node s)
       ++ Task.effects (receipt_retry (creds s) node s)
       ++ (if resend_throws node s then [] else [SendNode ack]).
Proof.
  cbv zeta. unfold handleReceipt.
  rewrite outcome_bind, final_bind, effects_bind.
  cbn [Task.get Task.outcome Task.final Task.effects app].
  rewrite outcome_bind, final_bind, effects_bind.
  destruct (receipt_updates_run (creds s) node s) as (Hout & Hfin & _).
  rewrite Hout, Hfin.
  rewrite outcome_bind, final_bind, effects_bind.
  destruct (receipt_retry_run node s) as (Hout' & _).
  rewrite Hout'.
  destruct (resend_throws node s); repeat split.
Qed.

(** *** Retry requests *)

Lemma sendRetryRequest_effects (node : BinaryNode) (s : Socket) :
  let n := retryCount_of (msgRetryMap s) (attr node "id") in
  Task.effects (sendRetryRequest node s) =
  if JS.at_least n 5 then []
  else GetNextPreKeys ::
       match getNextPreKeys (creds s), retry_receipt_to node with
       | Resolved r, Some to =>
           [ SendNode (retry_receipt node n (creds s) (fst (snd r)) (snd (snd r)) to);
             Emit (creds_update (fst r)) ]
       | _, _ => []
       end.
Proof.
  cbv zeta. unfold sendRetryRequest.
  rewrite effects_bind. cbn [Task.get Task.outcome Task.final Task.effects app].
  destruct (JS.at_least _ 5); [reflexivity|].
  rewrite effects_bind. cbn [update_msgRetryMap Task.modify Task.outcome Task.final Task.effects app].
  rewrite effects_bind. cbn [Task.perform Task.outcome Task.final Task.effects app].
  f_equal.
  rewrite effects_bind. cbn [Task.await Task.outcome Task.final Task.effects app].
  destruct (getNextPreKeys (creds s)) as [r | e]; [| reflexivity].
  rewrite effects_bind.
  destruct (retry_receipt_to node) as [to |]; reflexivity.
Qed.

Lemma retry_receipt_keys_child (node : BinaryNode) (n : JS.Counter)
    (c : AuthenticationCreds) (keyId : Z) (key : KeyPair) (to : option string) :
  let st := retry_receipt node n c keyId key to in
  tag st = "receipt"
  /\ getBinaryNodeChild st "keys" =
       if JS.above n 1 then Some (keys_node c keyId key) else None.
Proof.
  cbv zeta. split; [reflexivity|].
  unfold retry_receipt, getBinaryNodeChild, getBinaryNodeChildren,
    getAllBinaryNodeChildren.
  destruct (JS.above n 1); reflexivity.
Qed.

(** *** Notifications *)

Lemma group_notification_participant (node child : BinaryNode) (s : Socket)
    (stub : WAMessageStubType) :
  In (tag child, stub) participant_stubs ->
  let participants :=
    map (fun p => attr p "jid") (getBinaryNodeChildren (Some child) "participant") in
  let left :=
    match participants with
    | [p] => areJidsSameUser p (attr node "participant")
    | _ => false
    end && String.eqb (tag child) "remove" in
  group_notification node child s =
  Task.mkRun
    (Resolved
       {| result_key := None;
          result_message := None;
          result_messageStubType :=
            Some (if left then GROUP_PARTICIPANT_LEAVE else stub);
          result_messageStubParameters := Some participants |})
    s [].
Proof.
  intros Hin. cbv zeta. unfold group_notification.
  set (participants := map _ _).
  assert (Hone : (length participants =? 1)%nat
                 && areJidsSameUser (default None (head participants))
                      (attr node "participant")
                 = match participants with
                   | [p] => areJidsSameUser p (attr node "participant")
                   | _ => false
                   end).
  { destruct participants as [| p [| q l]]; reflexivity. }
  rewrite Hone. clear Hone.
  destruct (match participants with [p] => _ | _ => false end);
    simpl in Hin;
    repeat (destruct Hin as [Hin | Hin];
            [injection Hin as Ht <-; rewrite <- Ht; reflexivity|]);
    contradiction.
Qed.

Lemma group_notification_no_upsert (node child : BinaryNode) (s : Socket) :
  Forall (fun e => is_upsert e = false) (Task.effects (group_notification node child s)).
Proof.
  unfold group_notification.
  repeat match goal with
         | |- context [if ?c then _ else _] => destruct c
         end;
    repeat constructor.
Qed.

Lemma processNotification_no_upsert (node : BinaryNode) (s : Socket) :
  Forall (fun e => is_upsert e = false) (Task.effects (processNotification node s)).
Proof.
  unfold processNotification.
  apply Forall_effects_bind; [| intros; constructor].
  destruct (JS.is_str _ "w:gp2").
  { destruct (head _); [apply group_notification_no_upsert | constructor]. }
  destruct (JS.is_str _ "mediaretry"); [repeat constructor|].
  destruct (JS.is_str _ "encrypt").
  { apply Forall_effects_bind; [| intros; constructor].
    rewrite effects_try_catch. unfold handleEncryptNotification.
    destruct (JS.is_str _ _); [| constructor].
    destruct (getBinaryNodeChild _ _); [| constructor].
    destruct (num_lt _ _); repeat constructor. }
  destruct (JS.is_str _ "devices"); [| constructor].
  apply Forall_effects_bind; [constructor|]. intros s0 s'.
  destruct (head (getAllBinaryNodeChildren node)), (me (creds s0)); constructor.
Qed.

Lemma processNotification_keeps (node : BinaryNode) : keeps_state (processNotification node).
Proof.
  unfold processNotification.
  apply keeps_bind; [| intros; auto with keeps].
  destruct (JS.is_str _ "w:gp2").
  { destruct (head _) as [child |]; [| auto with keeps].
    unfold group_notification.
    repeat match goal with
           | |- context [if ?c then _ else _] => destruct c
           end;
      repeat (apply keeps_bind; [auto with keeps | intros]); auto with keeps. }
  destruct (JS.is_str _ "mediaretry").
  { apply keeps_bind; intros; auto with keeps. }
  destruct (JS.is_str _ "encrypt").
  { apply keeps_bind; [| intros; auto with keeps].
    apply keeps_try_catch; [| intros; auto with keeps].
    unfold handleEncryptNotification.
    destruct (JS.is_str _ _); [| auto with keeps].
    destruct (getBinaryNodeChild _ _); auto with keeps. }
  destruct (JS.is_str _ "devices"); [| auto with keeps].
  apply keeps_bind; [auto with keeps|]. intros s0.
  destruct (head (getAllBinaryNodeChildren node)), (me (creds s0)); auto with keeps.
Qed.

Lemma filter_upsert_none (l : list Effect) :
  Forall (fun e => is_upsert e = false) l ->
  filter (fun e => is_upsert e = true) l = [].
Proof.
  induction 1 as [| e l He _ IH]; [reflexivity|].
  rewrite filter_cons, IH. case_decide; [congruence | reflexivity].
Qed.

Lemma emitted_upsert_type (l : list Effect) (ev : BaileysEvent) :
  Forall (fun e => is_upsert e = false) l ->
  In ev (emitted l) -> upsert_type ev = None.
Proof.
  induction 1 as [| e l He _ IH]; [intros []|].
  destruct e; cbn; try exact IH.
  intros [<- | Hin]; [| exact (IH Hin)].
  destruct event; (reflexivity || discriminate He).
Qed.

Lemma handleNotification_effects (node : BinaryNode) (s : Socket) :
  let pn := processNotification node s in
  Task.effects (handleNotification node s) =
  SendNode (mkBinaryNode "ack" (ack_attrs node ∅) NoContent) ::
  Task.effects pn ++
  match Task.outcome pn, me (creds s) with
  | Resolved (Some msg), Some m =>
      [ Emit (messages_upsert
          [ {| key :=
                 {| remoteJid := attr node "from";
                    fromMe :=
                      areJidsSameUser (JS.or (attr node "participant") (attr node "from"))
                        (Some (contact_id m));
                    participant :=
                      match result_key msg with
                      | Some owner => owner
                      | None => attr node "participant"
                      end;
                    id := attr node "id" |};
               message := result_message msg;
               messageStubType := result_messageStubType msg;
               messageStubParameters := result_messageStubParameters msg;
               msg_participant := attr node "participant";
               messageTimestamp := Some (unary_plus (attr node "t")) |} ]
          Append) ]
  | _, _ => []
  end.
Proof.
  cbv zeta. unfold handleNotification.
  rewrite effects_bind. cbn [sendMessageAck sendNode Task.perform Task.outcome
    Task.final Task.effects app].
  f_equal. rewrite effects_bind.
  pose proof (processNotification_keeps node s) as Hkeep.
  destruct (Task.outcome (processNotification node s)) as [[msg |] | e];
    rewrite ?app_nil_r; try reflexivity.
  f_equal. rewrite effects_bind, Hkeep.
  cbn [Task.get Task.outcome Task.final Task.effects app].
  destruct (me (creds s)); reflexivity.
Qed.


Lemma truthy_false_iff (v : option string) :
  JS.truthy v = false <-> v = None \/ v = Some "".
Proof.
  destruct v as [[| c r] |]; simpl; split; intros H; try tauto; try discriminate.
  - destruct H as [H | H]; discriminate.
Qed.

Lemma is_str_iff (v : option string) (lit : string) :
  JS.is_str v lit = true <-> v = Some lit.
Proof.
  destruct v as [x |]; simpl; [| split; discriminate].
  rewrite String.eqb_eq. split; [intros -> | intros [= ->]]; reflexivity.
Qed.

(** ** The claims on [messages-recv.ts] *)

(** C1, amended.  One retry request leaves every other id's counter alone.
    For its own id, where the map reads as a number or as nothing (it owns
    a number there, or owns nothing and the id names no member of
    [Object.prototype]), the request stores the count it carried plus one,
    which is above what was stored and at most 5, or, when the count has
    reached 5, deletes the entry and has no effect on the outside world at
    all, so the next request for that id starts again from count 1.  A
    resend never removes a number from the map and never lowers one, and
    neither does a receipt; a receipt whose first id fails
    [willSendMessageAgain] leaves the map as it is and relays nothing. *)
Theorem retry_counter_by_design (node : BinaryNode) (key : MessageKey)
    (ids : list (option string)) (s : Socket) :
  let i := JS.prop_key (attr node "id") in
  let n := JS.or_num (JS.count (msgRetryMap s !! i)) 1 in
  let retry := sendRetryRequest node s in
  let resend := sendMessagesAgain key ids s in
  let receipt := handleReceipt node s in
  (forall j, j <> i -> msgRetryMap (Task.final retry) !! j = msgRetryMap s !! j)
  /\ (JS.numeric (msgRetryMap s) i = true ->
      retryCount_of (msgRetryMap s) (attr node "id") = JS.Count n
      /\ msgRetryMap (Task.final retry) !! i =
           (if (5 <=? n)%Z then None else Some (JS.Count (n + 1)))
      /\ ((n < 5)%Z ->
          (n + 1 <= 5)%Z
          /\ forall v, msgRetryMap s !! i = Some (JS.Count v) -> (v < n + 1)%Z)
      /\ ((5 <= n)%Z -> Task.effects retry = []))
  /\ counters_grow (msgRetryMap s) (msgRetryMap (Task.final resend))
  /\ counters_grow (msgRetryMap s) (msgRetryMap (Task.final receipt))
  /\ (willSendMessageAgain (msgRetryMap s) (attr node "id") = false ->
      Task.final receipt = s
      /\ Forall (fun e => is_RelayMessage e = false) (Task.effects receipt)).
Proof.
  cbv zeta.
  destruct (sendRetryRequest_counter node s) as (Hmap & Hother & Hcap).
  destruct (handleReceipt_run node s) as (_ & Hfin & Heff).
  destruct (receipt_retry_run node s) as (_ & _ & _ & Hgrow & Hgate).
  destruct (receipt_updates_run (creds s) node s) as (_ & _ & _ & Hquiet).
  split; [exact Hother|]. split; [| split; [| split]].
  - intros Hnum. pose proof (retryCount_numeric _ (attr node "id") Hnum) as Hcount.
    rewrite Hcount in Hmap, Hcap. cbn [JS.at_least JS.succ] in Hmap, Hcap.
    split; [exact Hcount|]. rewrite Hmap. split; [| split].
    + destruct (5 <=? _)%Z; [apply lookup_delete_eq|].
      apply lookup_put_numeric. exact Hnum.
    + intros Hlt. split; [lia|]. intros v Hv. rewrite Hv. cbn [JS.count].
      apply (or_num_lt_succ (Some v) 1 v); [reflexivity | lia].
    + intros Hge. apply Hcap. apply Z.leb_le. exact Hge.
  - apply sendMessagesAgain_grows.
  - rewrite Hfin. exact Hgrow.
  - intros Hclosed. split.
    + rewrite Hfin. exact (proj1 (Hgate Hclosed)).
    + rewrite Heff. rewrite (proj2 (Hgate Hclosed)).
      apply Forall_app. split; [exact Hquiet|].
      destruct (resend_throws node s); repeat constructor.
Qed.

(** C3.  A stanza that [sendRetryRequest] writes is a [receipt], written
    only while the count is not 5 or more.  With a count that is not above
    1 (count 1, and a count that is no number) it has no [keys] child.
    With a count above 1 (so from 2 to 4) its [keys] child holds, in this
    order, the key-bundle-type byte, the public identity key, the pre-key
    that [getNextPreKeys] just returned, the signed pre-key and the encoded
    device identity.  With a count of 5 or more the request has no effect.
    Otherwise exactly one stanza is written once the key store has answered
    and the addressee can be computed. *)
Theorem retry_receipt_keys_bundle (node : BinaryNode) (s : Socket) :
  let n := retryCount_of (msgRetryMap s) (attr node "id") in
  let r := sendRetryRequest node s in
  let c := creds s in
  (JS.at_least n 5 = true -> Task.effects r = [])
  /\ (forall st, In st (sent_nodes (Task.effects r)) ->
        tag st = "receipt" /\ JS.at_least n 5 = false
        /\ (JS.above n 1 = false -> getBinaryNodeChild st "keys" = None)
        /\ (JS.above n 1 = true ->
            exists update keyId key,
              getNextPreKeys c = Resolved (update, (keyId, key))
              /\ getBinaryNodeChild st "keys" =
                 Some (mkBinaryNode "keys" ∅
                   (Children
                      [ mkBinaryNode "type" ∅
                          (Bytes (take 1 (generateSignalPubKey KEY_BUNDLE_TYPE)));
                        mkBinaryNode "identity" ∅
                          (Bytes (public (signedIdentityKey c)));
                        xmppPreKey key keyId;
                        xmppSignedPreKey (signedPreKey c);
                        mkBinaryNode "device-identity" ∅
                          (Bytes (encodeDeviceIdentity (account c))) ]))))
  /\ (JS.at_least n 5 = false -> resolved (getNextPreKeys c) = true ->
      retry_receipt_to node <> None ->
      length (sent_nodes (Task.effects r)) = 1%nat).
Proof.
  cbv zeta. rewrite sendRetryRequest_effects.
  set (n := retryCount_of (msgRetryMap s) (attr node "id")).
  destruct (JS.at_least n 5) eqn:Hn.
  { split; [reflexivity|]. split; [intros st [] | intros; discriminate]. }
  split; [discriminate|]. split.
  - intros st Hst.
    destruct (getNextPreKeys (creds s)) as [[update [keyId key]] | e];
      [| destruct Hst].
    destruct (retry_receipt_to node) as [to |]; [| destruct Hst].
    destruct Hst as [<- | []]. cbn [fst snd].
    destruct (retry_receipt_keys_child node n (creds s) keyId key to) as (Htag & Hkeys).
    split; [exact Htag|]. split; [reflexivity|]. rewrite Hkeys. split.
    + intros ->. reflexivity.
    + intros ->. exists update, keyId, key. split; reflexivity.
  - intros _ Hres Hto.
    destruct (getNextPreKeys (creds s)); [| discriminate].
    destruct (retry_receipt_to node); [reflexivity | contradiction].
Qed.

(** C4, amended.  The key [handleReceipt] builds has [remoteJid = attrs.from]
    when the node is not from the local user or [attrs.from] is a group
    JID, and [attrs.recipient] otherwise; its [fromMe] holds iff
    [attrs.recipient] is absent or empty, or the type is [retry] and the
    node is from the local user; the node is from the local user when
    [attrs.participant], or [attrs.from] when the participant is absent or
    empty, names the same user as the local identity.  Every update event
    of the receipt carries that key, once per id. *)
Theorem receipt_key_derivation (node : BinaryNode) (s : Socket) :
  let c := creds s in
  let sender :=
    match attr node "participant" with
    | None | Some "" => attr node "from"
    | Some p => Some p
    end in
  let isNodeFromMe := areJidsSameUser sender (contact_id <$> me c) in
  let k := receipt_key c node in
  remoteJid k =
    (if negb isNodeFromMe || isJidGroup (attr node "from")
     then attr node "from" else attr node "recipient")
  /\ (fromMe k = true <->
      (attr node "recipient" = None \/ attr node "recipient" = Some "")
      \/ (attr node "type" = Some "retry" /\ isNodeFromMe = true))
  /\ (forall ev, In ev (emitted (Task.effects (handleReceipt node s))) ->
      event_keys ev = map (with_id k) (receipt_ids node)).
Proof.
  cbv zeta.
  assert (Hsender : receipt_isNodeFromMe (creds s) node =
    areJidsSameUser
      match attr node "participant" with
      | None | Some "" => attr node "from"
      | Some p => Some p
      end (contact_id <$> me (creds s))).
  { unfold receipt_isNodeFromMe, JS.or.
    destruct (attr node "participant") as [[| ch r] |]; reflexivity. }
  split; [| split].
  - cbn [receipt_key remoteJid]. unfold receipt_remoteJid. rewrite Hsender. reflexivity.
  - cbn [receipt_key fromMe]. unfold receipt_fromMe. rewrite Hsender.
    rewrite orb_true_iff, andb_true_iff, negb_true_iff, truthy_false_iff, is_str_iff.
    reflexivity.
  - intros ev. destruct (handleReceipt_run node s) as (_ & _ & ->).
    rewrite !emitted_app.
    destruct (receipt_retry_run node s) as (_ & _ & -> & _).
    assert (Hack : emitted (if resend_throws node s then []
                            else [SendNode (mkBinaryNode "ack" (ack_attrs node ∅) NoContent)]) = []).
    { destruct (resend_throws node s); reflexivity. }
    rewrite Hack, !app_nil_r. unfold receipt_updates.
    destruct (getStatusFromReceiptType _) as [status |]; [| intros []].
    destruct (_ || negb _); [| intros []].
    destruct (isJidGroup _); intros [<- | []]; cbn [event_keys];
      rewrite map_map; reflexivity.
Qed.


(** C5, amended.  For a receipt whose type maps to a status,
    [handleReceipt] puts status updates on the bus iff the status is above
    [DELIVERY_ACK] or the node is not from the local user.  It then emits
    one event, not one per id: for a group [remoteJid] a
    [message-receipt.update] with one entry per id, keyed by the key of the
    receipt under that id, whose receipt carries [receiptTimestamp] when
    the status is [DELIVERY_ACK] and [readTimestamp] otherwise; for any
    other [remoteJid] a [messages.update] with one entry per id, keyed
    alike, carrying the status. *)
Theorem receipt_status_updates (node : BinaryNode) (s : Socket)
    (status : WebMessageInfoStatus) :
  getStatusFromReceiptType (attr node "type") = Some status ->
  let c := creds s in
  let isNodeFromMe :=
    areJidsSameUser (JS.or (attr node "participant") (attr node "from"))
      (contact_id <$> me c) in
  let jid :=
    if negb isNodeFromMe || isJidGroup (attr node "from")
    then attr node "from" else attr node "recipient" in
  let key_of (i : option string) :=
    {| remoteJid := jid;
       id := i;
       fromMe :=
         negb (JS.truthy (attr node "recipient"))
         || (JS.is_str (attr node "type") "retry" && isNodeFromMe);
       participant := attr node "participant" |} in
  let ids :=
    attr node "id" ::
    match children (content node) with
    | Some content =>
        map (fun item => attr item "id") (getBinaryNodeChildren (head content) "item")
    | None => []
    end in
  let t := Some (unary_plus (attr node "t")) in
  emitted (Task.effects (handleReceipt node s)) =
  if (status_value DELIVERY_ACK <? status_value status)%Z || negb isNodeFromMe
  then
    [ if isJidGroup jid then
        message_receipt_update
          (map (fun i =>
                  (key_of i,
                   {| userJid := jidNormalizedUser (attr node "participant");
                      receiptTimestamp :=
                        match status with DELIVERY_ACK => t | _ => None end;
                      readTimestamp :=
                        match status with DELIVERY_ACK => None | _ => t end |}))
             ids)
      else messages_update (map (fun i => (key_of i, status)) ids) ]
  else [].
Proof.
  intros Hstatus. cbv zeta.
  destruct (handleReceipt_run node s) as (_ & _ & ->).
  rewrite !emitted_app.
  destruct (receipt_retry_run node s) as (_ & _ & -> & _).
  assert (Hack : emitted (if resend_throws node s then []
                          else [SendNode (mkBinaryNode "ack" (ack_attrs node ∅) NoContent)]) = []).
  { destruct (resend_throws node s); reflexivity. }
  rewrite Hack, !app_nil_r. unfold receipt_updates. rewrite Hstatus.
  unfold receipt_key, with_id, receipt_remoteJid, receipt_fromMe, receipt_ids,
    receipt_isNodeFromMe.
  cbn [remoteJid fromMe participant].
  destruct (_ || negb _); [| reflexivity].
  match goal with
  | |- context [if isJidGroup ?j then ev_emit (message_receipt_update _) else _] =>
      destruct (isJidGroup j)
  end; [| reflexivity].
  destruct status; reflexivity.
Qed.

(** C6.  [handleReceipt] never throws and writes exactly one stanza, the ack
    of the receipt, except when the receipt has type [retry], [key.fromMe]
    holds and the resend is made and throws: then, and only then, it writes
    none. *)
Theorem receipt_ack_unless_resend_throws (node : BinaryNode) (s : Socket) :
  let r := handleReceipt node s in
  Task.outcome r = Resolved tt
  /\ sent_nodes (Task.effects r) =
       (if resend_throws node s then []
        else [mkBinaryNode "ack" (ack_attrs node ∅) NoContent])
  /\ (resend_throws node s = true <->
      attr node "type" = Some "retry"
      /\ fromMe (receipt_key (creds s) node) = true
      /\ willSendMessageAgain (msgRetryMap s) (attr node "id") = true
      /\ exists reason,
           Task.outcome
             (sendMessagesAgain
                (with_participant (receipt_key (creds s) node)
                   (JS.or (attr node "participant") (attr node "from")))
                (receipt_ids node) s) = Rejected reason).
Proof.
  cbv zeta. destruct (handleReceipt_run node s) as (Hout & _ & Heff).
  split; [exact Hout|]. split.
  - rewrite Heff, !sent_nodes_app.
    destruct (receipt_updates_run (creds s) node s) as (_ & _ & -> & _).
    destruct (receipt_retry_run node s) as (_ & -> & _).
    destruct (resend_throws node s); reflexivity.
  - unfold resend_throws.
    rewrite !andb_true_iff, negb_true_iff, is_str_iff.
    cbn [receipt_key participant].
    destruct (Task.outcome (sendMessagesAgain _ _ s)) as [[] | reason]; cbn [resolved].
    + split; [intros (_ & [=]) | intros (_ & _ & _ & reason & [=])].
    + split; [intros (((H1 & H2) & H3) & _) | intros (H1 & H2 & H3 & _)];
        repeat split; eauto.
Qed.

(** C7, amended.  [sendMessageAck] writes one stanza, tagged [ack].  Its
    [id], [to] and [class] are the input's [id], its [from] and its tag
    unless the extra attributes carry a key of that name, which then wins.
    The input's [participant] is copied iff it is present and not empty;
    otherwise the ack has the participant of the extra attributes, if any.
    The input's [type] is copied iff the tag is not [message], the type is
    present and not empty, and the extra attributes carry no non-empty
    [type]; otherwise the ack has the type of the extra attributes, if
    any. *)
Theorem sendMessageAck_stanza (node : BinaryNode) (extraAttrs : gmap string string)
    (s : Socket) :
  let a := ack_attrs node extraAttrs in
  let r := sendMessageAck node extraAttrs s in
  Task.outcome r = Resolved tt
  /\ Task.effects r = [SendNode (mkBinaryNode "ack" a NoContent)]
  /\ a !! "id" =
       (if JS.defined (extraAttrs !! "id") then extraAttrs !! "id" else attr node "id")
  /\ a !! "to" =
       (if JS.defined (extraAttrs !! "to") then extraAttrs !! "to" else attr node "from")
  /\ a !! "class" =
       (if JS.defined (extraAttrs !! "class") then extraAttrs !! "class"
        else Some (tag node))
  /\ a !! "participant" =
       (if JS.truthy (attr node "participant") then attr node "participant"
        else extraAttrs !! "participant")
  /\ a !! "type" =
       (if negb (String.eqb (tag node) "message") && JS.truthy (attr node "type")
           && negb (JS.truthy (extraAttrs !! "type"))
        then attr node "type" else extraAttrs !! "type").
Proof.
  cbv zeta. split; [reflexivity|]. split; [reflexivity|].
  unfold ack_attrs.
  repeat split;
    repeat (destruct (_ && _) || destruct (JS.truthy _));
    rewrite ?lookup_JS_set, ?lookup_JS_spread, ?lookup_JS_set; simpl;
    rewrite ?lookup_empty; try reflexivity.
  all: try (destruct (extraAttrs !! _); reflexivity).
Qed.

(** C8.  For a [w:gp2] notification whose first child is tagged [promote],
    [demote], [remove], [add] or [leave], [processNotification] returns a
    message whose stub type is the [GROUP_PARTICIPANT_] member named after
    the tag and whose stub parameters are the [jid]s of the child's
    [participant] children; except that with exactly one such jid, naming
    the same user as the notification's [participant], under the tag
    [remove], the stub type is [GROUP_PARTICIPANT_LEAVE].  Nothing is
    emitted and the state is untouched. *)
Theorem participant_notification_stub (node child : BinaryNode)
    (rest : list BinaryNode) (stub : WAMessageStubType) (s : Socket) :
  attr node "type" = Some "w:gp2" ->
  getAllBinaryNodeChildren node = child :: rest ->
  In (tag child, stub) participant_stubs ->
  let participants :=
    map (fun p => attr p "jid") (getBinaryNodeChildren (Some child) "participant") in
  let left :=
    match participants with
    | [p] => areJidsSameUser p (attr node "participant")
    | _ => false
    end && String.eqb (tag child) "remove" in
  processNotification node s =
  Task.mkRun
    (Resolved
       (Some {| result_key := None;
                result_message := None;
                result_messageStubType :=
                  Some (if left then GROUP_PARTICIPANT_LEAVE else stub);
                result_messageStubParameters := Some participants |}))
    s [].
Proof.
  intros Htype Hchildren Hin. cbv zeta.
  unfold processNotification. rewrite Htype, Hchildren.
  cbn [JS.is_str head]. change (String.eqb "w:gp2" "w:gp2") with true. cbv iota.
  unfold Task.bind at 1.
  rewrite (group_notification_participant node child s stub Hin).
  reflexivity.
Qed.

(** The task of an inbound [message] stanza: the ack, the await of the
    decryption, and the rest, which writes no stanza. *)
Lemma message_task_effects (stanza : BinaryNode) (s : Socket) (d : DecodedStanza) :
  exists rest,
    Task.effects (message_task stanza d s) =
      SendNode (mkBinaryNode "ack" (ack_attrs stanza ∅) NoContent)
      :: AwaitDecryption :: rest
    /\ Forall (fun e => e <> AwaitDecryption) rest
    /\ sent_nodes rest = [].
Proof.
  unfold message_task.
  rewrite effects_bind. cbn [sendMessageAck sendNode Task.perform Task.outcome
    Task.final Task.effects app].
  rewrite effects_bind. cbn [Task.perform Task.outcome Task.final Task.effects app].
  rewrite effects_bind. cbn [Task.get Task.outcome Task.final Task.effects app].
  eexists. split; [reflexivity|].
  rewrite effects_bind.
  assert (Hreceipt : forall b,
            delivery_receipt d (decrypted d) b <> AwaitDecryption
            /\ is_SendNode (delivery_receipt d (decrypted d) b) = false).
  { intros b. unfold delivery_receipt.
    repeat match goal with
           | |- context [if ?c then _ else _] => destruct c
           end; split; (discriminate || reflexivity). }
  destruct (is_CIPHERTEXT _).
  - cbn [spawn Task.outcome Task.final Task.effects].
    destruct (me (creds _)); cbn; split; repeat constructor; discriminate.
  - cbn [Task.perform Task.outcome Task.final Task.effects].
    destruct (Hreceipt (sendActiveReceipts s)) as (Hne & Hsend).
    destruct (me (creds s)); cbn [Task.effects Task.throw ev_emit Task.perform app];
      (split; [repeat constructor; (exact Hne || discriminate)|]);
      unfold sent_nodes; cbn [omap];
      destruct (delivery_receipt d (decrypted d) (sendActiveReceipts s));
      try discriminate Hsend; reflexivity.
Qed.


Lemma task_effects_Does (l : list Effect) : task_effects (map Does l) = l.
Proof.
  unfold task_effects. induction l as [| e l IH]; [reflexivity|].
  cbn [map omap list_omap]. rewrite IH. reflexivity.
Qed.

Lemma turns_cons (t : Turn) (schedule : list Turn) (p : Pending) :
  turns (t :: schedule) p = snd (turn t p) ++ turns schedule (fst (turn t p)).
Proof. reflexivity. Qed.

(** Once the promise has settled nothing holds the task back. *)
Lemma turns_settled (schedule : list Turn) (l : list Effect) :
  exists n, turns schedule {| settled := true; todo := l |} = map Does (take n l).
Proof.
  revert l. induction schedule as [| t ts IH]; intros l; [exists 0%nat; reflexivity|].
  destruct t.
  - cbn [turns turn todo settled fst snd app]. apply IH.
  - destruct l as [| e rest].
    + destruct (IH []) as (n & Hn). exists n.
      cbn [turns turn todo settled fst snd app]. rewrite Hn, !take_nil. reflexivity.
    + destruct (IH rest) as (n & Hn). exists (S n).
      destruct e; cbn [turns turn todo settled fst snd app]; rewrite Hn; reflexivity.
Qed.

Lemma turns_to_the_end (l : list Effect) :
  turns (repeat Resume (length l)) {| settled := true; todo := l |} = map Does l.
Proof.
  induction l as [| e l IH]; [reflexivity|].
  destruct e; cbn [length repeat turns turn todo settled fst snd app map];
    rewrite IH; reflexivity.
Qed.

(** The task stands at [await decryptionTask] until the promise settles. *)
Lemma turns_awaiting (schedule : list Turn) (rest : list Effect) :
  let seen := turns schedule {| settled := false; todo := AwaitDecryption :: rest |} in
  seen = []
  \/ exists n, seen = Settled :: map Does (take n (AwaitDecryption :: rest)).
Proof.
  cbv zeta. induction schedule as [| t ts IH]; [left; reflexivity|].
  destruct t; cbn [turns turn todo settled fst snd app].
  - right. destruct (turns_settled ts (AwaitDecryption :: rest)) as (n & ->).
    exists n. reflexivity.
  - exact IH.
Qed.

(** What can be seen of a task that has an effect [a] to do before it
    awaits the promise. *)
Lemma turns_queued (schedule : list Turn) (a : Effect) (rest : list Effect) :
  a <> AwaitDecryption ->
  let seen :=
    turns schedule {| settled := false; todo := a :: AwaitDecryption :: rest |} in
  seen = []
  \/ seen = [Settled]
  \/ seen = [Does a]
  \/ (exists n, seen = Settled :: Does a :: map Does (take n (AwaitDecryption :: rest)))
  \/ (exists n, seen = Does a :: Settled :: map Does (take n (AwaitDecryption :: rest))).
Proof.
  intros Ha. cbv zeta. induction schedule as [| t ts IH]; [left; reflexivity|].
  destruct t.
  - cbn [turns turn todo settled fst snd app].
    destruct (turns_settled ts (a :: AwaitDecryption :: rest)) as ([| n] & ->).
    + right. left. reflexivity.
    + right. right. right. left. exists n. reflexivity.
  - assert (Hturn : turn Resume {| settled := false; todo := a :: AwaitDecryption :: rest |}
                    = ({| settled := false; todo := AwaitDecryption :: rest |}, [Does a])).
    { destruct a; try reflexivity. contradiction. }
    cbn [turns]. rewrite Hturn. cbn [fst snd app].
    destruct (turns_awaiting ts rest) as [-> | (n & ->)].
    + right. right. left. reflexivity.
    + right. right. right. right. exists n. reflexivity.
Qed.

(** In a list that begins with [x] and [y], whatever else is found has
    both before it. *)
Lemma after_the_first_two (x y m : Moment) (l before after : list Moment) :
  x :: y :: l = before ++ m :: after -> x <> m -> y <> m ->
  In x before /\ In y before.
Proof.
  intros Heq Hx Hy.
  destruct before as [| b1 [| b2 before]]; cbn in Heq.
  - injection Heq as Heq _. contradiction.
  - injection Heq as _ Heq _. contradiction.
  - injection Heq as -> -> _. split; [left | right; left]; reflexivity.
Qed.

(** C9, amended.  The task of an inbound [message] stanza sends the ack
    first and awaits the decryption of the stanza after it.  Under every
    schedule of the event loop, what the task has done is a beginning of
    the ack, the await and the rest, and whatever it has done other than
    the ack, so passing the await and all it does with the decrypted
    message, is seen after both the ack and the settling of the promise.
    Whether the promise settles before or after the ack is up to the
    schedule: each order occurs, and in each the task runs to its end. *)
Theorem message_ack_precedes_await (stanza : BinaryNode) (s : Socket)
    (schedule : list Turn) :
  let ack := SendNode (mkBinaryNode "ack" (ack_attrs stanza ∅) NoContent) in
  let task := Task.effects (on_message stanza s) in
  let seen := on_message_turns stanza schedule s in
  (exists rest, task = ack :: AwaitDecryption :: rest)
  /\ (exists n, task_effects seen = take n task)
  /\ (forall e, e <> ack ->
        precedes (Does ack) (Does e) seen /\ precedes Settled (Does e) seen)
  /\ on_message_turns stanza (Resume :: Settle :: repeat Resume (length (tail task))) s
     = Does ack :: Settled :: map Does (tail task)
  /\ on_message_turns stanza (Settle :: repeat Resume (length task)) s
     = Settled :: map Does task.
Proof.
  cbv zeta. unfold on_message_turns.
  assert (Htask : Task.effects (on_message stanza s) =
                  Task.effects (message_task stanza
                                  (decodeMessageStanza stanza (creds s)) s))
    by reflexivity.
  destruct (message_task_effects stanza s (decodeMessageStanza stanza (creds s)))
    as (rest & Heff & _).
  rewrite Htask, Heff. clear Htask Heff.
  set (ack := SendNode (mkBinaryNode "ack" (ack_attrs stanza ∅) NoContent)).
  assert (Hack : ack <> AwaitDecryption) by discriminate.
  pose proof (turns_queued schedule ack rest Hack) as Hseen. cbv zeta in Hseen.
  split; [exists rest; reflexivity|]. split; [| split; [| split]].
  - destruct Hseen as [-> | [-> | [-> | [(n & ->) | (n & ->)]]]].
    + exists 0%nat. reflexivity.
    + exists 0%nat. reflexivity.
    + exists 1%nat. reflexivity.
    + exists (S n). pose proof (task_effects_Does (take n (AwaitDecryption :: rest))) as Hd.
      unfold task_effects in *. cbn [omap list_omap]. rewrite Hd. reflexivity.
    + exists (S n). pose proof (task_effects_Does (take n (AwaitDecryption :: rest))) as Hd.
      unfold task_effects in *. cbn [omap list_omap]. rewrite Hd. reflexivity.
  - intros e He.
    assert (Hne : Does ack <> Does e) by (intros [= Heq]; apply He; symmetry; exact Heq).
    assert (Hboth : forall before after,
              turns schedule
                {| settled := false; todo := ack :: AwaitDecryption :: rest |}
              = before ++ Does e :: after ->
              In (Does ack) before /\ In Settled before).
    { intros before after Heq. rewrite Heq in Hseen.
      destruct Hseen as [H | [H | [H | [(n & H) | (n & H)]]]].
      - destruct before; discriminate H.
      - destruct before as [| b1 [| b2 before]]; discriminate H.
      - destruct before as [| b1 [| b2 before]]; try discriminate H.
        injection H as H _. exact (False_ind _ (He H)).
      - symmetry in H. apply after_the_first_two in H as (Hs & Ha);
          [split; assumption | discriminate | exact Hne].
      - symmetry in H. apply after_the_first_two in H as (Ha & Hs);
          [split; assumption | exact Hne | discriminate]. }
    split; intros before after Heq; apply (Hboth before after Heq).
  - change (tail (ack :: AwaitDecryption :: rest)) with (AwaitDecryption :: rest).
    rewrite !turns_cons.
    assert (Hturn : turn Resume {| settled := false; todo := ack :: AwaitDecryption :: rest |}
                    = ({| settled := false; todo := AwaitDecryption :: rest |}, [Does ack]))
      by reflexivity.
    rewrite Hturn. cbn [fst snd app turn todo settled].
    rewrite (turns_to_the_end (AwaitDecryption :: rest)). reflexivity.
  - rewrite turns_cons. cbn [turn todo settled fst snd app].
    rewrite (turns_to_the_end (ack :: AwaitDecryption :: rest)). reflexivity.
Qed.

(** C10.  Whatever the notification stanza carries, [offline] attribute or
    not, a [messages.upsert] that [handleNotification] emits has type
    [append]; and it emits exactly one, holding the one synthesized
    message, whenever [processNotification] returns a message and the local
    identity is known.  An inbound [message] stanza is upserted as [append]
    when it has a non-empty [offline] attribute and as [notify]
    otherwise. *)
Theorem notification_upsert_is_append (node : BinaryNode) (s : Socket) :
  (forall ev type, In ev (emitted (Task.effects (handleNotification node s))) ->
     upsert_type ev = Some type -> type = Append)
  /\ (forall msg m,
        Task.outcome (processNotification node s) = Resolved (Some msg) ->
        me (creds s) = Some m ->
        exists fullMsg,
          filter (fun e => is_upsert e = true) (Task.effects (handleNotification node s))
          = [Emit (messages_upsert [fullMsg] Append)]
          /\ messageStubType fullMsg = result_messageStubType msg
          /\ messageStubParameters fullMsg = result_messageStubParameters msg
          /\ message fullMsg = result_message msg)
  /\ (forall d m, me (creds s) = Some m ->
        filter (fun e => is_upsert e = true) (Task.effects (message_task node d s))
        = [Emit (messages_upsert [cleanMessage (decrypted d) (contact_id m)]
                   (if JS.truthy (attr node "offline") then Append else Notify))]).
Proof.
  pose proof (processNotification_no_upsert node s) as Hquiet.
  split; [| split].
  - intros ev type. rewrite handleNotification_effects. cbv zeta.
    change (SendNode ?a :: ?l) with ([SendNode a] ++ l).
    rewrite !emitted_app, !in_app_iff. intros [Hin | [Hin | Hin]] Htype.
    + destruct Hin.
    + rewrite (emitted_upsert_type _ _ Hquiet Hin) in Htype. discriminate.
    + destruct (Task.outcome (processNotification node s)) as [[msg |] | e];
        try destruct Hin.
      destruct (me (creds s)); [| destruct Hin].
      destruct Hin as [<- | []]. injection Htype as <-. reflexivity.
  - intros msg m Hmsg Hme. rewrite handleNotification_effects. cbv zeta.
    rewrite Hmsg, Hme. eexists. split.
    + rewrite filter_cons. case_decide as Hack; [discriminate Hack|].
      rewrite filter_app, (filter_upsert_none _ Hquiet). reflexivity.
    + repeat split.
  - intros d m Hme. unfold message_task.
    rewrite effects_bind. cbn [sendMessageAck sendNode Task.perform Task.outcome
      Task.final Task.effects app].
    rewrite effects_bind. cbn [Task.perform Task.outcome Task.final Task.effects app].
    rewrite effects_bind. cbn [Task.get Task.outcome Task.final Task.effects app].
    rewrite effects_bind, Hme.
    assert (Hreceipt : forall b, is_upsert (delivery_receipt d (decrypted d) b) = false).
    { intros b. unfold delivery_receipt.
      repeat match goal with
             | |- context [if ?c then _ else _] => destruct c
             end; reflexivity. }
    destruct (is_CIPHERTEXT _).
    + reflexivity.
    + cbn [Task.perform Task.outcome Task.final Task.effects ev_emit app].
      rewrite !filter_cons. rewrite Hreceipt.
      repeat (case_decide; try discriminate); try reflexivity.
      exfalso. auto.
Qed.

End SocketProperties.

(** ** The claim on [prepareMediaMessage] *)
Section MediaProperties.
Context {M : Media.MediaExternals}.
Import Media.

Lemma has_char_replace_all (c d : ascii) (s : string) :
  c <> d -> has_char c (replace_all c d s) = false.
Proof.
  intros Hne. induction s as [| x r IH]; [reflexivity|].
  cbn [replace_all has_char]. rewrite IH, orb_false_r.
  destruct (Ascii.eqb_spec x c) as [-> | Hx].
  - apply Ascii.eqb_neq. congruence.
  - apply Ascii.eqb_neq. exact Hx.
Qed.

Lemma has_char_replace_other (x c d : ascii) (s : string) :
  x <> d -> has_char x s = false -> has_char x (replace_all c d s) = false.
Proof.
  intros Hne. induction s as [| y r IH]; [reflexivity|].
  cbn [replace_all has_char]. rewrite orb_false_iff. intros (Hy & Hr).
  rewrite (IH Hr), orb_false_r.
  destruct (Ascii.eqb y c); [apply Ascii.eqb_neq; congruence | exact Hy].
Qed.

Lemma has_char_strip (x : ascii) (s : string) :
  has_char x s = false -> has_char x (strip_trailing_equals s) = false.
Proof.
  induction s as [| y r IH]; [reflexivity|].
  intros H. cbn [strip_trailing_equals].
  destruct (only_equals (String y r)); [reflexivity|].
  cbn [has_char] in *. apply orb_false_iff in H as (Hy & Hr).
  rewrite Hy, (IH Hr). reflexivity.
Qed.

Lemma strip_empty (s : string) :
  strip_trailing_equals s = "" -> only_equals s = true.
Proof.
  destruct s as [| y r]; [reflexivity|].
  cbn [strip_trailing_equals]. destruct (only_equals (String y r)); [reflexivity | discriminate].
Qed.

Lemma ends_with_strip (s : string) :
  ends_with "=" (strip_trailing_equals s) = false.
Proof.
  induction s as [| y r IH]; [reflexivity|].
  cbn [strip_trailing_equals].
  destruct (only_equals (String y r)) eqn:Hall; [reflexivity|].
  destruct (strip_trailing_equals r) as [| z r'] eqn:Hr.
  - cbn [ends_with]. cbn [only_equals] in Hall.
    rewrite (strip_empty r Hr), andb_true_r in Hall. exact Hall.
  - exact IH.
Qed.

(** The text [prepareMediaMessage] puts in the URL is URL-safe and carries
    no padding, whatever it is applied to. *)
Lemma url_safe_unpadded_url_safe (s : string) :
  url_safe_unpadded (url_safe s) = true.
Proof.
  unfold url_safe_unpadded, url_safe.
  rewrite ends_with_strip.
  rewrite !has_char_strip; [reflexivity | |].
  - apply has_char_replace_all. discriminate.
  - apply has_char_replace_other; [discriminate|].
    apply has_char_replace_all. discriminate.
Qed.

(** The base-64 text of 32 bytes ends with one [=]. *)
Lemma base64_digest_padded (b : Buffer) :
  length b = 32%nat -> ends_with "=" (toString_base64 b) = true.
Proof.
  intros Hlen.
  do 32 (destruct b as [| ? b]; [discriminate Hlen|]).
  destruct b; [reflexivity | discriminate Hlen].
Qed.

Lemma prepareMediaMessage_run (buffer : Buffer) (mediaType : MessageType)
    (options : MessageOptions) (result : MessageType * MediaContent) :
  let run := prepareMediaMessage buffer mediaType options tt in
  let keys := getMediaKeys (randomBytes 32) mediaType in
  let enc := aesEncrypWithIV buffer (cipherKey keys) (iv keys) in
  let mac := take 10 (hmacSign (iv keys ++ enc) (macKey keys)) in
  let body := enc ++ mac in
  Task.outcome run = Resolved result ->
  fst result = mediaType
  /\ (exists url, Task.effects run = [Query_mediaConn; Post url body])
  /\ fileSha256 (snd result) = toString_base64 (sha256 buffer)
  /\ fileEncSha256 (snd result) = url_safe (toString_base64 (sha256 body))
  /\ fileLength (snd result) = length buffer.
Proof.
  cbv zeta. unfold prepareMediaMessage.
  destruct (_ && negb _); [discriminate|].
  destruct (_ && JS.truthy _); [discriminate|].
  rewrite outcome_bind, effects_bind.
  cbn [Task.await Task.outcome Task.final Task.effects app].
  destruct (generateThumbnail _ _ _) as [options' | e]; [| discriminate].
  rewrite outcome_bind, effects_bind.
  cbn [Task.perform Task.outcome Task.final Task.effects app].
  rewrite outcome_bind, effects_bind.
  cbn [Task.await Task.outcome Task.final Task.effects app].
  destruct query_mediaConn as [json | e]; [| discriminate].
  destruct (head (hosts json)) as [host0 |]; [| discriminate].
  rewrite outcome_bind, effects_bind.
  cbn [Task.perform Task.outcome Task.final Task.effects app].
  rewrite outcome_bind, effects_bind.
  cbn [Task.await Task.outcome Task.final Task.effects app].
  destruct (fetch_post _ _) as [response | e]; [| discriminate].
  destruct (JS.truthy response); [| discriminate].
  cbn [Task.ret Task.outcome Task.effects app].
  intros [= <-]. cbn [fst snd fileSha256 fileEncSha256 fileLength].
  repeat split. eexists. reflexivity.
Qed.

(** C2, amended.  When [prepareMediaMessage] returns, the body it has
    uploaded is [enc || mac] with [enc = AES-CBC(cipherKey, iv, buffer)] and
    [mac] the first 10 bytes of [HMAC-SHA256(macKey, iv || enc)]; the
    returned content has [fileSha256 = SHA256(buffer)] in plain base 64,
    standard alphabet and padding kept (a 32-byte digest always ends in
    [=]), and [fileEncSha256 = SHA256(body)] in URL-safe base 64 without
    padding ([+] to [-], [/] to [_], trailing [=] stripped). *)
Theorem prepareMediaMessage_hashes (buffer : Buffer) (mediaType : MessageType)
    (options : MessageOptions) (result : MessageType * MediaContent) :
  let run := prepareMediaMessage buffer mediaType options tt in
  let keys := getMediaKeys (randomBytes 32) mediaType in
  let enc := aesEncrypWithIV buffer (cipherKey keys) (iv keys) in
  let mac := take 10 (hmacSign (iv keys ++ enc) (macKey keys)) in
  let body := enc ++ mac in
  Task.outcome run = Resolved result ->
  fst result = mediaType
  /\ (exists url, Task.effects run = [Query_mediaConn; Post url body])
  /\ fileSha256 (snd result) = toString_base64 (sha256 buffer)
  /\ (length (sha256 buffer) = 32%nat ->
      ends_with "=" (fileSha256 (snd result)) = true)
  /\ fileEncSha256 (snd result) =
       strip_trailing_equals
         (replace_all "/" "_" (replace_all "+" "-" (toString_base64 (sha256 body))))
  /\ url_safe_unpadded (fileEncSha256 (snd result)) = true.
Proof.
  cbv zeta. intros Hrun.
  destruct (prepareMediaMessage_run buffer mediaType options result Hrun)
    as (Htype & Hpost & Hsha & Henc & _).
  repeat split; try assumption.
  - intros Hlen. rewrite Hsha. apply base64_digest_padded, Hlen.
  - rewrite Henc. apply url_safe_unpadded_url_safe.
Qed.

End MediaProperties.

(** ** The claims at concrete inputs *)
Section Runs.
Import MessagesRecv.
#[local] Existing Instance Example.payloads.
#[local] Existing Instance Example.externals.
#[local] Existing Instance Example.media.

(** The platform primitives agree with their published test vectors:
    SHA-256 of [abc], HMAC-SHA-256 of RFC 4231 (case 1) and the AES-256
    block of FIPS 197, appendix C.3. *)
Example sha256_abc :
  Platform.sha256_Z [0x61; 0x62; 0x63]%Z =
  [ 0xba; 0x78; 0x16; 0xbf; 0x8f; 0x01; 0xcf; 0xea; 0x41; 0x41; 0x40; 0xde;
    0x5d; 0xae; 0x22; 0x23; 0xb0; 0x03; 0x61; 0xa3; 0x96; 0x17; 0x7a; 0x9c;
    0xb4; 0x10; 0xff; 0x61; 0xf2; 0x00; 0x15; 0xad ]%Z.
Proof. vm_compute. reflexivity. Qed.

Example hmac_sha256_rfc4231 :
  Platform.hmac_sha256_Z [0x48; 0x69; 0x20; 0x54; 0x68; 0x65; 0x72; 0x65]%Z
    (repeat 0x0b%Z 20) =
  [ 0xb0; 0x34; 0x4c; 0x61; 0xd8; 0xdb; 0x38; 0x53; 0x5c; 0xa8; 0xaf; 0xce;
    0xaf; 0x0b; 0xf1; 0x2b; 0x88; 0x1d; 0xc2; 0x00; 0xc9; 0x83; 0x3d; 0xa7;
    0x26; 0xe9; 0x37; 0x6c; 0x2e; 0x32; 0xcf; 0xf7 ]%Z.
Proof. vm_compute. reflexivity. Qed.

Example aes256_fips197 :
  Platform.aes_encrypt_block (Platform.expand_key (map Z.of_nat (seq 0 32)))
    [ 0x00; 0x11; 0x22; 0x33; 0x44; 0x55; 0x66; 0x77; 0x88; 0x99; 0xaa; 0xbb;
      0xcc; 0xdd; 0xee; 0xff ]%Z =
  [ 0x8e; 0xa2; 0xb7; 0xca; 0x51; 0x67; 0x45; 0xbf; 0xea; 0xfc; 0x49; 0x90;
    0x4b; 0x49; 0x60; 0x89 ]%Z.
Proof. vm_compute. reflexivity. Qed.

(** C1, as stated, fails.  Four retry requests for [A1] bring its counter
    to 5.  The fifth deletes the entry, so the counter falls from 5 to
    nothing, and writes no stanza.  The sixth writes a retry receipt with
    count 1 for the id whose counter had reached 5, and stores 2. *)
Lemma retry_counter_restarts :
  let counter (s : Socket) := JS.or_num (JS.count (msgRetryMap s !! "A1")) 0 in
  let s4 := Example.retry_requests 4 Example.message_A1 (Example.socket ∅) in
  let r5 := sendRetryRequest Example.message_A1 s4 in
  let r6 := sendRetryRequest Example.message_A1 (Task.final r5) in
  msgRetryMap s4 !! "A1" = Some (JS.Count 5)
  /\ msgRetryMap (Task.final r5) !! "A1" = None
  /\ ~ (counter s4 <= counter (Task.final r5))%Z
  /\ sent_nodes (Task.effects r5) = []
  /\ sent_nodes (Task.effects r6) <> []
  /\ (head (sent_nodes (Task.effects r6)) ≫= fun st =>
      getBinaryNodeChild st "retry" ≫= fun c => attr c "count") = Some "1"
  /\ msgRetryMap (Task.final r6) !! "A1" = Some (JS.Count 2).
Proof. vm_compute. repeat split; (reflexivity || discriminate || (intros H; apply H; reflexivity)). Qed.

(** A receipt that asks for [X] and [Y] again is let through on the counter
    of [X] alone: the counter of [Y], already at 5, becomes 6. *)
Example resend_counter_passes_cap :
  let s := Example.socket {[ "X" := 1%Z; "Y" := 5%Z ]} in
  let r := handleReceipt (Example.receipt_retry_from "carol@s.whatsapp.net" ["Y"]) s in
  msgRetryMap (Task.final r) !! "Y" = Some (JS.Count 6)
  /\ length (filter (fun e => is_RelayMessage e = true) (Task.effects r)) = 2%nat.
Proof. vm_compute. split; reflexivity. Qed.

(** C1, amended, at the third retry request for [A1], at a request that
    finds 5, and at a retry receipt for [X] that the gate stops. *)
Lemma retry_counter_by_design_witness :
  let node := Example.message_A1 in
  let s := Example.socket {[ "A1" := 3%Z; "B7" := 2%Z ]} in
  let capped := Example.socket {[ "A1" := 5%Z ]} in
  let receipt := Example.receipt_retry_from "carol@s.whatsapp.net" [] in
  let blocked := Example.socket {[ "X" := 5%Z ]} in
  msgRetryMap (Task.final (sendRetryRequest node s)) !! "B7" = Some (JS.Count 2)
  /\ msgRetryMap (Task.final (sendRetryRequest node s)) !! "A1" = Some (JS.Count 4)
  /\ (forall v, msgRetryMap s !! "A1" = Some (JS.Count v) -> (v < 4)%Z)
  /\ Task.effects (sendRetryRequest node capped) = []
  /\ attr receipt "type" = Some "retry"
  /\ Task.final (handleReceipt receipt blocked) = blocked
  /\ Forall (fun e => is_RelayMessage e = false)
       (Task.effects (handleReceipt receipt blocked)).
Proof.
  cbv zeta.
  pose proof (retry_counter_by_design Example.message_A1
                (receipt_key Example.my_creds Example.message_A1) []
                (Example.socket {[ "A1" := 3%Z; "B7" := 2%Z ]}))
    as (Hother & Hown & _).
  destruct (Hown ltac:(vm_compute; reflexivity)) as (_ & Hstored & Hbelow & _).
  pose proof (retry_counter_by_design Example.message_A1
                (receipt_key Example.my_creds Example.message_A1) []
                (Example.socket {[ "A1" := 5%Z ]}))
    as (_ & Hcapped & _).
  destruct (Hcapped ltac:(vm_compute; reflexivity)) as (_ & _ & _ & Hcap).
  pose proof (retry_counter_by_design
                (Example.receipt_retry_from "carol@s.whatsapp.net" [])
                (receipt_key Example.my_creds Example.message_A1) []
                (Example.socket {[ "X" := 5%Z ]}))
    as (_ & _ & _ & _ & Hgate).
  destruct (Hgate ltac:(vm_compute; reflexivity)) as (Hsame & Hquiet).
  split; [rewrite (Hother "B7"); [reflexivity | discriminate]|].
  split; [exact Hstored|].
  split; [exact (proj2 (Hbelow ltac:(vm_compute; reflexivity)))|].
  split; [exact (Hcap ltac:(vm_compute; discriminate))|].
  split; [reflexivity|]. split; [exact Hsame | exact Hquiet].
Defined.

(** C2, as stated, fails.  For the empty buffer the returned [fileSha256]
    is the plain base-64 text of the SHA-256 digest of nothing: it contains
    [+] and [/] and ends with the padding [=]; only [fileEncSha256] is
    URL-safe and unpadded. *)
Lemma fileSha256_is_plain_base64 :
  let run :=
    Media.prepareMediaMessage [] Media.image (Media.mkMessageOptions None None None) tt in
  (Media.fileSha256 ∘ snd) <$> (match Task.outcome run with
                                | Resolved result => Some result
                                | Rejected _ => None
                                end)
    = Some "47DEQpj8HBSa+/TImW+5JCeuQeRkm5NMpJWZG3hSuFU="
  /\ url_safe_unpadded "47DEQpj8HBSa+/TImW+5JCeuQeRkm5NMpJWZG3hSuFU=" = false
  /\ has_char "+" "47DEQpj8HBSa+/TImW+5JCeuQeRkm5NMpJWZG3hSuFU=" = true
  /\ has_char "/" "47DEQpj8HBSa+/TImW+5JCeuQeRkm5NMpJWZG3hSuFU=" = true
  /\ ends_with "=" "47DEQpj8HBSa+/TImW+5JCeuQeRkm5NMpJWZG3hSuFU=" = true.
Proof. vm_compute. repeat split; reflexivity. Qed.

(** C2, amended, at the empty image. *)
Lemma prepareMediaMessage_hashes_witness :
  let run :=
    Media.prepareMediaMessage [] Media.image (Media.mkMessageOptions None None None) tt in
  let result :=
    (Media.image,
     {| Media.url := "https://mmg.example.net/d/f/file.enc";
        Media.mediaKey := "AAECAwQFBgcICQoLDA0ODxAREhMUFRYXGBkaGxwdHh8=";
        Media.content_mimetype := Some "image/jpeg";
        Media.fileEncSha256 := "SCPdYEFnS7_252uE0VR_3AX73b39LpfIZO8kWSavqSw";
        Media.fileSha256 := "47DEQpj8HBSa+/TImW+5JCeuQeRkm5NMpJWZG3hSuFU=";
        Media.fileLength := 0;
        Media.gifPlayback := None |}) in
  Task.outcome run = Resolved result
  /\ length (Media.sha256 []) = 32%nat
  /\ Media.fileSha256 (snd result) = Media.toString_base64 (Media.sha256 [])
  /\ ends_with "=" (Media.fileSha256 (snd result)) = true
  /\ url_safe_unpadded (Media.fileEncSha256 (snd result)) = true.
Proof.
  intros run result.
  assert (Hrun : Task.outcome run = Resolved result) by (vm_compute; reflexivity).
  assert (Hlen : length (Media.sha256 []) = 32%nat) by (vm_compute; reflexivity).
  pose proof (prepareMediaMessage_hashes [] Media.image
                (Media.mkMessageOptions None None None) result Hrun)
    as (_ & _ & Hsha & Hpad & _ & Hsafe).
  split; [exact Hrun|]. split; [exact Hlen|]. split; [exact Hsha|].
  split; [exact (Hpad Hlen) | exact Hsafe].
Defined.

(** C3 at the second retry request for [A1]: the receipt carries the
    bundle. *)
Lemma retry_receipt_keys_bundle_witness :
  let s := Example.socket {[ "A1" := 2%Z ]} in
  let c := Example.my_creds in
  let key7 := {| public := repeat Byte.x07 32; private := repeat Byte.x17 32 |} in
  let st :=
    retry_receipt Example.message_A1 (JS.Count 2) c 7 key7
      (Some "alice@s.whatsapp.net") in
  sent_nodes (Task.effects (sendRetryRequest Example.message_A1 s)) = [st]
  /\ exists update keyId key,
       getNextPreKeys c = Resolved (update, (keyId, key))
       /\ getBinaryNodeChild st "keys" =
          Some (mkBinaryNode "keys" ∅
            (Children
               [ mkBinaryNode "type" ∅ (Bytes [Byte.x05]);
                 mkBinaryNode "identity" ∅ (Bytes (repeat Byte.x01 32));
                 xmppPreKey key keyId;
                 xmppSignedPreKey (signedPreKey c);
                 mkBinaryNode "device-identity" ∅
                   (Bytes [Byte.x0a; Byte.x01; Byte.x2a]) ])).
Proof.
  cbv zeta.
  assert (Hsent :
    sent_nodes (Task.effects
      (sendRetryRequest Example.message_A1 (Example.socket {[ "A1" := 2%Z ]})))
    = [retry_receipt Example.message_A1 (JS.Count 2) Example.my_creds 7
         {| public := repeat Byte.x07 32; private := repeat Byte.x17 32 |}
         (Some "alice@s.whatsapp.net")])
    by (vm_compute; reflexivity).
  split; [exact Hsent|].
  pose proof (retry_receipt_keys_bundle Example.message_A1
                (Example.socket {[ "A1" := 2%Z ]})) as (_ & Hkeys & _).
  refine (proj2 (proj2 (proj2 (Hkeys _ _))) _).
  - rewrite Hsent. left. reflexivity.
  - vm_compute. reflexivity.
Defined.

(** C4, as stated, fails.  A receipt from bob with an empty [recipient]
    attribute: the attribute is present and the receipt is no retry, yet
    [fromMe] holds, as the update shows. *)
Lemma receipt_empty_recipient_is_fromMe :
  let node := Example.receipt_empty_recipient in
  let s := Example.socket ∅ in
  let isNodeFromMe :=
    areJidsSameUser (attr node "from") (contact_id <$> me (creds s)) in
  attr node "recipient" = Some ""
  /\ attr node "participant" = None
  /\ attr node "type" = None
  /\ fromMe (receipt_key (creds s) node) = true
  /\ ~ (fromMe (receipt_key (creds s) node) = true <->
        attr node "recipient" = None
        \/ (attr node "type" = Some "retry" /\ isNodeFromMe = true))
  /\ emitted (Task.effects (handleReceipt node s)) =
     [ messages_update
         [ ({| remoteJid := Some "bob@s.whatsapp.net"; id := Some "X";
               fromMe := true; participant := None |}, DELIVERY_ACK) ] ].
Proof.
  vm_compute. repeat split; try reflexivity.
  intros [Hclaim _]. destruct (Hclaim eq_refl) as [H | [H _]]; discriminate H.
Qed.

(** C4, amended, at bob's read receipt in a group. *)
Lemma receipt_key_derivation_witness :
  let node := Example.receipt_group_read in
  let s := Example.socket ∅ in
  let k := {| remoteJid := Some "1234-5678@g.us"; id := Some "";
              fromMe := true; participant := Some "bob@s.whatsapp.net" |} in
  receipt_key (creds s) node = k
  /\ (forall ev, In ev (emitted (Task.effects (handleReceipt node s))) ->
      event_keys ev = [with_id k (Some "M1"); with_id k (Some "M2")])
  /\ fromMe k = true.
Proof.
  cbv zeta.
  pose proof (receipt_key_derivation Example.receipt_group_read (Example.socket ∅))
    as (_ & Hfrom & Hkeys).
  split; [vm_compute; reflexivity|]. split; [exact Hkeys|].
  apply Hfrom. left. left. vm_compute. reflexivity.
Defined.

(** C5, as stated, fails.  Bob's read receipt in a group names two
    messages.  [handleReceipt] emits one [message-receipt.update] with an
    entry for each, not an event for each. *)
Lemma receipt_updates_in_one_event :
  let node := Example.receipt_group_read in
  let events := emitted (Task.effects (handleReceipt node (Example.socket ∅))) in
  receipt_ids node = [Some "M1"; Some "M2"]
  /\ map (fun ev => map id (event_keys ev)) events = [[Some "M1"; Some "M2"]]
  /\ ~ event_per_id (receipt_ids node) events.
Proof.
  cbv zeta. split; [reflexivity|]. split; [reflexivity|].
  intros Hper. apply Forall2_length in Hper. vm_compute in Hper. discriminate Hper.
Qed.

(** C5, amended, at bob's read receipt in a group. *)
Lemma receipt_status_updates_witness :
  let node := Example.receipt_group_read in
  let key_of i := {| remoteJid := Some "1234-5678@g.us"; id := Some i;
                     fromMe := true; participant := Some "bob@s.whatsapp.net" |} in
  let read := {| userJid := "bob@s.whatsapp.net"; receiptTimestamp := None;
                 readTimestamp := Some (Some 1700%Z) |} in
  getStatusFromReceiptType (attr node "type") = Some READ
  /\ emitted (Task.effects (handleReceipt node (Example.socket ∅))) =
     [ message_receipt_update [ (key_of "M1", read); (key_of "M2", read) ] ].
Proof.
  cbv zeta. split; [reflexivity|].
  exact (receipt_status_updates Example.receipt_group_read (Example.socket ∅) READ eq_refl).
Defined.

(** C6 at two retry receipts: the resend to carol goes through and the
    receipt is acked; the resend to dave throws and it is not. *)
Lemma receipt_ack_unless_resend_throws_witness :
  let carol := Example.receipt_retry_from "carol@s.whatsapp.net" [] in
  let dave := Example.receipt_retry_from "dave@s.whatsapp.net" [] in
  let s := Example.socket ∅ in
  sent_nodes (Task.effects (handleReceipt carol s)) =
    [ mkBinaryNode "ack"
        {[ "id" := "X"; "to" := "carol@s.whatsapp.net"; "class" := "receipt";
           "type" := "retry" ]} NoContent ]
  /\ sent_nodes (Task.effects (handleReceipt dave s)) = []
  /\ exists reason,
       Task.outcome
         (sendMessagesAgain
            (with_participant (receipt_key (creds s) dave)
               (JS.or (attr dave "participant") (attr dave "from")))
            (receipt_ids dave) s) = Rejected reason.
Proof.
  cbv zeta.
  pose proof (receipt_ack_unless_resend_throws
                (Example.receipt_retry_from "carol@s.whatsapp.net" [])
                (Example.socket ∅)) as (_ & Hcarol & _).
  pose proof (receipt_ack_unless_resend_throws
                (Example.receipt_retry_from "dave@s.whatsapp.net" [])
                (Example.socket ∅)) as (_ & Hdave & Hwhy).
  split; [exact Hcarol|]. split; [exact Hdave|].
  exact (proj2 (proj2 (proj2 (proj1 Hwhy ltac:(vm_compute; reflexivity))))).
Defined.

(** C7, as stated, fails.  Extra attributes that carry an [id] replace the
    id of the stanza; a [participant] that is present but empty is not
    copied; and an empty [type] among the extra attributes, though supplied
    by the caller, does not keep the input's type from being copied. *)
Lemma sendMessageAck_extra_attributes_win :
  let ack node extra :=
    attrs <$> head (sent_nodes (Task.effects (sendMessageAck node extra (Example.socket ∅)))) in
  attr Example.call_offer "id" = Some "C1"
  /\ ack Example.call_offer {[ "id" := "B2" ]} ≫= (.!! "id") = Some "B2"
  /\ ack Example.call_offer {[ "id" := "B2" ]} ≫= (.!! "id")
     <> attr Example.call_offer "id"
  /\ attr Example.call_empty_participant "participant" = Some ""
  /\ ack Example.call_empty_participant ∅ ≫= (.!! "participant") = None
  /\ ack Example.call_offer {[ "type" := "" ]} ≫= (.!! "type") = Some "offer".
Proof. vm_compute. repeat split; (reflexivity || discriminate). Qed.

(** C7, amended, at the ack of a call with the type of its first child. *)
Lemma sendMessageAck_stanza_witness :
  Task.effects (sendMessageAck Example.call_offer {[ "type" := "offer" ]} (Example.socket ∅))
  = [ SendNode
        (mkBinaryNode "ack"
           {[ "id" := "C1"; "to" := "alice@s.whatsapp.net"; "class" := "call";
              "type" := "offer" ]} NoContent) ].
Proof.
  exact (proj1 (proj2 (sendMessageAck_stanza Example.call_offer {[ "type" := "offer" ]}
                         (Example.socket ∅)))).
Defined.

(** C8 at the notification in which bob removes himself. *)
Lemma participant_notification_stub_witness :
  Task.outcome (processNotification Example.notification_bob_leaves (Example.socket ∅))
  = Resolved
      (Some {| result_key := None;
               result_message := None;
               result_messageStubType := Some GROUP_PARTICIPANT_LEAVE;
               result_messageStubParameters := Some [Some "bob@s.whatsapp.net"] |}).
Proof.
  refine (f_equal Task.outcome
            (participant_notification_stub Example.notification_bob_leaves _ _
               GROUP_PARTICIPANT_REMOVE (Example.socket ∅) eq_refl eq_refl _)).
  vm_compute. right. right. left. reflexivity.
Defined.

(** C9, as stated, fails.  When the promise of [decodeMessageStanza]
    settles before the task queued for [A1] has its first turn, the
    decryption is over before the ack is sent. *)
Lemma message_decrypted_before_ack :
  let ack :=
    SendNode
      (mkBinaryNode "ack"
         {[ "id" := "A1"; "to" := "alice@s.whatsapp.net"; "class" := "message" ]}
         NoContent) in
  let seen :=
    on_message_turns Example.message_A1 [Settle; Resume; Resume] (Example.socket ∅) in
  seen = [Settled; Does ack; Does AwaitDecryption]
  /\ ~ precedes (Does ack) Settled seen.
Proof.
  cbv zeta.
  assert (Hseen : on_message_turns Example.message_A1 [Settle; Resume; Resume]
                    (Example.socket ∅)
                  = [Settled;
                     Does (SendNode
                       (mkBinaryNode "ack"
                          {[ "id" := "A1"; "to" := "alice@s.whatsapp.net";
                             "class" := "message" ]}
                          NoContent));
                     Does AwaitDecryption]) by reflexivity.
  split; [exact Hseen|]. rewrite Hseen. intros Hfirst.
  exact (Hfirst [] _ eq_refl).
Qed.

(** C10 at a notification and at a message that both came with an
    [offline] attribute. *)
Lemma notification_upsert_is_append_witness :
  (forall ev type,
      In ev (emitted (Task.effects
               (handleNotification Example.notification_bob_leaves (Example.socket ∅)))) ->
      upsert_type ev = Some type -> type = Append)
  /\ map upsert_type
       (emitted (Task.effects
          (handleNotification Example.notification_bob_leaves (Example.socket ∅))))
     = [Some Append]
  /\ map upsert_type
       (emitted (Task.effects (on_message Example.message_A1_offline (Example.socket ∅))))
     = [Some Append].
Proof.
  split; [| split; vm_compute; reflexivity].
  exact (proj1 (notification_upsert_is_append Example.notification_bob_leaves
                  (Example.socket ∅))).
Defined.

End Runs.


(** * Further properties of the socket *)

(** Lookups in an object literal written with [JS.set]. *)
Ltac js_lookup :=
  rewrite ?lookup_JS_set;
  repeat (case_decide; try discriminate; try congruence);
  rewrite ?lookup_empty; try reflexivity.

Section RetryRequests.
Context {P : Payloads} {X : Externals}.
Import MessagesRecv.

Lemma sendRetryRequest_outcome (node : BinaryNode) (s : Socket) :
  let n := retryCount_of (msgRetryMap s) (attr node "id") in
  Task.outcome (sendRetryRequest node s) =
  if JS.at_least n 5 then Resolved tt
  else match getNextPreKeys (creds s), retry_receipt_to node with
       | Resolved _, Some _ => Resolved tt
       | Resolved _, None => Rejected "TypeError: decFrom is undefined"
       | Rejected e, _ => Rejected e
       end.
Proof.
  cbv zeta. unfold sendRetryRequest.
  rewrite outcome_bind. cbn [Task.get Task.outcome Task.final].
  destruct (JS.at_least _ 5); [reflexivity|].
  rewrite outcome_bind. cbn [update_msgRetryMap Task.modify Task.outcome Task.final].
  rewrite outcome_bind. cbn [Task.perform Task.outcome Task.final].
  rewrite outcome_bind. cbn [Task.await Task.outcome Task.final].
  destruct (getNextPreKeys (creds s)) as [r | e]; [| reflexivity].
  rewrite outcome_bind.
  destruct (retry_receipt_to node) as [to |]; reflexivity.
Qed.

Lemma retry_receipt_to_None (node : BinaryNode) :
  retry_receipt_to node = None <->
  JS.truthy (attr node "participant") = false
  /\ (JS.truthy (attr node "from") = false \/ attr node "from" ≫= jidDecode = None).
Proof.
  unfold retry_receipt_to.
  destruct (JS.truthy (attr node "participant")).
  { split; [discriminate | intros [[=] _]]. }
  destruct (JS.truthy (attr node "from")).
  - destruct (attr node "from" ≫= jidDecode); split; try discriminate; auto.
    intros (_ & [[=] | [=]]).
  - split; auto.
Qed.

Lemma retry_receipt_to_Some (node : BinaryNode) (to : option string) :
  retry_receipt_to node = Some to ->
  to = (if JS.truthy (attr node "participant") then attr node "from"
        else (fun d => jidEncode (user d) "s.whatsapp.net" (device d) (Some 0%Z))
               <$> (attr node "from" ≫= jidDecode)).
Proof.
  unfold retry_receipt_to.
  destruct (JS.truthy (attr node "participant")); [congruence|].
  destruct (JS.truthy (attr node "from")); [| discriminate].
  destruct (attr node "from" ≫= jidDecode); [| discriminate].
  cbn. congruence.
Qed.

(** The entry of the request's own id where the map reads as a number or
    as nothing. *)
Lemma sendRetryRequest_own (node : BinaryNode) (s : Socket) :
  let i := JS.prop_key (attr node "id") in
  let z := JS.or_num (JS.count (msgRetryMap s !! i)) 1 in
  JS.numeric (msgRetryMap s) i = true ->
  retryCount_of (msgRetryMap s) (attr node "id") = JS.Count z
  /\ msgRetryMap (Task.final (sendRetryRequest node s)) !! i =
     (if (5 <=? z)%Z then None else Some (JS.Count (z + 1))).
Proof.
  cbv zeta. intros Hnum.
  pose proof (retryCount_numeric _ (attr node "id") Hnum) as Hcount.
  destruct (sendRetryRequest_counter node s) as (Hmap & _).
  rewrite Hcount in Hmap. cbn [JS.at_least JS.succ] in Hmap.
  split; [exact Hcount|]. rewrite Hmap.
  destruct (5 <=? _)%Z; [apply lookup_delete_eq|].
  apply lookup_put_numeric. exact Hnum.
Qed.

(** X1.  When the key store rejects, or when the stanza has no participant
    and its sender is missing or cannot be decoded, a retry request whose
    count is not 5 or more throws after it has asked the key store: no
    stanza is written and no event is emitted, yet the assignment
    [msgRetryMap[msgId] = retryCount + 1] has been made and stays.  Where
    the map reads as a number or as nothing under the id, the counter of
    the id is then the count plus one. *)
Theorem sendRetryRequest_failure_keeps_count (node : BinaryNode) (s : Socket) :
  let i := JS.prop_key (attr node "id") in
  let n := retryCount_of (msgRetryMap s) (attr node "id") in
  let r := sendRetryRequest node s in
  JS.at_least n 5 = false ->
  resolved (getNextPreKeys (creds s)) = false
  \/ (JS.truthy (attr node "participant") = false
      /\ (JS.truthy (attr node "from") = false
          \/ attr node "from" ≫= jidDecode = None)) ->
  resolved (Task.outcome r) = false
  /\ Task.effects r = [GetNextPreKeys]
  /\ msgRetryMap (Task.final r) = JS.put i (JS.succ n) (msgRetryMap s)
  /\ (JS.numeric (msgRetryMap s) i = true ->
      exists z, n = JS.Count z
        /\ msgRetryMap (Task.final r) !! i = Some (JS.Count (z + 1))).
Proof.
  cbv zeta. intros Hn Hfail.
  destruct (sendRetryRequest_counter node s) as (Hmap & _).
  rewrite Hmap, sendRetryRequest_outcome, sendRetryRequest_effects. cbv zeta.
  rewrite Hn.
  assert (Hnumeric : JS.numeric (msgRetryMap s) (JS.prop_key (attr node "id")) = true ->
            exists z, retryCount_of (msgRetryMap s) (attr node "id") = JS.Count z
              /\ JS.put (JS.prop_key (attr node "id"))
                   (JS.succ (retryCount_of (msgRetryMap s) (attr node "id")))
                   (msgRetryMap s) !! JS.prop_key (attr node "id")
                 = Some (JS.Count (z + 1))).
  { intros Hnum. rewrite (retryCount_numeric _ _ Hnum). eexists.
    split; [reflexivity|]. apply lookup_put_numeric. exact Hnum. }
  destruct (getNextPreKeys (creds s)) as [r | e]; cbn [resolved] in *.
  - destruct Hfail as [[=] | Hto]. apply retry_receipt_to_None in Hto.
    rewrite Hto. repeat split. exact Hnumeric.
  - repeat split. exact Hnumeric.
Qed.

(** X2.  A retry request that goes through asks the key store, writes the
    receipt and then emits the credentials update, in this order.  The
    receipt is addressed to the sender as is for a stanza with a
    participant and to [jidEncode(user, 's.whatsapp.net', device, 0)] of the
    decoded sender otherwise; it copies [recipient] and [participant] when
    they are not empty; its [retry] child carries the text of the count
    (the decimal digits of a number), the id and timestamp of the stanza
    and [v = 1]; its [registration] child carries the registration id,
    big-endian. *)
Theorem sendRetryRequest_receipt (node : BinaryNode) (s : Socket)
    (update : CredsUpdate) (keyId : Z) (key : KeyPair) :
  let n := retryCount_of (msgRetryMap s) (attr node "id") in
  let r := sendRetryRequest node s in
  JS.at_least n 5 = false ->
  getNextPreKeys (creds s) = Resolved (update, (keyId, key)) ->
  JS.truthy (attr node "participant") = true
  \/ (JS.truthy (attr node "from") = true
      /\ is_Some (attr node "from" ≫= jidDecode)) ->
  exists st retry,
    Task.effects r = [GetNextPreKeys; SendNode st; Emit (creds_update update)]
    /\ Task.outcome r = Resolved tt
    /\ tag st = "receipt"
    /\ attr st "id" = attr node "id"
    /\ attr st "type" = Some "retry"
    /\ attr st "to" =
         (if JS.truthy (attr node "participant") then attr node "from"
          else (fun d => jidEncode (user d) "s.whatsapp.net" (device d) (Some 0%Z))
                 <$> (attr node "from" ≫= jidDecode))
    /\ attr st "recipient" =
         (if JS.truthy (attr node "recipient") then attr node "recipient" else None)
    /\ attr st "participant" =
         (if JS.truthy (attr node "participant") then attr node "participant" else None)
    /\ getBinaryNodeChild st "retry" = Some retry
    /\ attr retry "count" = Some (JS.text n)
    /\ (forall z, n = JS.Count z -> attr retry "count" = Some (pretty z))
    /\ attr retry "id" = attr node "id"
    /\ attr retry "t" = attr node "t"
    /\ attr retry "v" = Some "1"
    /\ getBinaryNodeChild st "registration" =
         Some (mkBinaryNode "registration" ∅
                 (Bytes (encodeBigEndian (registrationId (creds s))))).
Proof.
  cbv zeta. intros Hn Hkeys Hto.
  rewrite sendRetryRequest_outcome, sendRetryRequest_effects. cbv zeta.
  rewrite Hn.
  rewrite Hkeys. cbn [fst snd].
  destruct (retry_receipt_to node) as [to |] eqn:Hsome.
  2:{ apply retry_receipt_to_None in Hsome as (Hp & Hf).
      destruct Hto as [Hto | (Hfrom & [d Hd])]; [congruence|].
      destruct Hf as [Hf | Hf]; congruence. }
  apply retry_receipt_to_Some in Hsome.
  set (n := retryCount_of (msgRetryMap s) (attr node "id")) in *.
  exists (retry_receipt node n (creds s) keyId key to).
  exists (mkBinaryNode "retry"
            (JS.set "v" (Some "1")
               (JS.set "t" (attr node "t")
                  (JS.set "id" (attr node "id")
                     (JS.set "count" (Some (JS.text n)) ∅))))
            NoContent).
  split; [reflexivity|]. split; [reflexivity|].
  split; [reflexivity|].
  unfold retry_receipt, attr in *. cbn [attrs tag].
  repeat split.
  - destruct (JS.truthy (attrs node !! "recipient")), (JS.truthy (attrs node !! "participant"));
      js_lookup.
  - destruct (JS.truthy (attrs node !! "recipient")), (JS.truthy (attrs node !! "participant"));
      js_lookup.
  - rewrite Hsome.
    destruct (JS.truthy (attrs node !! "recipient")), (JS.truthy (attrs node !! "participant"));
      js_lookup.
  - destruct (JS.truthy (attrs node !! "recipient")) eqn:Hr,
      (JS.truthy (attrs node !! "participant"));
      js_lookup.
  - destruct (JS.truthy (attrs node !! "recipient")),
      (JS.truthy (attrs node !! "participant")) eqn:Hp;
      js_lookup.
  - unfold getBinaryNodeChild, getBinaryNodeChildren, getAllBinaryNodeChildren.
    cbn [content children default]. destruct (JS.above n 1); reflexivity.
  - cbn [attrs]. js_lookup.
  - intros z Hz. cbn [attrs]. rewrite Hz. js_lookup.
  - cbn [attrs]. js_lookup.
  - cbn [attrs]. js_lookup.
  - cbn [attrs]. js_lookup.
  - unfold getBinaryNodeChild, getBinaryNodeChildren, getAllBinaryNodeChildren.
    cbn [content children default]. destruct (JS.above n 1); reflexivity.
Qed.

Lemma within_numeric (m : gmap string JS.Counter) (k : string) (lo hi : Z) :
  counters_within lo hi m -> JS.inherited k = false -> JS.numeric m k = true.
Proof.
  intros Hinv Hk. unfold JS.numeric.
  destruct (m !! k) as [c |] eqn:Hc; [| rewrite Hk; reflexivity].
  destruct (Hinv _ _ Hc) as (v & -> & _). reflexivity.
Qed.

Lemma sendRetryRequest_within (node : BinaryNode) (s : Socket) :
  JS.inherited (JS.prop_key (attr node "id")) = false ->
  counters_within 2 5 (msgRetryMap s) ->
  counters_within 2 5 (msgRetryMap (Task.final (sendRetryRequest node s))).
Proof.
  intros Hplain Hinv j c.
  destruct (sendRetryRequest_counter node s) as (_ & Hother & _).
  destruct (decide (j = JS.prop_key (attr node "id"))) as [-> | Hne].
  - destruct (sendRetryRequest_own node s (within_numeric _ _ _ _ Hinv Hplain))
      as (_ & Hown).
    rewrite Hown.
    destruct (Z.leb_spec 5
                (JS.or_num (JS.count (msgRetryMap s !! JS.prop_key (attr node "id"))) 1))
      as [Hn | Hn]; [discriminate|].
    intros [= <-]. eexists. split; [reflexivity|].
    unfold JS.or_num in *.
    destruct (msgRetryMap s !! JS.prop_key (attr node "id")) as [w |] eqn:Hw;
      cbn [JS.count] in *; [| lia].
    destruct (Hinv _ _ Hw) as (v & -> & Hv). cbn [JS.count] in *.
    destruct (Z.eqb_spec v 0); lia.
  - rewrite (Hother j Hne). apply Hinv.
Qed.

(** X3.  Retry requests for stanzas whose ids name no member of
    [Object.prototype] keep the map a map of numbers between 2 and 5: if
    every entry is such a number, every entry is after any number of such
    requests. *)
Theorem retry_requests_keep_counters_within (nodes : list BinaryNode) (s : Socket) :
  plain_ids nodes ->
  counters_within 2 5 (msgRetryMap s) ->
  counters_within 2 5 (msgRetryMap (retry_each nodes s)).
Proof.
  intros Hplain. revert s.
  induction Hplain as [| node rest Hnode _ IH]; intros s Hinv; [exact Hinv|].
  cbn [retry_each]. apply IH, sendRetryRequest_within; assumption.
Qed.

Lemma retry_each_app (l1 l2 : list BinaryNode) (s : Socket) :
  retry_each (l1 ++ l2) s = retry_each l2 (retry_each l1 s).
Proof.
  revert s. induction l1 as [| node rest IH]; intros s; [reflexivity|].
  cbn [app retry_each]. apply IH.
Qed.

(** X4.  Retry requests for one stanza whose id names no member of
    [Object.prototype] run in cycles of five.  Starting with no entry for
    its id, the request after [k] earlier ones carries the count
    [k mod 5 + 1]: four requests carry 1, 2, 3 and 4, the fifth finds 5,
    sends nothing and clears the counter, and the cycle starts again. *)
Theorem retry_requests_cycle (node : BinaryNode) (s : Socket) (k : nat) :
  JS.inherited (JS.prop_key (attr node "id")) = false ->
  msgRetryMap s !! JS.prop_key (attr node "id") = None ->
  let sk := retry_each (repeat node k) s in
  retryCount_of (msgRetryMap sk) (attr node "id")
  = JS.Count (Z.of_nat (k mod 5) + 1)
  /\ (k mod 5 = 4%nat -> Task.effects (sendRetryRequest node sk) = [])
  /\ msgRetryMap sk !! JS.prop_key (attr node "id") =
       (if (k mod 5 =? 0)%nat then None
        else Some (JS.Count (Z.of_nat (k mod 5) + 1))).
Proof.
  intros Hplain Hfresh. cbv zeta.
  assert (Hmap : msgRetryMap (retry_each (repeat node k) s)
                   !! JS.prop_key (attr node "id") =
                 (if (k mod 5 =? 0)%nat then None
                  else Some (JS.Count (Z.of_nat (k mod 5) + 1)))).
  { induction k as [| k IH]; [exact Hfresh|].
    rewrite <- Nat.add_1_r, repeat_app, retry_each_app. cbn [repeat retry_each].
    assert (Hnum : JS.numeric (msgRetryMap (retry_each (repeat node k) s))
                     (JS.prop_key (attr node "id")) = true).
    { unfold JS.numeric. rewrite IH, Hplain.
      destruct (k mod 5 =? 0)%nat; reflexivity. }
    destruct (sendRetryRequest_own node (retry_each (repeat node k) s) Hnum)
      as (_ & Hown).
    rewrite Hown, IH.
    pose proof (Nat.mod_upper_bound k 5 ltac:(lia)) as Hlt.
    rewrite (Nat.Div0.add_mod k 1 5).
    destruct (k mod 5) as [| [| [| [| [| r]]]]]; try lia; reflexivity. }
  assert (Hnum : JS.numeric (msgRetryMap (retry_each (repeat node k) s))
                   (JS.prop_key (attr node "id")) = true).
  { unfold JS.numeric. rewrite Hmap, Hplain.
    destruct (k mod 5 =? 0)%nat; reflexivity. }
  assert (Hcount : retryCount_of (msgRetryMap (retry_each (repeat node k) s))
                     (attr node "id") = JS.Count (Z.of_nat (k mod 5) + 1)).
  { rewrite (retryCount_numeric _ _ Hnum), Hmap.
    pose proof (Nat.mod_upper_bound k 5 ltac:(lia)) as Hlt.
    destruct (k mod 5) as [| [| [| [| [| r]]]]]; try lia; reflexivity. }
  split; [exact Hcount|]. split; [| exact Hmap].
  intros H4. rewrite sendRetryRequest_effects. cbv zeta. rewrite Hcount, H4.
  reflexivity.
Qed.

End RetryRequests.

Section Resend.
Context {P : Payloads} {X : Externals}.
Import MessagesRecv.

Lemma promise_all_resolved {A} (os : list (Outcome (option A)))
    (vals : list (option A)) :
  os = map Resolved vals -> promise_all os = Resolved vals.
Proof.
  intros ->. induction vals as [| v vals IH]; [reflexivity|].
  cbn. rewrite IH. reflexivity.
Qed.

Lemma promise_all_rejected {A} (os : list (Outcome A)) (e : string) :
  In (Rejected e) os -> resolved (promise_all os) = false.
Proof.
  induction os as [| o os IH]; [intros []|].
  intros [-> | Hin]; [reflexivity|].
  cbn. destruct o; [| reflexivity].
  specialize (IH Hin). destruct (promise_all os); [discriminate IH | reflexivity].
Qed.

(** X5.  When a lookup in the message store rejects, or the sessions cannot
    be asserted, [sendMessagesAgain] throws before it relays anything: no
    counter is touched and nothing was relayed. *)
Theorem sendMessagesAgain_aborts_early (key : MessageKey)
    (ids : list (option string)) (s : Socket) :
  let participant := JS.or (participant key) (remoteJid key) in
  let r := sendMessagesAgain key ids s in
  (exists i e, In i ids /\ getMessage (with_id key i) = Rejected e)
  \/ resolved (assertSessions [participant] true) = false ->
  resolved (Task.outcome r) = false
  /\ Task.final r = s
  /\ Forall (fun e => is_RelayMessage e = false) (Task.effects r)
  /\ Forall (fun e => e <> KeysSetSenderKeyMemory (remoteJid key)) (Task.effects r).
Proof.
  cbv zeta. intros Hfail. unfold sendMessagesAgain.
  rewrite outcome_bind, final_bind, effects_bind.
  cbn [Task.perform_all Task.outcome Task.final Task.effects].
  rewrite outcome_bind, final_bind, effects_bind.
  cbn [Task.await Task.outcome Task.final Task.effects].
  assert (Hget : forall l : list MessageKey,
            Forall (fun e => is_RelayMessage e = false) (map GetMessage l)
            /\ Forall (fun e => e <> KeysSetSenderKeyMemory (remoteJid key))
                 (map GetMessage l)).
  { intros l. split; apply Forall_forall; intros e He;
      apply list_elem_of_In, in_map_iff in He as (k & <- & _);
      (reflexivity || discriminate). }
  destruct (Hget (map (with_id key) ids)) as (Hget1 & Hget2).
  destruct (promise_all _) as [msgs |] eqn:Hall.
  2:{ rewrite app_nil_r. repeat split; assumption. }
  destruct Hfail as [(i & e & Hin & Hrej) | Hassert].
  { exfalso. assert (Hres : resolved (promise_all (map getMessage (map (with_id key) ids))) = false).
    { apply (promise_all_rejected _ e). rewrite <- Hrej, map_map.
      apply in_map_iff. exists i. split; [reflexivity | exact Hin]. }
    rewrite Hall in Hres. discriminate. }
  rewrite outcome_bind, final_bind, effects_bind.
  cbn [Task.perform Task.outcome Task.final Task.effects].
  rewrite outcome_bind, final_bind, effects_bind.
  cbn [Task.await Task.outcome Task.final Task.effects].
  destruct (assertSessions _ _); [discriminate|].
  repeat split; rewrite ?app_nil_r; apply Forall_app; split; try assumption;
    repeat constructor; discriminate.
Qed.

(** The loop of [sendMessagesAgain] when every relay resolves: one relay
    per message at hand, in the order of the ids, and one raise of the
    counter for each. *)
Lemma resend_each_all_relayed (key : MessageKey) (p : option string)
    (store : option string -> option IMessage) (ids : list (option string))
    (s : Socket) :
  (forall i m, In i ids -> store i = Some m ->
     relayMessage (remoteJid key) m i p = Resolved tt) ->
  let r := resend_each key p (zip ids (map store ids)) s in
  Task.outcome r = Resolved tt
  /\ Task.effects r =
       omap (fun i => (fun m => RelayMessage (remoteJid key) m i p) <$> store i) ids
  /\ msgRetryMap (Task.final r) =
       fold_left raise_counter (available store ids) (msgRetryMap s).
Proof.
  revert s. induction ids as [| i ids IH]; intros s Hrelay; [repeat split|].
  cbv zeta. cbn [map zip zip_with resend_each omap].
  rewrite outcome_bind, final_bind, effects_bind.
  unfold available. rewrite filter_cons.
  assert (Hrest : forall i' m, In i' ids -> store i' = Some m ->
            relayMessage (remoteJid key) m i' p = Resolved tt).
  { intros i' m Hin. apply Hrelay. right. exact Hin. }
  destruct (store i) as [m |] eqn:Hm.
  - rewrite outcome_bind, final_bind, effects_bind.
    cbn [update_msgRetryMap Task.modify Task.outcome Task.final Task.effects].
    rewrite outcome_bind, final_bind, effects_bind.
    cbn [Task.perform Task.outcome Task.final Task.effects].
    cbn [Task.await Task.outcome Task.final Task.effects].
    rewrite (Hrelay i m (or_introl eq_refl) Hm).
    cbn [fmap option_fmap option_map app].
    case_decide as Hsome; [| exfalso; apply Hsome; eexists; reflexivity].
    match goal with
    | |- context [resend_each key p _ ?s'] =>
        destruct (IH s' Hrest) as (Hout & Heff & Hfin)
    end.
    rewrite Hout, Heff, Hfin. cbn [omap list_omap]. rewrite Hm. repeat split.
  - cbn [Task.ret Task.outcome Task.final Task.effects app omap list_omap].
    rewrite Hm. cbn [fmap option_fmap option_map].
    case_decide as Hsome; [destruct Hsome; discriminate|].
    apply (IH s Hrest).
Qed.

Lemma sendMessagesAgain_run (key : MessageKey) (ids : list (option string))
    (store : option string -> option IMessage) (s : Socket) :
  let participant := JS.or (participant key) (remoteJid key) in
  let r := sendMessagesAgain key ids s in
  (forall i, In i ids -> getMessage (with_id key i) = Resolved (store i)) ->
  assertSessions [participant] true = Resolved tt ->
  (isJidGroup (remoteJid key) = true ->
   keys_set_sender_key_memory (remoteJid key) = Resolved tt) ->
  (forall i m, In i ids -> store i = Some m ->
     relayMessage (remoteJid key) m i participant = Resolved tt) ->
  Task.outcome r = Resolved tt
  /\ Task.effects r =
       map (fun i => GetMessage (with_id key i)) ids
       ++ [AssertSessions [participant] true]
       ++ (if isJidGroup (remoteJid key)
           then [KeysSetSenderKeyMemory (remoteJid key)] else [])
       ++ omap (fun i =>
                  (fun m => RelayMessage (remoteJid key) m i participant) <$> store i)
            ids
  /\ msgRetryMap (Task.final r) =
       fold_left raise_counter (available store ids) (msgRetryMap s).
Proof.
  cbv zeta. intros Hstore Hassert Hset Hrelay. unfold sendMessagesAgain.
  rewrite outcome_bind, final_bind, effects_bind.
  cbn [Task.perform_all Task.outcome Task.final Task.effects].
  rewrite outcome_bind, final_bind, effects_bind.
  cbn [Task.await Task.outcome Task.final Task.effects].
  rewrite (promise_all_resolved _ (map store ids)).
  2:{ rewrite !map_map. apply map_ext_in. exact Hstore. }
  rewrite outcome_bind, final_bind, effects_bind.
  cbn [Task.perform Task.outcome Task.final Task.effects].
  rewrite outcome_bind, final_bind, effects_bind.
  cbn [Task.await Task.outcome Task.final Task.effects].
  rewrite Hassert.
  rewrite outcome_bind, final_bind, effects_bind.
  destruct (resend_each_all_relayed key _ store ids s Hrelay) as (Hout & Heff & Hfin).
  rewrite map_map.
  destruct (isJidGroup (remoteJid key)).
  - rewrite outcome_bind, final_bind, effects_bind.
    cbn [Task.perform Task.await Task.outcome Task.final Task.effects].
    rewrite (Hset eq_refl).
    cbn [Task.perform Task.await Task.outcome Task.final Task.effects app].
    rewrite Hout, Heff, Hfin. repeat split.
  - cbn [Task.ret Task.outcome Task.final Task.effects app].
    rewrite Hout, Heff, Hfin. repeat split.
Qed.

(** X6.  When the store answers every lookup and nothing rejects,
    [sendMessagesAgain] asks the store for every id, then asserts the
    sessions of the one participant, then, for a group chat only, clears
    the sender-key memory of the group, and then relays the messages the
    store had, in the order of the ids, each under its own id; an id
    without a message is skipped. *)
Theorem sendMessagesAgain_effects (key : MessageKey) (ids : list (option string))
    (store : option string -> option IMessage) (s : Socket) :
  let participant := JS.or (participant key) (remoteJid key) in
  let r := sendMessagesAgain key ids s in
  (forall i, In i ids -> getMessage (with_id key i) = Resolved (store i)) ->
  assertSessions [participant] true = Resolved tt ->
  (isJidGroup (remoteJid key) = true ->
   keys_set_sender_key_memory (remoteJid key) = Resolved tt) ->
  (forall i m, In i ids -> store i = Some m ->
     relayMessage (remoteJid key) m i participant = Resolved tt) ->
  Task.outcome r = Resolved tt
  /\ Task.effects r =
       map (fun i => GetMessage (with_id key i)) ids
       ++ [AssertSessions [participant] true]
       ++ (if isJidGroup (remoteJid key)
           then [KeysSetSenderKeyMemory (remoteJid key)] else [])
       ++ omap (fun i =>
                  (fun m => RelayMessage (remoteJid key) m i participant) <$> store i)
            ids.
Proof.
  cbv zeta. intros Hstore Hassert Hset Hrelay.
  destruct (sendMessagesAgain_run key ids store s Hstore Hassert Hset Hrelay)
    as (Hout & Heff & _).
  split; assumption.
Qed.

Lemma raise_counter_lookup_ne (m : gmap string JS.Counter) (i : option string)
    (j : string) :
  j <> JS.prop_key i -> raise_counter m i !! j = m !! j.
Proof. intros Hne. unfold raise_counter. by rewrite lookup_put_ne. Qed.

Lemma lookup_put_same (k : string) (v : JS.Counter) (m m' : gmap string JS.Counter) :
  m !! k = m' !! k -> JS.put k v m !! k = JS.put k v m' !! k.
Proof.
  intros Hk. unfold JS.put. rewrite Hk.
  destruct (m' !! k) eqn:Hm'; [| destruct (String.eqb k "__proto__")];
    rewrite ?lookup_insert_eq; congruence.
Qed.

Lemma raise_counters_lookup_other (l : list (option string))
    (m : gmap string JS.Counter) (j : string) :
  j ∉ map JS.prop_key l -> fold_left raise_counter l m !! j = m !! j.
Proof.
  revert m. induction l as [| i l IH]; intros m Hnot; [reflexivity|].
  cbn [fold_left]. rewrite IH.
  - apply raise_counter_lookup_ne. intros ->. apply Hnot. cbn. left.
  - intros Hin. apply Hnot. cbn. right. exact Hin.
Qed.

Lemma raise_counters_lookup (l : list (option string)) (m : gmap string JS.Counter)
    (j : string) :
  NoDup (map JS.prop_key l) ->
  fold_left raise_counter l m !! j =
  if decide (j ∈ map JS.prop_key l)
  then JS.put j (JS.succ (JS.or_count (JS.get m j) 0)) m !! j
  else m !! j.
Proof.
  revert m. induction l as [| i l IH]; intros m Hdup; cbn [map fold_left].
  - rewrite decide_False by apply not_elem_of_nil. reflexivity.
  - apply NoDup_cons in Hdup as (Hfresh & Hdup).
    destruct (decide (j = JS.prop_key i)) as [-> | Hne].
    + rewrite decide_True by left.
      rewrite raise_counters_lookup_other by exact Hfresh.
      reflexivity.
    + rewrite (IH _ Hdup).
      destruct (decide (j ∈ map JS.prop_key l)) as [Hin | Hout].
      * rewrite decide_True by (right; exact Hin).
        assert (Hget : JS.get (raise_counter m i) j = JS.get m j).
        { unfold JS.get. rewrite raise_counter_lookup_ne by exact Hne. reflexivity. }
        rewrite Hget. apply lookup_put_same.
        apply raise_counter_lookup_ne. exact Hne.
      * rewrite decide_False.
        -- apply raise_counter_lookup_ne. exact Hne.
        -- intros [Heq | Hin]%elem_of_cons; [congruence | contradiction].
Qed.

(** X7.  The counters after a resend in which nothing rejects: when the
    ids of the messages at hand name different entries, the entry of every
    such id is what the one assignment
    [msgRetryMap[id] = (msgRetryMap[id] || 0) + 1] makes of it, and every
    other entry, also that of an id the store had no message for, is as it
    was.  Where the map reads as a number or as nothing under such an id,
    its counter is raised by exactly one, from 0 if it was not there. *)
Theorem sendMessagesAgain_counters (key : MessageKey) (ids : list (option string))
    (store : option string -> option IMessage) (s : Socket) (j : string) :
  let participant := JS.or (participant key) (remoteJid key) in
  let r := sendMessagesAgain key ids s in
  (forall i, In i ids -> getMessage (with_id key i) = Resolved (store i)) ->
  assertSessions [participant] true = Resolved tt ->
  (isJidGroup (remoteJid key) = true ->
   keys_set_sender_key_memory (remoteJid key) = Resolved tt) ->
  (forall i m, In i ids -> store i = Some m ->
     relayMessage (remoteJid key) m i participant = Resolved tt) ->
  NoDup (map JS.prop_key (available store ids)) ->
  msgRetryMap (Task.final r) !! j =
    (if decide (j ∈ map JS.prop_key (available store ids))
     then JS.put j (JS.succ (JS.or_count (JS.get (msgRetryMap s) j) 0))
            (msgRetryMap s) !! j
     else msgRetryMap s !! j)
  /\ (JS.numeric (msgRetryMap s) j = true ->
      msgRetryMap (Task.final r) !! j =
      if decide (j ∈ map JS.prop_key (available store ids))
      then Some (JS.Count (JS.or_num (JS.count (msgRetryMap s !! j)) 0 + 1))
      else msgRetryMap s !! j).
Proof.
  cbv zeta. intros Hstore Hassert Hset Hrelay Hdup.
  destruct (sendMessagesAgain_run key ids store s Hstore Hassert Hset Hrelay)
    as (_ & _ & ->).
  rewrite (raise_counters_lookup _ _ j Hdup).
  split; [reflexivity|]. intros Hnum.
  destruct (decide (j ∈ map JS.prop_key (available store ids))); [| reflexivity].
  rewrite (lookup_put_numeric _ _ _ Hnum), (get_numeric _ _ 0 Hnum). reflexivity.
Qed.

(** The loop of [sendMessagesAgain] when a relay rejects: the ids before
    it were handled, its own counter was raised before the relay, and the
    loop ends there. *)
Lemma resend_each_stops (key : MessageKey) (p : option string)
    (store : option string -> option IMessage) (pre post : list (option string))
    (i : option string) (m : IMessage) (e : string) (s : Socket) :
  (forall i' m', In i' pre -> store i' = Some m' ->
     relayMessage (remoteJid key) m' i' p = Resolved tt) ->
  store i = Some m ->
  relayMessage (remoteJid key) m i p = Rejected e ->
  let ids := pre ++ i :: post in
  let r := resend_each key p (zip ids (map store ids)) s in
  Task.outcome r = Rejected e
  /\ Task.effects r =
       omap (fun i => (fun m => RelayMessage (remoteJid key) m i p) <$> store i) pre
       ++ [RelayMessage (remoteJid key) m i p]
  /\ msgRetryMap (Task.final r) =
       fold_left raise_counter (available store pre ++ [i]) (msgRetryMap s).
Proof.
  intros Hrelay Hm Hrej. cbv zeta. revert s Hrelay.
  induction pre as [| i' pre IH]; intros s Hrelay.
  - cbn [app map zip zip_with resend_each omap list_omap available filter list_filter].
    rewrite Hm.
    rewrite outcome_bind, final_bind, effects_bind.
    rewrite outcome_bind, final_bind, effects_bind.
    cbn [update_msgRetryMap Task.modify Task.outcome Task.final Task.effects].
    rewrite outcome_bind, final_bind, effects_bind.
    cbn [Task.perform Task.await Task.outcome Task.final Task.effects].
    rewrite Hrej. repeat split.
  - cbn [app map zip zip_with resend_each omap list_omap].
    rewrite outcome_bind, final_bind, effects_bind.
    unfold available. rewrite filter_cons.
    assert (Hrest : forall i0 m0, In i0 pre -> store i0 = Some m0 ->
              relayMessage (remoteJid key) m0 i0 p = Resolved tt).
    { intros i0 m0 Hin. apply Hrelay. right. exact Hin. }
    destruct (store i') as [m' |] eqn:Hm'.
    + rewrite outcome_bind, final_bind, effects_bind.
      cbn [update_msgRetryMap Task.modify Task.outcome Task.final Task.effects].
      rewrite outcome_bind, final_bind, effects_bind.
      cbn [Task.perform Task.await Task.outcome Task.final Task.effects].
      rewrite (Hrelay i' m' (or_introl eq_refl) Hm').
      cbn [fmap option_fmap option_map app].
      case_decide as Hsome; [| exfalso; apply Hsome; eexists; reflexivity].
      match goal with
      | |- context [resend_each key p _ ?s'] =>
          destruct (IH s' Hrest) as (Hout & Heff & Hfin)
      end.
      rewrite Hout, Heff, Hfin. repeat split.
    + cbn [Task.ret Task.outcome Task.final Task.effects app
           fmap option_fmap option_map].
      case_decide as Hsome; [destruct Hsome; discriminate|].
      apply (IH s Hrest).
Qed.

(** X8.  When the relay of one message rejects, [sendMessagesAgain] throws
    what the relay threw and goes no further: the messages before it were
    relayed, the one that failed was tried once and its counter raised all
    the same, and the ids after it are neither relayed nor counted. *)
Theorem sendMessagesAgain_stops_at_failed_relay (key : MessageKey)
    (pre post : list (option string)) (i : option string) (m : IMessage)
    (e : string) (store : option string -> option IMessage) (s : Socket) :
  let participant := JS.or (participant key) (remoteJid key) in
  let ids := pre ++ i :: post in
  let r := sendMessagesAgain key ids s in
  (forall i', In i' ids -> getMessage (with_id key i') = Resolved (store i')) ->
  assertSessions [participant] true = Resolved tt ->
  (isJidGroup (remoteJid key) = true ->
   keys_set_sender_key_memory (remoteJid key) = Resolved tt) ->
  (forall i' m', In i' pre -> store i' = Some m' ->
     relayMessage (remoteJid key) m' i' participant = Resolved tt) ->
  store i = Some m ->
  relayMessage (remoteJid key) m i participant = Rejected e ->
  Task.outcome r = Rejected e
  /\ Task.effects r =
       map (fun i' => GetMessage (with_id key i')) ids
       ++ [AssertSessions [participant] true]
       ++ (if isJidGroup (remoteJid key)
           then [KeysSetSenderKeyMemory (remoteJid key)] else [])
       ++ omap (fun i' =>
                  (fun m' => RelayMessage (remoteJid key) m' i' participant)
                  <$> store i')
            pre
       ++ [RelayMessage (remoteJid key) m i participant]
  /\ msgRetryMap (Task.final r) =
       fold_left raise_counter (available store pre ++ [i]) (msgRetryMap s).
Proof.
  cbv zeta. intros Hstore Hassert Hset Hrelay Hm Hrej. unfold sendMessagesAgain.
  rewrite outcome_bind, final_bind, effects_bind.
  cbn [Task.perform_all Task.outcome Task.final Task.effects].
  rewrite outcome_bind, final_bind, effects_bind.
  cbn [Task.await Task.outcome Task.final Task.effects].
  rewrite (promise_all_resolved _ (map store (pre ++ i :: post))).
  2:{ rewrite !map_map. apply map_ext_in. exact Hstore. }
  rewrite outcome_bind, final_bind, effects_bind.
  cbn [Task.perform Task.outcome Task.final Task.effects].
  rewrite outcome_bind, final_bind, effects_bind.
  cbn [Task.await Task.outcome Task.final Task.effects].
  rewrite Hassert.
  rewrite outcome_bind, final_bind, effects_bind.
  destruct (resend_each_stops key _ store pre post i m e s Hrelay Hm Hrej)
    as (Hout & Heff & Hfin).
  rewrite map_map.
  destruct (isJidGroup (remoteJid key)).
  - rewrite outcome_bind, final_bind, effects_bind.
    cbn [Task.perform Task.await Task.outcome Task.final Task.effects].
    rewrite (Hset eq_refl).
    cbn [Task.perform Task.await Task.outcome Task.final Task.effects app].
    rewrite Hout, Heff, Hfin. repeat split.
  - cbn [Task.ret Task.outcome Task.final Task.effects app].
    rewrite Hout, Heff, Hfin. repeat split.
Qed.

(** X9.  [handleReceipt] resends only for a receipt of type [retry] whose
    key is from me and whose first id is below the cap.  For any other
    receipt it leaves the socket as it was, asks the store for nothing and
    relays nothing: it emits the status update, if one is due, and sends
    the ack. *)
Theorem handleReceipt_without_resend (node : BinaryNode) (s : Socket) :
  JS.is_str (attr node "type") "retry"
  && receipt_fromMe (creds s) node
  && willSendMessageAgain (msgRetryMap s) (attr node "id") = false ->
  Task.final (handleReceipt node s) = s
  /\ Task.effects (handleReceipt node s) =
       Task.effects (receipt_updates (creds s) node s)
       ++ [SendNode (mkBinaryNode "ack" (ack_attrs node ∅) NoContent)].
Proof.
  intros Hgate.
  destruct (handleReceipt_run node s) as (_ & Hfin & Heff).
  rewrite Hfin, Heff.
  assert (Hthrows : resend_throws node s = false).
  { unfold resend_throws. cbn [fromMe receipt_key]. rewrite Hgate. reflexivity. }
  rewrite Hthrows.
  assert (Hretry : receipt_retry (creds s) node s = Task.mkRun (Resolved true) s []).
  { unfold receipt_retry. rewrite receipt_ids_head.
    cbn [with_participant fromMe receipt_key].
    destruct (JS.is_str (attr node "type") "retry"); [| reflexivity].
    unfold Task.bind. cbn [Task.get Task.outcome Task.final Task.effects app].
    destruct (willSendMessageAgain _ _); [| reflexivity].
    destruct (receipt_fromMe (creds s) node); [discriminate Hgate | reflexivity]. }
  rewrite Hretry. split; reflexivity.
Qed.

(** X10.  A retry receipt for my own message, with the first id below the
    cap, is answered by [sendMessagesAgain] for all ids of the receipt,
    under the key of the receipt with [fromMe] set and the participant
    replaced by the sender of the receipt when the receipt names none.  The
    ack follows when the resend resolves and is left out when it throws;
    the socket is left as the resend left it. *)
Theorem handleReceipt_resend (node : BinaryNode) (s : Socket) :
  let key :=
    {| remoteJid := receipt_remoteJid (creds s) node;
       id := Some "";
       fromMe := true;
       participant := JS.or (attr node "participant") (attr node "from") |} in
  let again := sendMessagesAgain key (receipt_ids node) s in
  attr node "type" = Some "retry" ->
  receipt_fromMe (creds s) node = true ->
  willSendMessageAgain (msgRetryMap s) (attr node "id") = true ->
  Task.outcome (handleReceipt node s) = Resolved tt
  /\ Task.final (handleReceipt node s) = Task.final again
  /\ Task.effects (handleReceipt node s) =
       Task.effects (receipt_updates (creds s) node s)
       ++ Task.effects again
       ++ (if resolved (Task.outcome again)
           then [SendNode (mkBinaryNode "ack" (ack_attrs node ∅) NoContent)]
           else []).
Proof.
  cbv zeta. intros Htype Hme Hgate.
  destruct (handleReceipt_run node s) as (Hout & Hfin & Heff).
  rewrite Hout, Hfin, Heff.
  assert (Hkey : with_participant (receipt_key (creds s) node)
                   (JS.or (attr node "participant") (attr node "from"))
                 = {| remoteJid := receipt_remoteJid (creds s) node;
                      id := Some "";
                      fromMe := true;
                      participant :=
                        JS.or (attr node "participant") (attr node "from") |}).
  { unfold with_participant, receipt_key. cbn. rewrite Hme. reflexivity. }
  unfold resend_throws, receipt_retry. rewrite receipt_ids_head.
  cbn [with_participant fromMe receipt_key Proto.participant remoteJid id].
  rewrite Hgate, Hme, Htype. cbn [JS.is_str andb]. rewrite String.eqb_refl.
  cbn [andb].
  rewrite final_bind, effects_bind.
  cbn [Task.get Task.outcome Task.final Task.effects app].
  rewrite Hgate.
  rewrite final_try_catch, effects_try_catch.
  rewrite outcome_bind, final_bind, effects_bind.
  rewrite Hkey.
  destruct (Task.outcome (sendMessagesAgain _ _ s)) eqn:Hagain;
    cbn [Task.ret Task.outcome Task.final Task.effects resolved negb];
    rewrite ?app_nil_r; repeat split.
Qed.

End Resend.

Section Notifications.
Context {P : Payloads} {X : Externals}.
Import MessagesRecv.

Lemma handleNotification_final (node : BinaryNode) (s : Socket) :
  Task.final (handleNotification node s) = s.
Proof.
  unfold handleNotification.
  rewrite final_bind. cbn [sendMessageAck sendNode Task.perform Task.outcome
    Task.final Task.effects].
  rewrite final_bind.
  pose proof (processNotification_keeps node s) as Hkeep.
  destruct (Task.outcome (processNotification node s)) as [[msg |] | e];
    try exact Hkeep.
  rewrite final_bind, Hkeep.
  cbn [Task.get Task.outcome Task.final Task.effects].
  destruct (me (creds s)); reflexivity.
Qed.

Lemma handleNotification_outcome (node : BinaryNode) (s : Socket) :
  Task.outcome (handleNotification node s) =
  match Task.outcome (processNotification node s) with
  | Resolved (Some _) =>
      match me (creds s) with
      | Some _ => Resolved tt
      | None => Rejected "TypeError: me is undefined"
      end
  | Resolved None => Resolved tt
  | Rejected e => Rejected e
  end.
Proof.
  unfold handleNotification.
  rewrite outcome_bind. cbn [sendMessageAck sendNode Task.perform Task.outcome
    Task.final Task.effects].
  rewrite outcome_bind.
  pose proof (processNotification_keeps node s) as Hkeep.
  destruct (Task.outcome (processNotification node s)) as [[msg |] | e];
    try reflexivity.
  rewrite outcome_bind, Hkeep.
  cbn [Task.get Task.outcome Task.final Task.effects].
  destruct (me (creds s)); reflexivity.
Qed.

Lemma group_notification_quiet (node child : BinaryNode) (s : Socket) :
  sent_nodes (Task.effects (group_notification node child s)) = [].
Proof.
  unfold group_notification.
  repeat match goal with
         | |- context [if ?c then _ else _] => destruct c
         end; reflexivity.
Qed.

Lemma processNotification_sends_nothing (node : BinaryNode) (s : Socket) :
  sent_nodes (Task.effects (processNotification node s)) = [].
Proof.
  unfold processNotification. rewrite effects_bind.
  assert (Hret : forall (r : PartialMessage) s',
            Task.effects (Task.ret (S := Socket) (E := Effect)
              (if has_keys r then Some r else None) s') = []) by reflexivity.
  match goal with
  | |- sent_nodes (match Task.outcome ?m with _ => _ end) = _ =>
      assert (Hm : sent_nodes (Task.effects m) = [])
  end.
  { destruct (JS.is_str _ "w:gp2").
    { destruct (head _) as [child |]; [| reflexivity].
      apply group_notification_quiet. }
    destruct (JS.is_str _ "mediaretry"); [reflexivity|].
    destruct (JS.is_str _ "encrypt").
    { rewrite effects_bind, effects_try_catch.
      unfold handleEncryptNotification.
      destruct (JS.is_str _ _); [| reflexivity].
      destruct (getBinaryNodeChild _ _); [| reflexivity].
      destruct (num_lt _ _); reflexivity. }
    destruct (JS.is_str _ "devices"); [| reflexivity].
    rewrite effects_bind. cbn [Task.get Task.outcome Task.final Task.effects app].
    destruct (head _), (me (creds s)); reflexivity. }
  match goal with
  | |- sent_nodes (match ?o with _ => _ end) = _ => destruct o
  end; [| exact Hm].
  rewrite sent_nodes_app, Hm. reflexivity.
Qed.

(** X11.  [handleNotification] sends its ack first and sends nothing else,
    whatever the notification is and also when processing it throws; it
    leaves the socket as it was; and with the account known and, for a
    [devices] notification, a first child present, it resolves. *)
Theorem handleNotification_acks_once (node : BinaryNode) (s : Socket) :
  let ack := mkBinaryNode "ack" (ack_attrs node ∅) NoContent in
  let r := handleNotification node s in
  head (Task.effects r) = Some (SendNode ack)
  /\ sent_nodes (Task.effects r) = [ack]
  /\ Task.final r = s
  /\ (is_Some (me (creds s)) ->
      (JS.is_str (attr node "type") "devices" = true ->
       is_Some (head (getAllBinaryNodeChildren node))) ->
      Task.outcome r = Resolved tt).
Proof.
  cbv zeta. rewrite handleNotification_effects, handleNotification_final.
  split; [reflexivity|]. split; [| split; [reflexivity|]].
  - cbn [sent_nodes omap list_omap]. f_equal.
    change (sent_nodes (Task.effects (processNotification node s) ++
      match Task.outcome (processNotification node s), me (creds s) with
      | Resolved (Some msg), Some m =>
          [Emit (messages_upsert
             [ {| key :=
                    {| remoteJid := attr node "from";
                       fromMe :=
                         areJidsSameUser (JS.or (attr node "participant") (attr node "from"))
                           (Some (contact_id m));
                       participant :=
                         match result_key msg with
                         | Some owner => owner
                         | None => attr node "participant"
                         end;
                       id := attr node "id" |};
                  message := result_message msg;
                  messageStubType := result_messageStubType msg;
                  messageStubParameters := result_messageStubParameters msg;
                  msg_participant := attr node "participant";
                  messageTimestamp := Some (unary_plus (attr node "t")) |} ] Append)]
      | _, _ => []
      end) = []).
    rewrite sent_nodes_app, processNotification_sends_nothing.
    destruct (Task.outcome _) as [[msg |] | e]; [destruct (me _) | |]; reflexivity.
  - intros [m Hm] Hchild. rewrite handleNotification_outcome, Hm.
    assert (Hok : exists r, Task.outcome (processNotification node s) = Resolved r).
    { unfold processNotification. rewrite outcome_bind.
      match goal with
      | |- exists r, match Task.outcome ?m with _ => _ end = _ =>
          assert (Hin : exists r, Task.outcome m = Resolved r)
      end.
      { destruct (JS.is_str _ "w:gp2").
        { destruct (head _) as [child |]; [| eexists; reflexivity].
          unfold group_notification.
          repeat match goal with
                 | |- context [if ?c then _ else _] => destruct c
                 end; eexists; reflexivity. }
        destruct (JS.is_str _ "mediaretry"); [eexists; reflexivity|].
        destruct (JS.is_str _ "encrypt").
        { rewrite outcome_bind, outcome_try_catch.
          destruct (Task.outcome (handleEncryptNotification node s));
            eexists; reflexivity. }
        destruct (JS.is_str _ "devices"); [| eexists; reflexivity].
        destruct (Hchild eq_refl) as [child Hc].
        rewrite outcome_bind. cbn [Task.get Task.outcome Task.final Task.effects].
        rewrite Hc, Hm. eexists; reflexivity. }
      destruct Hin as [r ->]. eexists; reflexivity. }
    destruct Hok as [[msg |] ->]; reflexivity.
Qed.

(** Outside the [w:gp2] arm, and in it without a first child, the result
    of [processNotification] has no key. *)
Lemma processNotification_not_group (node : BinaryNode) (s : Socket) :
  JS.is_str (attr node "type") "w:gp2" = false
  \/ head (getAllBinaryNodeChildren node) = None ->
  forall msg, Task.outcome (processNotification node s) <> Resolved (Some msg).
Proof.
  intros Hno msg. unfold processNotification. rewrite outcome_bind.
  match goal with
  | |- match Task.outcome ?m with _ => _ end <> _ =>
      assert (Hin : forall r, Task.outcome m = Resolved r -> r = empty_result)
  end.
  { intros r.
    destruct (JS.is_str _ "w:gp2").
    { destruct Hno as [Hno | Hno]; [discriminate|]. rewrite Hno.
      intros [= <-]. reflexivity. }
    destruct (JS.is_str _ "mediaretry"); [intros [= <-]; reflexivity|].
    destruct (JS.is_str _ "encrypt").
    { rewrite outcome_bind, outcome_try_catch.
      destruct (Task.outcome (handleEncryptNotification node s));
        intros [= <-]; reflexivity. }
    destruct (JS.is_str _ "devices"); [| intros [= <-]; reflexivity].
    rewrite outcome_bind. cbn [Task.get Task.outcome Task.final Task.effects].
    destruct (head _), (me (creds s)); intros [= <-]; reflexivity. }
  match goal with
  | |- match ?o with _ => _ end <> _ => destruct o as [r |] eqn:Hr
  end; [| discriminate].
  rewrite (Hin r eq_refl). discriminate.
Qed.

(** X12.  Only a [w:gp2] notification with a first child is turned into a
    message: for any other notification [processNotification] returns no
    message, and [handleNotification] emits no [messages.upsert]. *)
Theorem notification_message_only_for_groups (node : BinaryNode) (s : Socket) :
  JS.is_str (attr node "type") "w:gp2" = false
  \/ head (getAllBinaryNodeChildren node) = None ->
  (forall msg, Task.outcome (processNotification node s) <> Resolved (Some msg))
  /\ filter (fun e => is_upsert e = true) (Task.effects (handleNotification node s))
     = [].
Proof.
  intros Hno. pose proof (processNotification_not_group node s Hno) as Hnone.
  split; [exact Hnone|].
  apply filter_upsert_none. rewrite handleNotification_effects.
  constructor; [reflexivity|]. apply Forall_app. split.
  - apply processNotification_no_upsert.
  - destruct (Task.outcome (processNotification node s)) as [[msg |] | e] eqn:Hout;
      try constructor.
    exfalso. exact (Hnone msg eq_refl).
Qed.

(** X13.  An [encrypt] notification uploads pre-keys exactly when it comes
    from the server and counts fewer pre-keys than the minimum.  It yields
    no message and never throws: when the server's notification has no
    [count] child the error stays inside the handler. *)
Theorem encrypt_notification_uploads (node : BinaryNode) (s : Socket) :
  attr node "type" = Some "encrypt" ->
  processNotification node s =
  Task.mkRun (Resolved None) s
    (if JS.is_str (attr node "from") S_WHATSAPP_NET
        && match getBinaryNodeChild node "count" with
           | Some countChild =>
               num_lt (unary_plus (attr countChild "value")) MIN_PREKEY_COUNT
           | None => false
           end
     then [UploadPreKeys] else []).
Proof.
  intros Htype. unfold processNotification. rewrite Htype.
  change (JS.is_str (Some "encrypt") "w:gp2") with false.
  change (JS.is_str (Some "encrypt") "mediaretry") with false.
  change (JS.is_str (Some "encrypt") "encrypt") with true.
  cbv iota. unfold handleEncryptNotification, Task.bind, Task.try_catch.
  destruct (JS.is_str (attr node "from") S_WHATSAPP_NET); [| reflexivity].
  destruct (getBinaryNodeChild node "count") as [countChild |]; [| reflexivity].
  cbn [andb]. destruct (num_lt _ _); reflexivity.
Qed.

(** X14.  A notification of a new group is acked, then announced as a chat
    and as a group, then upserted as a [GROUP_CREATE] stub of type append
    whose parameter is the subject.  The key of the message names the
    owner of the group as participant, whoever the notification names. *)
Theorem group_create_notification (node child : BinaryNode)
    (rest : list BinaryNode) (m : Contact) (s : Socket) :
  attr node "type" = Some "w:gp2" ->
  getAllBinaryNodeChildren node = child :: rest ->
  tag child = "create" ->
  me (creds s) = Some m ->
  let metadata := extractGroupMetadata child in
  Task.effects (handleNotification node s) =
  [ SendNode (mkBinaryNode "ack" (ack_attrs node ∅) NoContent);
    Emit (chats_upsert (metadata_id metadata) (metadata_subject metadata)
            (metadata_creation metadata));
    Emit (groups_upsert [metadata]);
    Emit (messages_upsert
      [ {| key :=
             {| remoteJid := attr node "from";
                fromMe :=
                  areJidsSameUser (JS.or (attr node "participant") (attr node "from"))
                    (Some (contact_id m));
                participant := metadata_owner metadata;
                id := attr node "id" |};
           message := None;
           messageStubType := Some GROUP_CREATE;
           messageStubParameters := Some [metadata_subject metadata];
           msg_participant := attr node "participant";
           messageTimestamp := Some (unary_plus (attr node "t")) |} ] Append) ].
Proof.
  intros Htype Hchildren Htag Hme. cbv zeta.
  rewrite handleNotification_effects, Hme.
  assert (Hrun : processNotification node s =
    Task.mkRun
      (Resolved (Some
         {| result_key := Some (metadata_owner (extractGroupMetadata child));
            result_message := None;
            result_messageStubType := Some GROUP_CREATE;
            result_messageStubParameters :=
              Some [metadata_subject (extractGroupMetadata child)] |}))
      s
      [ Emit (chats_upsert (metadata_id (extractGroupMetadata child))
                (metadata_subject (extractGroupMetadata child))
                (metadata_creation (extractGroupMetadata child)));
        Emit (groups_upsert [extractGroupMetadata child]) ]).
  { unfold processNotification. rewrite Htype, Hchildren.
    change (JS.is_str (Some "w:gp2") "w:gp2") with true.
    cbn [head]. unfold group_notification. rewrite Htag.
    change (String.eqb "create" "create") with true.
    reflexivity. }
  rewrite Hrun. reflexivity.
Qed.

(** X15.  A notification that a group setting was switched is upserted as
    a stub message of type append: [GROUP_CHANGE_ANNOUNCE] for
    [announcement] and [not_announcement], [GROUP_CHANGE_RESTRICT] for
    [locked] and [unlocked], with the one parameter [on] for the first of
    each pair and [off] for the second.  Nothing else is emitted. *)
Theorem group_setting_notification (node child : BinaryNode)
    (rest : list BinaryNode) (stub : WAMessageStubType) (flag : string)
    (m : Contact) (s : Socket) :
  attr node "type" = Some "w:gp2" ->
  getAllBinaryNodeChildren node = child :: rest ->
  In (tag child, (stub, flag)) setting_stubs ->
  me (creds s) = Some m ->
  emitted (Task.effects (handleNotification node s)) =
  [ messages_upsert
      [ {| key :=
             {| remoteJid := attr node "from";
                fromMe :=
                  areJidsSameUser (JS.or (attr node "participant") (attr node "from"))
                    (Some (contact_id m));
                participant := attr node "participant";
                id := attr node "id" |};
           message := None;
           messageStubType := Some stub;
           messageStubParameters := Some [Some flag];
           msg_participant := attr node "participant";
           messageTimestamp := Some (unary_plus (attr node "t")) |} ] Append ].
Proof.
  intros Htype Hchildren Hin Hme.
  rewrite handleNotification_effects, Hme.
  assert (Hrun : processNotification node s =
    Task.mkRun
      (Resolved (Some
         {| result_key := None;
            result_message := None;
            result_messageStubType := Some stub;
            result_messageStubParameters := Some [Some flag] |}))
      s []).
  { unfold processNotification. rewrite Htype, Hchildren.
    change (JS.is_str (Some "w:gp2") "w:gp2") with true.
    cbn [head]. unfold group_notification.
    cbn [In setting_stubs] in Hin.
    destruct Hin as [H | [H | [H | [H | []]]]];
      injection H as <- <- <-; reflexivity. }
  rewrite Hrun. reflexivity.
Qed.

(** X16.  A notification of the disappearing-messages setting, [ephemeral]
    or [not_ephemeral], is upserted as a protocol message and not as a
    stub; its expiration is the number in the [expiration] attribute, and
    0 when the attribute is absent or empty. *)
Theorem ephemeral_notification (node child : BinaryNode)
    (rest : list BinaryNode) (m : Contact) (s : Socket) :
  attr node "type" = Some "w:gp2" ->
  getAllBinaryNodeChildren node = child :: rest ->
  tag child = "ephemeral" \/ tag child = "not_ephemeral" ->
  me (creds s) = Some m ->
  exists msg,
    emitted (Task.effects (handleNotification node s)) = [messages_upsert [msg] Append]
    /\ messageStubType msg = None
    /\ messageStubParameters msg = None
    /\ participant (key msg) = attr node "participant"
    /\ message msg =
       Some (protocolMessage_EPHEMERAL_SETTING
               (match attr child "expiration" with
                | None | Some "" => num_zero
                | Some e => unary_plus (Some e)
                end)).
Proof.
  intros Htype Hchildren Htag Hme.
  rewrite handleNotification_effects, Hme.
  assert (Hrun : processNotification node s =
    Task.mkRun
      (Resolved (Some
         {| result_key := None;
            result_message :=
              Some (protocolMessage_EPHEMERAL_SETTING
                      (if JS.truthy (attr child "expiration")
                       then unary_plus (attr child "expiration") else num_zero));
            result_messageStubType := None;
            result_messageStubParameters := None |}))
      s []).
  { unfold processNotification. rewrite Htype, Hchildren.
    change (JS.is_str (Some "w:gp2") "w:gp2") with true.
    cbn [head]. unfold group_notification.
    destruct Htag as [-> | ->]; reflexivity. }
  rewrite Hrun. eexists. split; [reflexivity|].
  cbn [messageStubType messageStubParameters message key participant result_key
       result_message result_messageStubType result_messageStubParameters].
  repeat split.
  destruct (attr child "expiration") as [[| c e] |]; reflexivity.
Qed.

End Notifications.

Section Messages.
Context {P : Payloads} {X : Externals}.
Import MessagesRecv.

Lemma retry_task_run (stanza : BinaryNode) (s : Socket) :
  let request := sendRetryRequest stanza s in
  let r := retry_task stanza s in
  Task.final r = (if ws_open s then Task.final request else s)
  /\ Task.effects r =
     if ws_open s then
       Task.effects request
       ++ match Task.outcome request, retryRequestDelayMs with
          | Resolved _, Some ms => if (ms =? 0)%Z then [] else [Delay ms]
          | _, _ => []
          end
     else [].
Proof.
  cbv zeta. unfold retry_task.
  rewrite final_bind, effects_bind.
  cbn [Task.get Task.outcome Task.final Task.effects app].
  destruct (ws_open s); [| split; reflexivity].
  rewrite final_bind, effects_bind.
  destruct (Task.outcome (sendRetryRequest stanza s));
    [| rewrite app_nil_r; split; reflexivity].
  destruct retryRequestDelayMs as [ms |]; [| split; reflexivity].
  destruct (ms =? 0)%Z; split; reflexivity.
Qed.

(** X17.  A message that could not be decrypted is acked and upserted like
    any other, but no receipt is sent for it.  The retry request runs on
    its own: the upsert follows also when the request throws.  On a closed
    socket the retry does nothing at all; on an open one it is
    [sendRetryRequest] for the stanza, followed by the configured delay
    when the request resolved and the delay is not zero. *)
Theorem undecryptable_message (stanza : BinaryNode) (d : DecodedStanza)
    (m : Contact) (s : Socket) :
  let request := sendRetryRequest stanza s in
  let r := message_task stanza d s in
  messageStubType (decrypted d) = Some CIPHERTEXT ->
  me (creds s) = Some m ->
  Task.outcome r = Resolved tt
  /\ Task.final r = (if ws_open s then Task.final request else s)
  /\ Task.effects r =
     [ SendNode (mkBinaryNode "ack" (ack_attrs stanza ∅) NoContent);
       AwaitDecryption;
       Spawned
         (if ws_open s then
            Task.effects request
            ++ match Task.outcome request, retryRequestDelayMs with
               | Resolved _, Some ms => if (ms =? 0)%Z then [] else [Delay ms]
               | _, _ => []
               end
          else []);
       Emit (messages_upsert [cleanMessage (decrypted d) (contact_id m)]
               (if JS.truthy (attr stanza "offline") then Append else Notify)) ].
Proof.
  cbv zeta. intros Hstub Hme.
  destruct (retry_task_run stanza s) as (Hfin & Heff).
  unfold message_task.
  rewrite outcome_bind, final_bind, effects_bind.
  cbn [sendMessageAck sendNode Task.perform Task.outcome Task.final Task.effects].
  rewrite outcome_bind, final_bind, effects_bind.
  cbn [Task.perform Task.outcome Task.final Task.effects].
  rewrite outcome_bind, final_bind, effects_bind.
  cbn [Task.get Task.outcome Task.final Task.effects].
  rewrite Hstub. cbn [is_CIPHERTEXT].
  rewrite outcome_bind, final_bind, effects_bind.
  cbn [spawn Task.outcome Task.final Task.effects].
  rewrite Hme, Hfin, Heff.
  cbn [ev_emit Task.perform Task.outcome Task.final Task.effects app].
  repeat split.
Qed.

(** X18.  The receipt for a decrypted message of somebody else follows the
    last connection update: after an update with [isOnline] false the
    message is answered with an [inactive] receipt, after one with
    [isOnline] true with a plain delivery receipt, and an update that says
    nothing about [isOnline] leaves the choice as it was.  In each case
    exactly one receipt is sent, between the ack and the upsert, and the
    retry counters stay as they were. *)
Theorem receipt_follows_connection_update (stanza : BinaryNode)
    (d : DecodedStanza) (isOnline : option bool) (m : Contact) (s : Socket) :
  let s' := Task.final (on_connection_update isOnline s) in
  let r := message_task stanza d s' in
  let k := key (decrypted d) in
  is_CIPHERTEXT (messageStubType (decrypted d)) = false ->
  JS.is_str (category d) "peer" = false ->
  fromMe k = false ->
  me (creds s) = Some m ->
  Task.final r = s'
  /\ msgRetryMap s' = msgRetryMap s
  /\ Task.effects r =
     [ SendNode (mkBinaryNode "ack" (ack_attrs stanza ∅) NoContent);
       AwaitDecryption;
       SendReceipt (remoteJid k) (participant k) [id k]
         (if default (sendActiveReceipts s) isOnline then None else Some "inactive");
       Emit (messages_upsert [cleanMessage (decrypted d) (contact_id m)]
               (if JS.truthy (attr stanza "offline") then Append else Notify)) ].
Proof.
  cbv zeta. intros Hstub Hpeer Hfrom Hme.
  assert (Hcreds : me (creds (Task.final (on_connection_update isOnline s))) = Some m).
  { destruct isOnline; exact Hme. }
  assert (Hactive : sendActiveReceipts (Task.final (on_connection_update isOnline s))
                    = default (sendActiveReceipts s) isOnline).
  { destruct isOnline; reflexivity. }
  split; [| split; [destruct isOnline; reflexivity|]].
  - unfold message_task.
    rewrite final_bind.
    cbn [sendMessageAck sendNode Task.perform Task.outcome Task.final Task.effects].
    rewrite final_bind.
    cbn [Task.perform Task.outcome Task.final Task.effects].
    rewrite final_bind.
    cbn [Task.get Task.outcome Task.final Task.effects].
    rewrite Hstub, final_bind.
    cbn [Task.perform Task.outcome Task.final Task.effects].
    rewrite Hcreds. reflexivity.
  - unfold message_task.
    rewrite effects_bind.
    cbn [sendMessageAck sendNode Task.perform Task.outcome Task.final Task.effects].
    rewrite effects_bind.
    cbn [Task.perform Task.outcome Task.final Task.effects].
    rewrite effects_bind.
    cbn [Task.get Task.outcome Task.final Task.effects].
    rewrite Hstub, effects_bind.
    cbn [Task.perform Task.outcome Task.final Task.effects].
    rewrite Hcreds, Hactive. unfold delivery_receipt. rewrite Hpeer, Hfrom.
    destruct (default (sendActiveReceipts s) isOnline); reflexivity.
Qed.

End Messages.

Section MediaUpload.
Context {M : Media.MediaExternals}.
Import Media.

(** X19.  [prepareMediaMessage] checks its arguments before anything else:
    a document without a mimetype and a sticker with a caption are refused
    with the message of each, the first check first, and nothing has been
    asked of the server or uploaded by then. *)
Theorem prepareMediaMessage_refuses (buffer : Buffer) (mediaType : MessageType)
    (options : MessageOptions) :
  let run := prepareMediaMessage buffer mediaType options tt in
  (mediaType = document /\ JS.truthy (mimetype options) = false)
  \/ (mediaType = sticker /\ JS.truthy (caption options) = true) ->
  Task.effects run = []
  /\ Task.outcome run =
     Rejected (if MessageType_eqb mediaType document
               then "mimetype required to send a document"
               else "cannot send a caption with a sticker").
Proof.
  cbv zeta. unfold prepareMediaMessage.
  intros [(-> & Hmime) | (-> & Hcaption)].
  - rewrite Hmime.
    change (MessageType_eqb document document) with true.
    cbn [andb negb Task.throw Task.effects Task.outcome]. split; reflexivity.
  - rewrite Hcaption.
    change (MessageType_eqb sticker document) with false.
    change (MessageType_eqb sticker sticker) with true.
    cbn [andb negb Task.throw Task.effects Task.outcome]. split; reflexivity.
Qed.

(** X20.  The upload of [prepareMediaMessage], for arguments it accepts,
    a thumbnail that could be made and a media connection with a host:
    one query for the connection, then one POST of the encrypted body with
    its MAC to the first host, under the path of the media type, with the
    hash of the body both as the last segment and as the token and the
    connection's auth in between.  The call resolves exactly when the
    answer to the POST has a non-empty url, which is then the url of the
    message, stored with the very hash the upload used. *)
Theorem prepareMediaMessage_upload (buffer : Buffer) (mediaType : MessageType)
    (options options' : MessageOptions) (json : MediaConn) (host0 : string)
    (rest : list string) :
  let run := prepareMediaMessage buffer mediaType options tt in
  let mimetype0 :=
    if JS.truthy (mimetype options) then mimetype options
    else MimetypeMap mediaType in
  let keys := getMediaKeys (randomBytes 32) mediaType in
  let enc := aesEncrypWithIV buffer (cipherKey keys) (iv keys) in
  let body := enc ++ take 10 (hmacSign (iv keys ++ enc) (macKey keys)) in
  let hash := url_safe (toString_base64 (sha256 body)) in
  let hostname :=
    "https://" +:+ host0 +:+ JS.prop_key (MediaPathMap mediaType) +:+ "/"
    +:+ hash +:+ "?auth=" +:+ auth json +:+ "&token=" +:+ hash in
  MessageType_eqb mediaType document && negb (JS.truthy (mimetype options)) = false ->
  MessageType_eqb mediaType sticker && JS.truthy (caption options) = false ->
  generateThumbnail buffer mediaType
    {| mimetype := if is_gif mimetype0 then MimetypeMap video else mimetype0;
       caption := caption options;
       thumbnail := thumbnail options |} = Resolved options' ->
  query_mediaConn = Resolved json ->
  hosts json = host0 :: rest ->
  Task.effects run = [Query_mediaConn; Post hostname body]
  /\ (resolved (Task.outcome run) = true <->
      exists u, fetch_post hostname body = Resolved (Some u) /\ u <> "")
  /\ (forall result, Task.outcome run = Resolved result ->
        fetch_post hostname body = Resolved (Some (url (snd result)))
        /\ fileEncSha256 (snd result) = hash
        /\ content_mimetype (snd result) = mimetype options'
        /\ gifPlayback (snd result) = (if is_gif mimetype0 then Some true else None)).
Proof.
  intros run mimetype0 keys enc body hash hostname Hdoc Hsticker Hthumb Hquery Hhosts.
  assert (Hmime : (if negb (JS.truthy (mimetype options))
                   then MimetypeMap mediaType else mimetype options) = mimetype0).
  { subst mimetype0. destruct (JS.truthy (mimetype options)); reflexivity. }
  subst run. unfold prepareMediaMessage. rewrite Hdoc, Hsticker, Hmime.
  fold keys. fold enc. fold body. fold hash.
  rewrite outcome_bind, effects_bind.
  cbn [Task.await Task.outcome Task.final Task.effects app].
  rewrite Hthumb.
  rewrite outcome_bind, effects_bind.
  cbn [Task.perform Task.outcome Task.final Task.effects app].
  rewrite outcome_bind, effects_bind.
  cbn [Task.await Task.outcome Task.final Task.effects app].
  rewrite Hquery, Hhosts. cbn [head]. fold hostname.
  rewrite outcome_bind, effects_bind.
  cbn [Task.perform Task.outcome Task.final Task.effects app].
  rewrite outcome_bind, effects_bind.
  cbn [Task.await Task.outcome Task.final Task.effects app].
  destruct (fetch_post hostname body) as [[[| c u] |] | e];
    cbn [JS.truthy Task.ret Task.throw Task.outcome Task.final Task.effects app
         resolved].
  - split; [reflexivity|]. split.
    + split; [discriminate|]. intros (u & [= <-] & Hne). contradiction.
    + intros result [=].
  - split; [reflexivity|]. split.
    + split; [| reflexivity]. intros _. eexists. split; [reflexivity | discriminate].
    + intros result [= <-]. cbn [snd url fileEncSha256 content_mimetype gifPlayback
        default]. repeat split.
  - split; [reflexivity|]. split.
    + split; [discriminate|]. intros (u & [=] & _).
    + intros result [=].
  - split; [reflexivity|]. split.
    + split; [discriminate|]. intros (u & [=] & _).
    + intros result [=].
Qed.

(** X21.  Without a media connection nothing is uploaded: when the query
    rejects, or its answer lists no host, [prepareMediaMessage] throws and
    no POST was made. *)
Theorem prepareMediaMessage_no_host (buffer : Buffer) (mediaType : MessageType)
    (options : MessageOptions) :
  let run := prepareMediaMessage buffer mediaType options tt in
  (resolved query_mediaConn = false
   \/ exists json, query_mediaConn = Resolved json /\ hosts json = []) ->
  resolved (Task.outcome run) = false
  /\ Forall (fun e => e = Query_mediaConn) (Task.effects run).
Proof.
  cbv zeta. intros Hconn. unfold prepareMediaMessage.
  destruct (_ && negb _); [split; [reflexivity | constructor]|].
  destruct (_ && JS.truthy _); [split; [reflexivity | constructor]|].
  rewrite outcome_bind, effects_bind.
  cbn [Task.await Task.outcome Task.final Task.effects app].
  destruct (generateThumbnail _ _ _) as [options' | e];
    [| split; [reflexivity | constructor]].
  rewrite outcome_bind, effects_bind.
  cbn [Task.perform Task.outcome Task.final Task.effects app].
  rewrite outcome_bind, effects_bind.
  cbn [Task.await Task.outcome Task.final Task.effects app].
  destruct Hconn as [Hrej | (json & Hjson & Hhosts)].
  - destruct query_mediaConn; [discriminate Hrej|].
    split; [reflexivity | repeat constructor].
  - rewrite Hjson, Hhosts. cbn [head].
    split; [reflexivity | repeat constructor].
Qed.

End MediaUpload.

Section CallProperties.
Context {P : Payloads} {X : Externals} {C : SocketExternals}.
Import Calls.

Lemma lift_ack_run (node : BinaryNode) (extra : gmap string string) (s : CallSocket) :
  Task.try_catch (lift (MessagesRecv.sendMessageAck node extra))
    (fun _ => Task.ret tt) s
  = Task.mkRun (Resolved tt) s
      [OfSocket (SendNode (mkBinaryNode "ack" (MessagesRecv.ack_attrs node extra)
                             NoContent))].
Proof. destruct s. reflexivity. Qed.

Lemma emit_call_run (calls : list WACallEvent) (s : CallSocket) :
  emit_call calls s =
  Task.mkRun
    (match on_call calls with
     | Resolved _ => Resolved tt
     | Rejected e => Rejected e
     end)
    s
    (EmitCall calls ::
     match on_call calls with
     | Resolved (Some (msg, type)) => [UpsertCall msg type]
     | _ => []
     end).
Proof.
  unfold emit_call, Task.bind.
  cbn [Task.perform Task.await Task.outcome Task.final Task.effects app].
  destruct (on_call calls) as [[[msg type] |] | e]; reflexivity.
Qed.

Lemma run_ext {S E A} (r1 r2 : Task.Run S E A) :
  Task.outcome r1 = Task.outcome r2 ->
  Task.final r1 = Task.final r2 ->
  Task.effects r1 = Task.effects r2 ->
  r1 = r2.
Proof. destruct r1, r2. cbn. congruence. Qed.

Lemma store_offer_outcome (k : string) (call : WACallEvent) (s : CallSocket) :
  Task.outcome (store_offer k call s) = Resolved tt.
Proof. reflexivity. Qed.

Lemma store_offer_effects (k : string) (call : WACallEvent) (s : CallSocket) :
  Task.effects (store_offer k call s) = [].
Proof. reflexivity. Qed.

Lemma store_offer_sock (k : string) (call : WACallEvent) (s : CallSocket) :
  sock (Task.final (store_offer k call s)) = sock s.
Proof.
  unfold store_offer, Task.modify. cbn [Task.final].
  destruct (callOfferData s !! k); [| destruct (String.eqb k "__proto__")];
    reflexivity.
Qed.

(** An offer that was stored is found again, under every call id. *)
Lemma offer_at_store (k : string) (call : WACallEvent) (s : CallSocket) :
  offer_at (Task.final (store_offer k call s)) k = Some call.
Proof.
  unfold store_offer, Task.modify, offer_at. cbn [Task.final].
  destruct (callOfferData s !! k) eqn:Hk;
    [| destruct (String.eqb k "__proto__") eqn:Hproto];
    cbn [callOfferData callOfferProto]; rewrite ?lookup_insert_eq, ?Hk, ?Hproto;
    reflexivity.
Qed.

(** [delete] leaves the prototype where it is. *)
Lemma offer_at_forget (k : string) (s : CallSocket) :
  offer_at (Task.final (forget_offer k s)) k =
  if String.eqb k "__proto__" then callOfferProto s else None.
Proof.
  unfold forget_offer, Task.modify, offer_at.
  cbn [Task.final callOfferData callOfferProto]. rewrite lookup_delete_eq.
  reflexivity.
Qed.

Ltac call_steps :=
  repeat (rewrite ?outcome_bind, ?final_bind, ?effects_bind,
            ?store_offer_outcome, ?store_offer_effects;
          cbn [Task.when Task.get Task.ret forget_offer Task.modify
               Task.outcome Task.final Task.effects app callOfferData
               callOfferProto sock]).

(** [handleCallNode] on a node with a first child, in one equation. *)
Lemma handleCallNode_run (node info : BinaryNode) (s : CallSocket) :
  head (getAllBinaryNodeChildren node) = Some info ->
  let status := getCallStatusFromNode info in
  let k := JS.prop_key (attr info "call-id") in
  let flags :=
    if String.eqb status "offer"
    then Some (Some (JS.defined (getBinaryNodeChild info "video")),
               Some (JS.is_str (attr info "type") "group"))
    else (fun o => (isVideo o, isGroup o)) <$> offer_at s k in
  let call :=
    {| chatId := attr node "from";
       from := JS.or (attr info "from") (attr info "call-creator");
       id := attr info "call-id";
       date := Date_of_seconds (unary_plus (attr node "t"));
       offline := JS.truthy (attr node "offline");
       status := status;
       isVideo := flags ≫= fst;
       isGroup := flags ≫= snd |} in
  let after :=
    if String.eqb status "offer" then Task.final (store_offer k call s)
    else if is_terminal status then Task.final (forget_offer k s)
    else s in
  let ack :=
    mkBinaryNode "ack" (MessagesRecv.ack_attrs node {[ "type" := tag info ]})
      NoContent in
  handleCallNode node s =
  Task.mkRun
    (match on_call [call] with
     | Resolved _ => Resolved tt
     | Rejected e => Rejected e
     end)
    after
    (EmitCall [call] ::
     match on_call [call] with
     | Resolved (Some (msg, type)) => [UpsertCall msg type; OfSocket (SendNode ack)]
     | Resolved None => [OfSocket (SendNode ack)]
     | Rejected _ => []
     end).
Proof.
  intros Hinfo. cbv zeta. unfold handleCallNode. rewrite Hinfo.
  destruct (String.eqb (getCallStatusFromNode info) "offer") eqn:Hoffer.
  - apply String.eqb_eq in Hoffer. rewrite Hoffer.
    change (is_terminal "offer") with false.
    cbn [chatId from id date offline status isVideo isGroup
         mbind option_bind fst snd].
    apply run_ext; cbn [Task.outcome Task.final Task.effects];
      call_steps; rewrite offer_at_store;
      cbn [isVideo isGroup chatId from id date offline status];
      call_steps; rewrite emit_call_run;
      cbn [Task.outcome Task.final Task.effects];
      destruct (on_call _) as [[[msg type] |] | e];
      rewrite ?lift_ack_run; reflexivity.
  - assert (Hcall :
      match offer_at s (JS.prop_key (attr info "call-id")) with
      | Some offer =>
          {| chatId := attr node "from";
             from := JS.or (attr info "from") (attr info "call-creator");
             id := attr info "call-id";
             date := Date_of_seconds (unary_plus (attr node "t"));
             offline := JS.truthy (attr node "offline");
             status := getCallStatusFromNode info;
             isVideo := isVideo offer;
             isGroup := isGroup offer |}
      | None =>
          {| chatId := attr node "from";
             from := JS.or (attr info "from") (attr info "call-creator");
             id := attr info "call-id";
             date := Date_of_seconds (unary_plus (attr node "t"));
             offline := JS.truthy (attr node "offline");
             status := getCallStatusFromNode info;
             isVideo := None;
             isGroup := None |}
      end =
      {| chatId := attr node "from";
         from := JS.or (attr info "from") (attr info "call-creator");
         id := attr info "call-id";
         date := Date_of_seconds (unary_plus (attr node "t"));
         offline := JS.truthy (attr node "offline");
         status := getCallStatusFromNode info;
         isVideo :=
           ((fun o => (isVideo o, isGroup o)) <$>
            offer_at s (JS.prop_key (attr info "call-id"))) ≫= fst;
         isGroup :=
           ((fun o => (isVideo o, isGroup o)) <$>
            offer_at s (JS.prop_key (attr info "call-id"))) ≫= snd |}).
    { destruct (offer_at s _); reflexivity. }
    apply run_ext; cbn [Task.outcome Task.final Task.effects];
      call_steps;
      cbn [chatId from id date offline status isVideo isGroup]; rewrite Hcall;
      destruct (is_terminal (getCallStatusFromNode info));
      call_steps; rewrite emit_call_run;
      cbn [Task.outcome Task.final Task.effects sock callOfferData callOfferProto];
      destruct (on_call _) as [[[msg type] |] | e];
      rewrite ?lift_ack_run; destruct s; reflexivity.
Qed.

Lemma ack_attrs_type (node : BinaryNode) (t : string) :
  t <> "" ->
  MessagesRecv.ack_attrs node {[ "type" := t ]} !! "type" = Some t.
Proof.
  intros Ht. unfold MessagesRecv.ack_attrs.
  rewrite lookup_singleton_eq.
  assert (Htruthy : JS.truthy (Some t) = true) by (destruct t; [contradiction | reflexivity]).
  rewrite Htruthy, andb_false_r.
  assert (Hbase : forall o : gmap string string,
            JS.spread o {[ "type" := t ]} !! "type" = Some t).
  { intros o. unfold JS.spread. apply lookup_union_Some_l, lookup_singleton_eq. }
  destruct (JS.truthy (attr node "participant")); [| apply Hbase].
  rewrite lookup_JS_set. case_decide; [discriminate | apply Hbase].
Qed.

(** X22.  The flags of a call are those of its offer.  Once the offer of a
    call was handled, the event for a later node of the same call carries
    [isVideo] and [isGroup] as the offer had them, whatever the later node
    holds.  Under a call id other than [__proto__] the offer is forgotten
    exactly when that node ends the call with reject, accept or timeout.
    Under the call id [__proto__] the assignment made the offer the
    prototype of [callOfferData], where [delete] removes nothing: the offer
    stays whatever the later node is. *)
Theorem call_flags_follow_offer (offer later info_o info_l : BinaryNode)
    (s : CallSocket) :
  let k := JS.prop_key (attr info_o "call-id") in
  let s1 := Task.final (handleCallNode offer s) in
  let r := handleCallNode later s1 in
  head (getAllBinaryNodeChildren offer) = Some info_o ->
  getCallStatusFromNode info_o = "offer" ->
  head (getAllBinaryNodeChildren later) = Some info_l ->
  getCallStatusFromNode info_l <> "offer" ->
  JS.prop_key (attr info_l "call-id") = k ->
  is_Some (offer_at s1 k)
  /\ (exists call,
        call_events (Task.effects r) = [[call]]
        /\ isVideo call = Some (JS.defined (getBinaryNodeChild info_o "video"))
        /\ isGroup call = Some (JS.is_str (attr info_o "type") "group")
        /\ status call = getCallStatusFromNode info_l
        /\ chatId call = attr later "from"
        /\ id call = attr info_l "call-id")
  /\ (k <> "__proto__" ->
      offer_at (Task.final r) k =
      (if is_terminal (getCallStatusFromNode info_l) then None
       else offer_at s1 k))
  /\ (k = "__proto__" -> callOfferData s !! k = None ->
      offer_at (Task.final r) k = offer_at s1 k).
Proof.
  cbv zeta. intros Ho Hoffer Hl Hlater Hk.
  rewrite (handleCallNode_run offer info_o s Ho), Hoffer.
  change (String.eqb "offer" "offer") with true. cbv iota.
  cbn [Task.final mbind option_bind fst snd].
  rewrite (handleCallNode_run later info_l _ Hl).
  apply String.eqb_neq in Hlater. rewrite Hlater, Hk.
  cbn [Task.final Task.effects].
  rewrite offer_at_store.
  cbn [fmap option_fmap option_map mbind option_bind fst snd isVideo isGroup].
  split; [eexists; reflexivity|]. split; [| split].
  - eexists. split.
    { destruct (on_call _) as [[[msg type] |] | e]; reflexivity. }
    repeat split; reflexivity.
  - intros Hplain. apply String.eqb_neq in Hplain.
    destruct (is_terminal _).
    + rewrite offer_at_forget, Hplain. reflexivity.
    + apply offer_at_store.
  - intros Hproto Hown.
    destruct (is_terminal _).
    + rewrite offer_at_forget, Hproto. cbn [String.eqb Ascii.eqb Bool.eqb].
      unfold store_offer, Task.modify. cbn [Task.final].
      rewrite Hproto in Hown. rewrite Hown. reflexivity.
    + apply offer_at_store.
Qed.

(** X23.  A call that timed out is reported as a missed call.  The node is
    acked and its call event is followed by a message whose stub type is
    chosen by the flags of the remembered offer: missed group video or
    voice call for a group, missed video or voice call otherwise, and a
    missed voice call when no offer is remembered.  The message is keyed
    by the chat and the call id, is not from me, and is of type append
    for an offline node and notify otherwise.  The offer is forgotten,
    unless it is the prototype of [callOfferData], which [delete] leaves
    alone. *)
Theorem missed_call_message (node info : BinaryNode) (s : CallSocket) :
  let k := JS.prop_key (attr info "call-id") in
  let r := handleCallNode node s in
  let stored := offer_at s k in
  let group := flag (stored ≫= isGroup) in
  let video := flag (stored ≫= isVideo) in
  head (getAllBinaryNodeChildren node) = Some info ->
  getCallStatusFromNode info = "timeout" ->
  Task.outcome r = Resolved tt
  /\ call_upserts (Task.effects r) =
     [ ({| call_key :=
             {| remoteJid := attr node "from";
                Proto.id := attr info "call-id";
                fromMe := false;
                participant := None |};
           call_messageTimestamp :=
             unixTimestampSeconds (Date_of_seconds (unary_plus (attr node "t")));
           call_messageStubType :=
             Some (if group
                   then if video then CALL_MISSED_GROUP_VIDEO
                        else CALL_MISSED_GROUP_VOICE
                   else if video then CALL_MISSED_VIDEO else CALL_MISSED_VOICE);
           call_callKey := None |},
        if JS.truthy (attr node "offline") then Append else Notify) ]
  /\ length (call_acks (Task.effects r)) = 1%nat
  /\ callOfferData (Task.final r) !! k = None
  /\ offer_at (Task.final r) k =
     (if String.eqb k "__proto__" then callOfferProto s else None).
Proof.
  cbv zeta. intros Hinfo Htimeout.
  rewrite (handleCallNode_run node info s Hinfo), Htimeout.
  change (String.eqb "timeout" "offer") with false.
  change (is_terminal "timeout") with true. cbv iota.
  unfold on_call. cbn [head status].
  change (String.eqb "timeout" "timeout") with true.
  cbn [orb Task.outcome Task.final Task.effects call_upserts call_acks omap
       list_omap length chatId id date offline isGroup isVideo].
  rewrite offer_at_forget.
  destruct (offer_at s _) as [o |];
    cbn [fmap option_fmap option_map mbind option_bind fst snd];
    repeat split; apply lookup_delete_eq.
Qed.

(** X24.  The ack of a call node comes last, after the call event and what
    the listener made of it, and its [type] is the tag of the node's first
    child.  It is left out, and the handler throws, in one case only: an
    offer of a group call without a call id, for which the listener cannot
    build the call key.  Neither the event nor the ack changes the
    socket. *)
Theorem call_ack_after_listener (node info : BinaryNode) (s : CallSocket) :
  let r := handleCallNode node s in
  let ack :=
    mkBinaryNode "ack" (MessagesRecv.ack_attrs node {[ "type" := tag info ]})
      NoContent in
  let broken :=
    String.eqb (getCallStatusFromNode info) "offer"
    && JS.is_str (attr info "type") "group"
    && negb (JS.defined (attr info "call-id")) in
  head (getAllBinaryNodeChildren node) = Some info ->
  tag info <> "" ->
  resolved (Task.outcome r) = negb broken
  /\ call_acks (Task.effects r) = (if broken then [] else [ack])
  /\ (broken = false -> last (Task.effects r) = Some (OfSocket (SendNode ack)))
  /\ attr ack "type" = Some (tag info)
  /\ length (call_events (Task.effects r)) = 1%nat
  /\ sock (Task.final r) = sock s.
Proof.
  cbv zeta. intros Hinfo Htag.
  rewrite (handleCallNode_run node info s Hinfo).
  cbn [Task.outcome Task.final Task.effects sock].
  assert (Hattr : attr (mkBinaryNode "ack"
                    (MessagesRecv.ack_attrs node {[ "type" := tag info ]}) NoContent)
                    "type" = Some (tag info)).
  { unfold attr. cbn [attrs]. apply ack_attrs_type. exact Htag. }
  unfold on_call. cbn [head status isGroup isVideo id].
  destruct (String.eqb (getCallStatusFromNode info) "offer") eqn:Hoffer.
  - apply String.eqb_eq in Hoffer. rewrite Hoffer.
    change (String.eqb "offer" "timeout") with false.
    change (String.eqb "offer" "offer") with true.
    cbn [orb andb mbind option_bind fst snd flag].
    destruct (JS.is_str (attr info "type") "group");
      [destruct (attr info "call-id") |]; cbn [JS.defined negb andb];
      repeat split; try assumption; try reflexivity;
      try apply store_offer_sock;
      intros Hb; (discriminate Hb || reflexivity).
  - cbn [andb negb orb].
    assert (Hsock : sock (if is_terminal (getCallStatusFromNode info)
                          then Task.final
                                 (forget_offer (JS.prop_key (attr info "call-id")) s)
                          else s) = sock s).
    { destruct (is_terminal _); reflexivity. }
    destruct (String.eqb (getCallStatusFromNode info) "timeout");
      cbn [orb]; repeat split; try assumption; try reflexivity;
      intros Hb; (discriminate Hb || reflexivity).
Qed.

End CallProperties.

Section HistoryProperties.
Context {P : Payloads} {X : Externals} {C : SocketExternals}.
Import History.

Lemma timeoutAppState_effects (s : HistorySync) :
  Task.effects (timeoutAppState s) =
  (if ws_is_open s then [ResyncMainAppState (recvChats s)] else []).
Proof.
  unfold timeoutAppState.
  rewrite effects_bind.
  cbn [Task.get Task.outcome Task.final Task.effects app].
  rewrite effects_bind.
  destruct (ws_is_open s).
  - rewrite outcome_bind, effects_bind.
    cbn [Task.perform Task.await Task.outcome Task.final Task.effects app].
    destruct (resyncMainAppState (recvChats s)); reflexivity.
  - reflexivity.
Qed.

(** X25.  When the app-state timeout fires, the main app state is
    resynced with the chats received so far, but only on an open socket.
    The history cache and the received chats are cleared afterwards,
    unless the resync rejects: then the handler throws and both are kept
    as they were. *)
Theorem timeoutAppState_clears_after_resync (s : HistorySync) :
  let r := timeoutAppState s in
  let failed := ws_is_open s && negb (resolved (resyncMainAppState (recvChats s))) in
  Task.effects r = (if ws_is_open s then [ResyncMainAppState (recvChats s)] else [])
  /\ resolved (Task.outcome r) = negb failed
  /\ Task.final r =
     (if failed then s
      else {| ws_is_open := ws_is_open s; historyCache := ∅; recvChats := ∅ |}).
Proof.
  cbv zeta. unfold timeoutAppState.
  rewrite outcome_bind, final_bind, effects_bind.
  cbn [Task.get Task.outcome Task.final Task.effects app].
  rewrite outcome_bind, final_bind, effects_bind.
  destruct (ws_is_open s) eqn:Hopen.
  - rewrite outcome_bind, final_bind, effects_bind.
    cbn [Task.perform Task.await Task.outcome Task.final Task.effects app].
    destruct (resyncMainAppState (recvChats s));
      cbn [Task.modify Task.outcome Task.final Task.effects app resolved negb andb];
      rewrite ?Hopen; repeat split.
  - cbn [Task.ret Task.modify Task.outcome Task.final Task.effects app andb negb].
    rewrite Hopen. repeat split.
Qed.

(** X26.  A message that announces history is answered, once it was
    processed, by a restart of the app-state timeout and then one receipt
    of type [hist_sync], addressed to the user of the chat on the server
    [c.us], naming no participant and the id of the message.  What
    [processMessage] put into the cache and the chats stays there, so the
    next timeout resyncs with those chats. *)
Theorem history_message_receipt (msg : WebMessageInfo) (m : MessageContent)
    (d : FullJid) (events : EventMap) (cache' : gset string)
    (chats' : gmap string RecvChat) (s : HistorySync) :
  let r := processMessageLocal msg s in
  processMessage msg (historyCache s, recvChats s) = (cache', chats', Resolved events) ->
  message msg = Some m ->
  is_historySyncNotification m = true ->
  remoteJid (key msg) ≫= jidDecode = Some d ->
  r = Task.mkRun (Resolved events)
        {| ws_is_open := ws_is_open s; historyCache := cache'; recvChats := chats' |}
        [ ProcessMessage msg;
          AppStateSyncTimeout_start;
          HistoryReceipt (Some (jidEncode (user d) "c.us" None None)) None
            [id (key msg)] (Some "hist_sync") ]
  /\ Task.effects (timeoutAppState (Task.final r)) =
     (if ws_is_open s then [ResyncMainAppState chats'] else []).
Proof.
  cbv zeta. intros Hprocess Hmsg Hhist Hjid.
  assert (Hrun : processMessageLocal msg s =
    Task.mkRun (Resolved events)
      {| ws_is_open := ws_is_open s; historyCache := cache'; recvChats := chats' |}
      [ ProcessMessage msg;
        AppStateSyncTimeout_start;
        HistoryReceipt (Some (jidEncode (user d) "c.us" None None)) None
          [id (key msg)] (Some "hist_sync") ]).
  { unfold processMessageLocal, Task.bind.
    cbn [Task.get Task.perform Task.modify Task.outcome Task.final Task.effects].
    rewrite Hprocess, Hmsg, Hhist. cbn [fst snd Task.await Task.outcome
      Task.final Task.effects Task.perform].
    rewrite Hjid. reflexivity. }
  rewrite Hrun. split; [reflexivity|].
  apply (timeoutAppState_effects
           {| ws_is_open := ws_is_open s; historyCache := cache';
              recvChats := chats' |}).
Qed.

(** X27.  No receipt without history: when the message announces no
    history, or [processMessage] rejects, [processMessageLocal] sends no
    receipt and does not restart the timeout; it hands on what
    [processMessage] answered, and the cache and the chats are as
    [processMessage] left them, also after a rejection. *)
Theorem processMessageLocal_without_history (msg : WebMessageInfo)
    (answer : Outcome EventMap) (cache' : gset string)
    (chats' : gmap string RecvChat) (s : HistorySync) :
  processMessage msg (historyCache s, recvChats s) = (cache', chats', answer) ->
  resolved answer = false
  \/ match message msg with
     | Some m => is_historySyncNotification m
     | None => false
     end = false ->
  processMessageLocal msg s =
  Task.mkRun answer
    {| ws_is_open := ws_is_open s; historyCache := cache'; recvChats := chats' |}
    [ProcessMessage msg].
Proof.
  intros Hprocess Hno.
  unfold processMessageLocal, Task.bind.
  cbn [Task.get Task.perform Task.modify Task.outcome Task.final Task.effects].
  rewrite Hprocess. cbn [fst snd Task.await Task.outcome Task.final Task.effects].
  destruct answer as [events | e]; [| reflexivity].
  destruct Hno as [Hno | Hno]; [discriminate Hno|].
  rewrite Hno. reflexivity.
Qed.

End HistoryProperties.

(** * Runs of the further properties *)
Section MoreRuns.
Import MessagesRecv.
#[local] Existing Instance Example.payloads.

(** X1 at a retry request with the key store locked: the count for [A1]
    goes from 2 to 3 though nothing was sent. *)
Lemma sendRetryRequest_failure_keeps_count_witness :
  let r := sendRetryRequest (X := Cases.externals) Example.message_A1
             (Cases.socket {[ "A1" := 2%Z ]}) in
  resolved (Task.outcome r) = false
  /\ Task.effects r = [GetNextPreKeys]
  /\ msgRetryMap (Task.final r) !! "A1" = Some (JS.Count 3).
Proof.
  cbv zeta.
  destruct (sendRetryRequest_failure_keeps_count (X := Cases.externals)
              Example.message_A1 (Cases.socket {[ "A1" := 2%Z ]}))
    as (Hout & Heff & Hmap & _).
  - vm_compute. reflexivity.
  - left. reflexivity.
  - split; [exact Hout|]. split; [exact Heff|].
    rewrite Hmap. vm_compute. reflexivity.
Defined.

(** X2 at the first retry request for alice's message. *)
Lemma sendRetryRequest_receipt_witness :
  exists st,
    Task.effects (sendRetryRequest (X := Example.externals) Example.message_A1
                    (Example.socket ∅))
    = [GetNextPreKeys; SendNode st; Emit (creds_update 8%Z)]
    /\ attr st "to" = Some "alice@s.whatsapp.net"
    /\ (getBinaryNodeChild st "retry" ≫= fun retry => attr retry "count") = Some "1".
Proof.
  destruct (sendRetryRequest_receipt (X := Example.externals) Example.message_A1
              (Example.socket ∅) 8%Z 7%Z
              {| public := repeat Byte.x07 32; private := repeat Byte.x17 32 |})
    as (st & retry & Heff & _ & _ & _ & _ & Hto & _ & _ & Hretry & Hcount & _).
  - vm_compute. reflexivity.
  - reflexivity.
  - right. split; [reflexivity | vm_compute; eexists; reflexivity].
  - exists st. split; [exact Heff|]. split; [exact Hto|].
    rewrite Hretry. exact Hcount.
Defined.

(** X3 at two retry requests for [A1] on a socket that counts 4 for it:
    the first brings the count to 5, the second clears it. *)
Lemma retry_requests_keep_counters_within_witness :
  counters_within 2 5
    (msgRetryMap
       (retry_each (X := Example.externals) [Example.message_A1; Example.message_A1]
          (Example.socket {[ "A1" := 4%Z ]}))).
Proof.
  apply (retry_requests_keep_counters_within (X := Example.externals)).
  - repeat constructor.
  - intros j c Hj. cbn [Example.socket msgRetryMap] in Hj.
    rewrite lookup_fmap in Hj.
    destruct ((({[ "A1" := 4%Z ]} : gmap string Z)) !! j) as [v |] eqn:Hv;
      [| discriminate Hj].
    apply lookup_singleton_Some in Hv as [_ <-]. injection Hj as <-.
    exists 4%Z. split; [reflexivity | lia].
Defined.

(** X4 at seven retry requests for [A1]: the eighth carries the count 3. *)
Lemma retry_requests_cycle_witness :
  retryCount_of
    (msgRetryMap (retry_each (X := Example.externals) (repeat Example.message_A1 7)
                    (Example.socket ∅)))
    (attr Example.message_A1 "id") = JS.Count 3.
Proof.
  exact (proj1 (retry_requests_cycle (X := Example.externals) Example.message_A1
                  (Example.socket ∅) 7 eq_refl eq_refl)).
Defined.

(** A stanza whose id is [constructor] finds the function [Object] where
    its count should be.  The retry receipt carries the text of the
    function as its count and has no keys, the map keeps that text with a
    1 appended, so the cap is never reached; and a receipt that asks for
    such a message again is not let through. *)
Example retry_request_for_inherited_id :
  let r := sendRetryRequest (X := Example.externals) Cases.message_constructor
             (Example.socket ∅) in
  let again := sendRetryRequest (X := Example.externals) Cases.message_constructor
                 (Task.final r) in
  let count_sent (es : list Effect) :=
    head (sent_nodes es) ≫= fun st =>
    getBinaryNodeChild st "retry" ≫= fun c => attr c "count" in
  count_sent (Task.effects r) = Some "function Object() { [native code] }"
  /\ (head (sent_nodes (Task.effects r)) ≫= fun st => getBinaryNodeChild st "keys")
     = None
  /\ msgRetryMap (Task.final r) !! "constructor" = Some (JS.Words "constructor" 1)
  /\ count_sent (Task.effects again) = Some "function Object() { [native code] }1"
  /\ willSendMessageAgain (msgRetryMap (Example.socket ∅)) (Some "constructor")
     = false.
Proof. vm_compute. repeat split. Qed.

(** X5 at a resend in which the store fails for the second id. *)
Lemma sendMessagesAgain_aborts_early_witness :
  let r := sendMessagesAgain (X := Cases.externals) Cases.key_carol
             [Some "M1"; Some "GONE"] (Cases.socket ∅) in
  resolved (Task.outcome r) = false /\ Task.final r = Cases.socket ∅.
Proof.
  cbv zeta.
  destruct (sendMessagesAgain_aborts_early (X := Cases.externals) Cases.key_carol
              [Some "M1"; Some "GONE"] (Cases.socket ∅)) as (Hout & Hfin & _).
  - left. exists (Some "GONE"), "store unavailable".
    split; [right; left; reflexivity | reflexivity].
  - split; assumption.
Defined.

(** X6 at a resend of three messages to carol, the second of which the
    store does not have. *)
Lemma sendMessagesAgain_effects_witness :
  Task.effects (sendMessagesAgain (X := Example.externals) Cases.key_carol
                  [Some "M1"; Some "LOST"; Some "M3"] (Example.socket ∅))
  = [ GetMessage (with_id Cases.key_carol (Some "M1"));
      GetMessage (with_id Cases.key_carol (Some "LOST"));
      GetMessage (with_id Cases.key_carol (Some "M3"));
      AssertSessions [Some "carol@s.whatsapp.net"] true;
      RelayMessage (Some "carol@s.whatsapp.net") "hello again" (Some "M1")
        (Some "carol@s.whatsapp.net");
      RelayMessage (Some "carol@s.whatsapp.net") "hello again" (Some "M3")
        (Some "carol@s.whatsapp.net") ].
Proof.
  refine (proj2 (sendMessagesAgain_effects (X := Example.externals) Cases.key_carol
                   [Some "M1"; Some "LOST"; Some "M3"] Cases.stored (Example.socket ∅)
                   _ eq_refl _ _)).
  - intros i [<- | [<- | [<- | []]]]; reflexivity.
  - discriminate.
  - intros i m _ _. reflexivity.
Defined.

(** X7 at the same resend, on a socket that had relayed [M1] once. *)
Lemma sendMessagesAgain_counters_witness :
  let r := sendMessagesAgain (X := Example.externals) Cases.key_carol
             [Some "M1"; Some "LOST"; Some "M3"] (Example.socket {[ "M1" := 1%Z ]}) in
  msgRetryMap (Task.final r) !! "M1" = Some (JS.Count 2)
  /\ msgRetryMap (Task.final r) !! "M3" = Some (JS.Count 1)
  /\ msgRetryMap (Task.final r) !! "LOST" = None.
Proof.
  cbv zeta.
  assert (Hrun : forall j,
    JS.numeric (msgRetryMap (Example.socket {[ "M1" := 1%Z ]})) j = true ->
    msgRetryMap (Task.final (sendMessagesAgain (X := Example.externals) Cases.key_carol
        [Some "M1"; Some "LOST"; Some "M3"] (Example.socket {[ "M1" := 1%Z ]}))) !! j
    = if decide (j ∈ map JS.prop_key
                   (available Cases.stored [Some "M1"; Some "LOST"; Some "M3"]))
      then Some (JS.Count
                   (JS.or_num
                      (JS.count (msgRetryMap (Example.socket {[ "M1" := 1%Z ]}) !! j))
                      0 + 1))
      else msgRetryMap (Example.socket {[ "M1" := 1%Z ]}) !! j).
  { intros j.
    apply (sendMessagesAgain_counters (X := Example.externals) Cases.key_carol
             [Some "M1"; Some "LOST"; Some "M3"] Cases.stored
             (Example.socket {[ "M1" := 1%Z ]}) j).
    - intros i [<- | [<- | [<- | []]]]; reflexivity.
    - reflexivity.
    - discriminate.
    - intros i m _ _. reflexivity.
    - apply (bool_decide_unpack _). vm_compute. exact I. }
  rewrite (Hrun "M1" eq_refl), (Hrun "M3" eq_refl), (Hrun "LOST" eq_refl).
  vm_compute. repeat split.
Defined.

(** X8 at a resend in which the relay of the second message fails: the
    third is not relayed, and the counter of the second is raised. *)
Lemma sendMessagesAgain_stops_at_failed_relay_witness :
  let r := sendMessagesAgain (X := Cases.externals) Cases.key_carol
             [Some "M1"; Some "BAD"; Some "M3"] (Cases.socket ∅) in
  Task.outcome r = Rejected "connection closed"
  /\ msgRetryMap (Task.final r) = JS.Count <$> {[ "M1" := 1%Z; "BAD" := 1%Z ]}.
Proof.
  cbv zeta.
  destruct (sendMessagesAgain_stops_at_failed_relay (X := Cases.externals)
              Cases.key_carol [Some "M1"] [Some "M3"] (Some "BAD") "hello again"
              "connection closed" Cases.stored (Cases.socket ∅))
    as (Hout & _ & Hfin).
  - intros i [<- | [<- | [<- | []]]]; reflexivity.
  - reflexivity.
  - discriminate.
  - intros i m [<- | []] _. reflexivity.
  - reflexivity.
  - reflexivity.
  - split; [exact Hout|]. etransitivity; [exact Hfin|]. vm_compute. reflexivity.
Defined.

(** X9 at bob's read receipt: one update, then the ack. *)
Lemma handleReceipt_without_resend_witness :
  Task.final (handleReceipt (X := Example.externals) Example.receipt_group_read
                (Example.socket ∅)) = Example.socket ∅
  /\ length (Task.effects (handleReceipt (X := Example.externals)
                             Example.receipt_group_read (Example.socket ∅))) = 2%nat.
Proof.
  destruct (handleReceipt_without_resend (X := Example.externals)
              Example.receipt_group_read (Example.socket ∅) eq_refl) as (Hfin & Heff).
  split; [exact Hfin|]. rewrite Heff. vm_compute. reflexivity.
Defined.

(** X10 at carol's request to have [X] again. *)
Lemma handleReceipt_resend_witness :
  let node := Example.receipt_retry_from "carol@s.whatsapp.net" [] in
  let key := {| remoteJid := Some "carol@s.whatsapp.net"; id := Some "";
                fromMe := true; participant := Some "carol@s.whatsapp.net" |} in
  Task.final (handleReceipt (X := Example.externals) node (Example.socket ∅))
  = Task.final (sendMessagesAgain (X := Example.externals) key [Some "X"]
                  (Example.socket ∅)).
Proof.
  cbv zeta.
  exact (proj1 (proj2 (handleReceipt_resend (X := Example.externals)
                         (Example.receipt_retry_from "carol@s.whatsapp.net" [])
                         (Example.socket ∅) eq_refl eq_refl eq_refl))).
Defined.

(** X11 at a notification of devices with a first child. *)
Lemma handleNotification_acks_once_witness :
  let node :=
    mkBinaryNode "notification"
      {[ "id" := "N5"; "type" := "devices"; "from" := "me@s.whatsapp.net" ]}
      (Children [mkBinaryNode "add" {[ "jid" := "me.4@s.whatsapp.net" ]} NoContent]) in
  Task.outcome (handleNotification (X := Example.externals) node (Example.socket ∅))
  = Resolved tt.
Proof.
  cbv zeta.
  refine (proj2 (proj2 (proj2 (handleNotification_acks_once (X := Example.externals)
                                 _ (Example.socket ∅)))) _ _).
  - eexists. reflexivity.
  - intros _. eexists. reflexivity.
Defined.

(** X12 at the server's report on the pre-keys. *)
Lemma notification_message_only_for_groups_witness :
  filter (fun e => is_upsert e = true)
    (Task.effects (handleNotification (X := Example.externals)
                     Cases.notification_prekeys_low (Example.socket ∅))) = [].
Proof.
  refine (proj2 (notification_message_only_for_groups (X := Example.externals)
                   Cases.notification_prekeys_low (Example.socket ∅) _)).
  left. reflexivity.
Defined.

(** X13 at the same report: three pre-keys are fewer than five. *)
Lemma encrypt_notification_uploads_witness :
  processNotification (X := Example.externals) Cases.notification_prekeys_low
    (Example.socket ∅)
  = Task.mkRun (Resolved None) (Example.socket ∅) [UploadPreKeys].
Proof.
  etransitivity.
  - exact (encrypt_notification_uploads (X := Example.externals)
             Cases.notification_prekeys_low (Example.socket ∅) eq_refl).
  - vm_compute. reflexivity.
Defined.

(** X14 at alice's new group: the key names alice, the message bob. *)
Lemma group_create_notification_witness :
  map (fun ev =>
         match ev with
         | messages_upsert [m] Append => (participant (key m), msg_participant m)
         | _ => (None, None)
         end)
    (emitted (Task.effects (handleNotification (X := Example.externals)
                              Cases.notification_group_created (Example.socket ∅))))
  = [ (None, None); (None, None);
      (Some "alice@s.whatsapp.net", Some "bob@s.whatsapp.net") ].
Proof.
  rewrite (group_create_notification (X := Example.externals)
             Cases.notification_group_created _ [] _ (Example.socket ∅)
             eq_refl eq_refl eq_refl eq_refl).
  vm_compute. reflexivity.
Defined.

(** X15 at a group that was locked. *)
Lemma group_setting_notification_witness :
  map (fun ev =>
         match ev with
         | messages_upsert [m] Append => (messageStubType m, messageStubParameters m)
         | _ => (None, None)
         end)
    (emitted (Task.effects
       (handleNotification (X := Example.externals)
          (Cases.notification_group (mkBinaryNode "locked" ∅ NoContent))
          (Example.socket ∅))))
  = [(Some GROUP_CHANGE_RESTRICT, Some [Some "on"])].
Proof.
  rewrite (group_setting_notification (X := Example.externals)
             (Cases.notification_group (mkBinaryNode "locked" ∅ NoContent))
             (mkBinaryNode "locked" ∅ NoContent) [] GROUP_CHANGE_RESTRICT "on"
             {| contact_id := "me.3@s.whatsapp.net"; contact_name := Some "Me" |}
             (Example.socket ∅) eq_refl eq_refl).
  - reflexivity.
  - right. right. left. reflexivity.
  - reflexivity.
Defined.

(** X16 at a group whose messages now disappear after a day. *)
Lemma ephemeral_notification_witness :
  map (fun ev =>
         match ev with
         | messages_upsert [m] Append => message m
         | _ => None
         end)
    (emitted (Task.effects
       (handleNotification (X := Example.externals)
          (Cases.notification_group
             (mkBinaryNode "ephemeral" {[ "expiration" := "86400" ]} NoContent))
          (Example.socket ∅))))
  = [Some (protocolMessage_EPHEMERAL_SETTING (Some 86400%Z))].
Proof.
  destruct (ephemeral_notification (X := Example.externals)
              (Cases.notification_group
                 (mkBinaryNode "ephemeral" {[ "expiration" := "86400" ]} NoContent))
              (mkBinaryNode "ephemeral" {[ "expiration" := "86400" ]} NoContent) []
              {| contact_id := "me.3@s.whatsapp.net"; contact_name := Some "Me" |}
              (Example.socket ∅) eq_refl eq_refl (or_introl eq_refl) eq_refl)
    as (msg & Hemit & _ & _ & _ & Hmsg).
  rewrite Hemit. cbn [map]. rewrite Hmsg. vm_compute. reflexivity.
Defined.

(** X17 at alice's message with the key store locked: the retry request
    throws after it asked for a pre-key, and the message is upserted all
    the same. *)
Lemma undecryptable_message_witness :
  let d := Example.decodeMessageStanza Example.message_A1 Example.my_creds in
  Task.effects (message_task (X := Cases.externals) Example.message_A1 d
                  (Cases.socket ∅))
  = [ SendNode
        (mkBinaryNode "ack"
           {[ "id" := "A1"; "to" := "alice@s.whatsapp.net"; "class" := "message" ]}
           NoContent);
      AwaitDecryption;
      Spawned [GetNextPreKeys];
      Emit (messages_upsert [decrypted d] Notify) ].
Proof.
  cbv zeta.
  destruct (undecryptable_message (X := Cases.externals) Example.message_A1
              (Example.decodeMessageStanza Example.message_A1 Example.my_creds)
              {| contact_id := "me.3@s.whatsapp.net"; contact_name := Some "Me" |}
              (Cases.socket ∅) eq_refl eq_refl) as (_ & _ & Heff).
  rewrite Heff. vm_compute. reflexivity.
Defined.

(** X18 at alice's message, after the client came online. *)
Lemma receipt_follows_connection_update_witness :
  let d := Example.decodeMessageStanza Example.message_A1_offline Example.my_creds in
  let s := Task.final (on_connection_update (Some true) (Example.socket ∅)) in
  Task.effects (message_task (X := Example.externals) Example.message_A1_offline d s)
  = [ SendNode
        (mkBinaryNode "ack"
           {[ "id" := "A1"; "to" := "alice@s.whatsapp.net"; "class" := "message" ]}
           NoContent);
      AwaitDecryption;
      SendReceipt (Some "alice@s.whatsapp.net") None [Some "A1"] None;
      Emit (messages_upsert [decrypted d] Append) ].
Proof.
  cbv zeta.
  destruct (receipt_follows_connection_update (X := Example.externals)
              Example.message_A1_offline
              (Example.decodeMessageStanza Example.message_A1_offline Example.my_creds)
              (Some true)
              {| contact_id := "me.3@s.whatsapp.net"; contact_name := Some "Me" |}
              (Example.socket ∅) eq_refl eq_refl eq_refl eq_refl) as (_ & _ & Heff).
  rewrite Heff. vm_compute. reflexivity.
Defined.

(** X19 at a document sent without a mimetype. *)
Lemma prepareMediaMessage_refuses_witness :
  let run :=
    Media.prepareMediaMessage (M := Example.media) [] Media.document
      (Media.mkMessageOptions None None None) tt in
  Task.effects run = []
  /\ Task.outcome run = Rejected "mimetype required to send a document".
Proof.
  exact (prepareMediaMessage_refuses (M := Example.media) [] Media.document
           (Media.mkMessageOptions None None None)
           (or_introl (conj eq_refl eq_refl))).
Defined.

(** X20 at the empty image: the upload is answered with a url. *)
Lemma prepareMediaMessage_upload_witness :
  resolved (Task.outcome
              (Media.prepareMediaMessage (M := Example.media) [] Media.image
                 (Media.mkMessageOptions None None None) tt)) = true.
Proof.
  destruct (prepareMediaMessage_upload (M := Example.media) [] Media.image
              (Media.mkMessageOptions None None None)
              (Media.mkMessageOptions (Some "image/jpeg") None None)
              {| Media.auth := "TOKEN"; Media.hosts := ["media.example.net"] |}
              "media.example.net" [] eq_refl eq_refl eq_refl eq_refl eq_refl)
    as (_ & Hiff & _).
  apply Hiff. eexists. split; [reflexivity | discriminate].
Defined.

(** X21 at a media server that lists no host. *)
Lemma prepareMediaMessage_no_host_witness :
  resolved (Task.outcome
              (Media.prepareMediaMessage (M := Cases.media_without_host) [] Media.image
                 (Media.mkMessageOptions None None None) tt)) = false.
Proof.
  refine (proj1 (prepareMediaMessage_no_host (M := Cases.media_without_host) []
                   Media.image (Media.mkMessageOptions None None None) _)).
  right. eexists. split; reflexivity.
Defined.

End MoreRuns.

Section CallRuns.
#[local] Existing Instance Example.payloads.
#[local] Existing Instance Example.externals.
#[local] Existing Instance Cases.socket_externals.
Import Calls.

(** X22 at a group video call that timed out: the node of the timeout says
    nothing about video or group, the event does. *)
Lemma call_flags_follow_offer_witness :
  let s1 := Task.final (handleCallNode Cases.call_offer_group_video Cases.call_socket) in
  let r := handleCallNode Cases.call_timed_out s1 in
  (exists call,
      call_events (Task.effects r) = [[call]]
      /\ isVideo call = Some true /\ isGroup call = Some true
      /\ status call = "timeout")
  /\ offer_at (Task.final r) "77" = None.
Proof.
  cbv zeta.
  destruct (call_flags_follow_offer Cases.call_offer_group_video Cases.call_timed_out
              (mkBinaryNode "offer"
                 {[ "call-id" := "77"; "call-creator" := "alice@s.whatsapp.net";
                    "type" := "group" ]}
                 (Children [mkBinaryNode "video" ∅ NoContent]))
              (mkBinaryNode "terminate"
                 {[ "call-id" := "77"; "call-creator" := "alice@s.whatsapp.net";
                    "reason" := "timeout" ]}
                 NoContent)
              Cases.call_socket)
    as (_ & (call & Hev & Hvideo & Hgroup & Hstatus & _) & Hgone & _).
  - reflexivity.
  - reflexivity.
  - reflexivity.
  - vm_compute. discriminate.
  - reflexivity.
  - split; [| apply Hgone; vm_compute; discriminate].
    exists call. split; [exact Hev|]. split; [exact Hvideo|].
    split; [exact Hgroup | exact Hstatus].
Defined.

(** The offer of a call whose id is [__proto__] becomes the prototype of
    [callOfferData].  The node that rejects the call finds it there, and
    so does every later node of that id: [delete] has removed nothing. *)
Example call_offer_under_proto :
  let s1 := Task.final (handleCallNode Cases.call_offer_proto Cases.call_socket) in
  let r := handleCallNode Cases.call_rejected_proto s1 in
  (isVideo <$> callOfferData s1 !! "__proto__") = None
  /\ (isVideo <$> offer_at s1 "__proto__") = Some (Some true)
  /\ map (map isVideo) (call_events (Task.effects r)) = [[Some true]]
  /\ (isVideo <$> offer_at (Task.final r) "__proto__") = Some (Some true).
Proof. cbv zeta. repeat split; vm_compute; reflexivity. Qed.

(** X23 at the same call: the timeout is upserted as a missed group video
    call, of type append for the offline node. *)
Lemma missed_call_message_witness :
  let s1 := Task.final (handleCallNode Cases.call_offer_group_video Cases.call_socket) in
  map (fun u => (call_messageStubType (fst u), snd u))
    (call_upserts (Task.effects (handleCallNode Cases.call_timed_out s1)))
  = [(Some CALL_MISSED_GROUP_VIDEO, Append)].
Proof.
  cbv zeta.
  destruct (missed_call_message Cases.call_timed_out
              (mkBinaryNode "terminate"
                 {[ "call-id" := "77"; "call-creator" := "alice@s.whatsapp.net";
                    "reason" := "timeout" ]}
                 NoContent)
              (Task.final (handleCallNode Cases.call_offer_group_video Cases.call_socket))
              eq_refl eq_refl) as (_ & Hups & _).
  rewrite Hups. vm_compute. reflexivity.
Defined.

(** X24 at the offer of the call: the ack is of type [offer]. *)
Lemma call_ack_after_listener_witness :
  let r := handleCallNode Cases.call_offer_group_video Cases.call_socket in
  resolved (Task.outcome r) = true
  /\ (attr <$> head (call_acks (Task.effects r))) ≫= (fun a => a "type") = Some "offer".
Proof.
  cbv zeta.
  destruct (call_ack_after_listener Cases.call_offer_group_video
              (mkBinaryNode "offer"
                 {[ "call-id" := "77"; "call-creator" := "alice@s.whatsapp.net";
                    "type" := "group" ]}
                 (Children [mkBinaryNode "video" ∅ NoContent]))
              Cases.call_socket eq_refl ltac:(discriminate))
    as (Hout & Hacks & _ & Hattr & _).
  split; [exact Hout|]. rewrite Hacks. exact Hattr.
Defined.

End CallRuns.

Section HistoryRuns.
#[local] Existing Instance Example.payloads.
#[local] Existing Instance Example.externals.
#[local] Existing Instance Cases.socket_externals.

(** X26 at alice's announcement of history: the receipt goes to
    [alice@c.us], and the next timeout resyncs with her chat. *)
Lemma history_message_receipt_witness :
  let r := History.processMessageLocal Cases.history_message Cases.history_start in
  Task.effects r
  = [ History.ProcessMessage Cases.history_message;
      History.AppStateSyncTimeout_start;
      History.HistoryReceipt (Some "alice@c.us") None [Some "H1"] (Some "hist_sync") ]
  /\ Task.effects (History.timeoutAppState (Task.final r))
     = [History.ResyncMainAppState (<["alice.2@s.whatsapp.net" := 1%Z]> ∅)].
Proof.
  cbv zeta.
  destruct (history_message_receipt (P := Example.payloads) (X := Example.externals)
              (C := Cases.socket_externals) Cases.history_message
              (decoded (P := Example.payloads) "history")
              {| user := "alice"; device := Some 2%Z |} ["messages.upsert"]
              ({[ "H1" ]} ∪ ∅) (<["alice.2@s.whatsapp.net" := 1%Z]> ∅)
              Cases.history_start eq_refl eq_refl eq_refl eq_refl)
    as (Hrun & Hnext).
  split; [exact (f_equal Task.effects Hrun) | exact Hnext].
Defined.

(** X27 at a message without an id, which cannot be processed. *)
Lemma processMessageLocal_without_history_witness :
  History.processMessageLocal Cases.message_without_id Cases.history_start
  = Task.mkRun (Rejected "message without id") Cases.history_start
      [History.ProcessMessage Cases.message_without_id].
Proof.
  refine (processMessageLocal_without_history (P := Example.payloads)
            (X := Example.externals) (C := Cases.socket_externals)
            Cases.message_without_id (Rejected "message without id") ∅ ∅
            Cases.history_start eq_refl _).
  left. reflexivity.
Defined.

End HistoryRuns.
